(** * Event-log analysis scripts of the ToM protocol repository

    A shallow embedding of

    - [crates/tom-stress/scripts/analyze-stress.py]   (module [Stress])
    - [experiments/iroh-poc/scripts/analyze-results.py] (module [Results])

    Both scripts read JSON-Lines event logs, compute statistics and print a
    report.  The embedding keeps what the scripts compute and in which order
    they print it:

    - a decoded JSON value is a [json]; a decoded record is a [JObj];
    - numbers are exact rationals ([Q]): Python's [statistics] module sums
      exactly and rounds once at the end, and the [.1f]-style rounding of the
      report is presentation, so a printed number is carried in a report line
      as the exact value that is formatted. JSON integers and floats are not
      told apart. The [NaN] and [Infinity] that [json.loads] accepts are
      outside the model, and so are the integers beyond the range of
      binary64, on which a float format or a conversion raises
      [OverflowError]: [Py.double_range] is the range in which no format
      overflows, [Py.double_exact] the one in which the single rounding of a
      mean or a median cannot carry it past the data;
    - a Python exception is an [exn], a computation that may raise is a
      [res], and a procedure that prints and may raise part-way is a [run]:
      the lines printed so far survive the exception;
    - the file system is a function from paths to file contents, a file
      being the list of its lines as the loader classifies them: blank,
      rejected with [JSONDecodeError], or decoded. A file that cannot be
      read as text, and a line on which [json.loads] fails in another way
      (an integer literal beyond the digit limit, nesting beyond the
      recursion limit), are outside the model. *)

From Stdlib Require Import List String Ascii Bool Arith ZArith QArith Qround.
From Stdlib Require Import Qabs.
From Stdlib Require Import Lia Lqa Permutation Sorted OrderedTypeEx.
From Stdlib Require PrimFloat FloatOps SpecFloat Uint63.
Import ListNotations.

Set Implicit Arguments.
Set Warnings "-register-all".
Open Scope string_scope.

(** ** Python values and exceptions *)

Module Py.

(** What [json.loads] returns for one line. An object is the list of the
    items of the decoded [dict]. *)
Inductive json : Type :=
| JNull
| JBool (b : bool)
| JNum (q : Q)
| JStr (s : string)
| JArr (items : list json)
| JObj (fields : list (string * json)).

(** The exceptions the two scripts can meet. Where a non-numeric value
    reaches an arithmetic, comparison or formatting operation Python raises
    [TypeError] or [ValueError] depending on the operation and on the value;
    no handler in either script tells them apart. *)
Inductive exn : Type :=
| FileNotFoundError
| KeyError (key : string)
| AttributeError
| TypeError
| ValueError
| ZeroDivisionError
| IndexError
| StatisticsError.

Inductive res (A : Type) : Type :=
| Ok (a : A)
| Raise (e : exn).
Arguments Ok {A} a.
Arguments Raise {A} e.

Definition res_bind {A B} (r : res A) (k : A -> res B) : res B :=
  match r with
  | Ok a => k a
  | Raise e => Raise e
  end.

Declare Scope res_scope.
Delimit Scope res_scope with res.
Notation "x <-? r ;; k" := (res_bind r (fun x => k))
  (at level 100, r at next level, right associativity) : res_scope.

Fixpoint map_res {A B} (f : A -> res B) (l : list A) : res (list B) :=
  match l with
  | [] => Ok []
  | a :: l' =>
      res_bind (f a) (fun b =>
      res_bind (map_res f l') (fun bs => Ok (b :: bs)))
  end.

(** A procedure that prints: the lines printed, in order, and how the
    procedure ended. *)
Record run (L A : Type) : Type := Run { printed : list L; outcome : res A }.
Arguments Run {L A} printed outcome.

Definition ret {L A} (a : A) : run L A := Run [] (Ok a).
Definition print {L} (l : L) : run L unit := Run [l] (Ok tt).
Definition lift {L A} (r : res A) : run L A := Run [] r.

Definition bind {L A B} (m : run L A) (k : A -> run L B) : run L B :=
  match outcome m with
  | Ok a => let m' := k a in Run (printed m ++ printed m') (outcome m')
  | Raise e => Run (printed m) (Raise e)
  end.

Declare Scope run_scope.
Delimit Scope run_scope with run.
Notation "x <- m ;; k" := (bind m (fun x => k))
  (at level 100, m at next level, right associativity) : run_scope.
Notation "m ;; k" := (bind m (fun _ => k))
  (at level 100, right associativity) : run_scope.

(** [for x in l: body] *)
Fixpoint for_each {L A} (l : list A) (body : A -> run L unit) : run L unit :=
  match l with
  | [] => ret tt
  | a :: l' => bind (body a) (fun _ => for_each l' body)
  end.

(** How [main] ends when no exception escapes it: it returns, or it calls
    [sys.exit]. Both scripts call [sys.exit] only as the last statement of a
    branch of [main], outside every [try]. *)
Inductive ending : Type :=
| Done
| SysExit (code : Z).

(** The exit status of the interpreter: [sys.exit(c)] gives [c], an uncaught
    exception 1 (after the traceback), a normal end 0. *)
Definition exit_status (r : res ending) : Z :=
  match r with
  | Ok Done => 0%Z
  | Ok (SysExit c) => c
  | Raise _ => 1%Z
  end.

(** *** Dictionaries *)

Fixpoint lookup (k : string) (fields : list (string * json)) : option json :=
  match fields with
  | [] => None
  | (k', v) :: rest => if String.eqb k k' then Some v else lookup k rest
  end.

(** [e.get(k)]: [None] is Python's [None] for an absent key; a value that is
    not a [dict] has no [get]. *)
Definition get (e : json) (k : string) : res (option json) :=
  match e with
  | JObj fields => Ok (lookup k fields)
  | _ => Raise AttributeError
  end.

(** [d.get(k, default)] on a value known to be a record. *)
Definition get_default (e : json) (k : string) (default : json) : json :=
  match e with
  | JObj fields =>
      match lookup k fields with
      | Some v => v
      | None => default
      end
  | _ => default
  end.

(** [d[k]] *)
Definition subscript (e : json) (k : string) : res json :=
  match e with
  | JObj fields =>
      match lookup k fields with
      | Some v => Ok v
      | None => Raise (KeyError k)
      end
  | _ => Raise TypeError
  end.

(** [e.get(k) == s] for a string literal [s] *)
Definition field_is (k s : string) (e : json) : res bool :=
  match get e k with
  | Ok (Some (JStr s')) => Ok (String.eqb s' s)
  | Ok _ => Ok false
  | Raise x => Raise x
  end.

(** [[e for e in events if e.get(k) == s]] *)
Fixpoint select (k s : string) (events : list json) : res (list json) :=
  match events with
  | [] => Ok []
  | e :: rest =>
      res_bind (field_is k s e) (fun b =>
      res_bind (select k s rest) (fun es =>
      Ok (if b then e :: es else es)))
  end.

(** A decoded record, as opposed to any other decoded value *)
Definition is_record (e : json) : bool :=
  match e with
  | JObj _ => true
  | _ => false
  end.

(** *** Numbers *)

(** The number a value stands for in arithmetic; [True] and [False] are 1
    and 0. *)
Definition number (v : json) : res Q :=
  match v with
  | JNum q => Ok q
  | JBool b => Ok (if b then 1 else 0)
  | _ => Raise TypeError
  end.

(** [f"{v:.1f}"] and the like: the number that is formatted. The format
    converts an integer to a float first; the [OverflowError] of an
    integer beyond [double_max] is not modelled. *)
Definition fmt_float (v : json) : res Q :=
  match v with
  | JNum q => Ok q
  | JBool b => Ok (if b then 1 else 0)
  | JStr _ => Raise ValueError
  | _ => Raise TypeError
  end.

(** [f"{v:>4}"]: the value that is padded; [None], lists and dicts take no
    format specification. *)
Definition fmt_align (v : json) : res json :=
  match v with
  | JNull | JArr _ | JObj _ => Raise TypeError
  | _ => Ok v
  end.

(** Truth value of a decoded value. *)
Definition truthy (v : json) : bool :=
  match v with
  | JNull => false
  | JBool b => b
  | JNum q => negb (Qeq_bool q 0)
  | JStr s => negb (String.eqb s "")
  | JArr l => match l with [] => false | _ => true end
  | JObj f => match f with [] => false | _ => true end
  end.

(** [v or 0] *)
Definition or_zero (v : option json) : json :=
  match v with
  | Some x => if truthy x then x else JNum 0
  | None => JNum 0
  end.

Definition numbers (l : list json) : res (list Q) := map_res number l.

(** The largest binary64 number, and the numbers within its range: an
    integer of this range converts to a float, and a float format of a
    number of this range does not overflow. *)
Definition double_max : Q := inject_Z ((2 ^ 53 - 1) * 2 ^ 971).

Definition double_range (q : Q) : Prop := Qabs q <= double_max.

(** The magnitudes up to 2^53: an integer among them is a binary64 number.
    The mean and the median of numbers of this range, rounded once to
    binary64, stay between the least and the greatest of them. *)
Definition double_exact (q : Q) : Prop := Qabs q <= inject_Z (2 ^ 53).

(** *** Sorting and statistics *)

Section Sorting.
Variable A : Type.
Variable leb : A -> A -> bool.

(** [sorted] is stable: an element goes after the elements it does not
    precede strictly. *)
Fixpoint insert (x : A) (l : list A) : list A :=
  match l with
  | [] => [x]
  | y :: l' => if leb y x then y :: insert x l' else x :: y :: l'
  end.

Definition sorted (l : list A) : list A :=
  fold_left (fun acc x => insert x acc) l [].
End Sorting.

Definition sorted_num : list Q -> list Q := sorted Qle_bool.
Definition sorted_str : list string -> list string := sorted String.leb.

Definition sum (l : list Q) : Q := fold_left Qplus l 0.

Definition len (l : list Q) : Q := inject_Z (Z.of_nat (List.length l)).

(** [statistics.mean]: the exact mean. Python rounds it once, to the
    nearest binary64 number, unless the data are integers with an
    integral mean. *)
Definition mean (l : list Q) : res Q :=
  match l with
  | [] => Raise StatisticsError
  | _ => Ok (sum l / len l)
  end.

(** [statistics.median]: the middle element, or the exact mean of the two
    middle elements, which Python rounds to binary64. *)
Definition median (l : list Q) : res Q :=
  let data := sorted_num l in
  let n := List.length data in
  match n with
  | O => Raise StatisticsError
  | _ =>
      if Nat.odd n then Ok (nth (n / 2) data 0)
      else
        let i := (n / 2)%nat in
        Ok ((nth (i - 1) data 0 + nth i data 0) / 2)
  end.

(** The sample variance; [statistics.stdev] is its square root and needs two
    data points. *)
Definition variance (l : list Q) : res Q :=
  match l with
  | [] | [_] => Raise StatisticsError
  | _ =>
      let m := sum l / len l in
      Ok (sum (map (fun x => (x - m) * (x - m)) l) / (len l - 1))
  end.

(** [min] and [max] return the first extremal element. *)
Definition py_min (l : list Q) : res Q :=
  match l with
  | [] => Raise ValueError
  | x :: l' => Ok (fold_left (fun m y => if Qlt_le_dec y m then y else m) l' x)
  end.

Definition py_max (l : list Q) : res Q :=
  match l with
  | [] => Raise ValueError
  | x :: l' => Ok (fold_left (fun m y => if Qlt_le_dec m y then y else m) l' x)
  end.

(** [x < y] between decoded values: numbers (booleans among them) compare
    by value and strings by code point; a number and a string, [None] or a
    [dict] on either side raise [TypeError]. Two lists do compare in
    Python, element by element, or raise [TypeError]; both scripts format
    the extremum they find as a number, which raises [TypeError] for a
    list, so the comparison of lists is modelled by that [TypeError]. *)
Definition less (x y : json) : res bool :=
  match x, y with
  | JStr s, JStr t => Ok (String.ltb s t)
  | _, _ =>
      res_bind (number x) (fun a =>
      res_bind (number y) (fun b =>
      Ok (if Qlt_le_dec a b then true else false)))
  end.

(** [min(l)] and [max(l)] on decoded values: the first extremal element;
    a list of one element is not compared with anything. *)
Fixpoint least_from (m : json) (l : list json) : res json :=
  match l with
  | [] => Ok m
  | x :: l' => res_bind (less x m) (fun b => least_from (if b then x else m) l')
  end.

Definition least (l : list json) : res json :=
  match l with
  | [] => Raise ValueError
  | x :: l' => least_from x l'
  end.

Fixpoint greatest_from (m : json) (l : list json) : res json :=
  match l with
  | [] => Ok m
  | x :: l' =>
      res_bind (less m x) (fun b => greatest_from (if b then x else m) l')
  end.

Definition greatest (l : list json) : res json :=
  match l with
  | [] => Raise ValueError
  | x :: l' => greatest_from x l'
  end.

(** [int(n * 0.95)]: the product is not negative, so truncation is the floor.
    The double nearest to 0.95 lies below it by less than 5e-17, and the
    product with a list length rounds to the same integer part. *)
Definition p95_index (n : nat) : nat :=
  Z.to_nat (Qfloor (inject_Z (Z.of_nat n) * (95 # 100))).

(** [xs[i]] *)
Definition index {A} (xs : list A) (i : nat) : res A :=
  match nth_error xs i with
  | Some x => Ok x
  | None => Raise IndexError
  end.

(** [sorted(rtts)[int(len(rtts) * 0.95)]] *)
Definition p95 (rtts : list Q) : res Q :=
  index (sorted_num rtts) (p95_index (List.length rtts)).

(** The RTTs of the ping events of a file, as both scripts collect them:
    [[p["rtt_ms"] for p in pings]], taken as numbers. *)
Definition ping_rtts (events : list json) : res (list Q) :=
  res_bind (select "event" "ping" events) (fun pings =>
  res_bind (map_res (fun p => subscript p "rtt_ms") pings) numbers).

(** *** Files *)

(** A line of a file, as the loader sees it after [strip]: empty, rejected by
    [json.loads] with [JSONDecodeError], or decoded. *)
Inductive fline : Type :=
| Blank
| Malformed
| Decoded (v : json).

(** The file system: the lines of the file at a path, if there is one. *)
Definition files := string -> option (list fline).

Definition decoded (l : fline) : list json :=
  match l with
  | Decoded v => [v]
  | _ => []
  end.

End Py.

(** ** Path names

    [pathlib]'s view of a POSIX path: the components between slashes, empty
    and [.] components dropped. *)

Module Path.

Fixpoint components (s : string) : list string :=
  match s with
  | EmptyString => [""]
  | String c s' =>
      if Ascii.eqb c "/" then "" :: components s'
      else
        match components s' with
        | hd :: tl => String c hd :: tl
        | [] => [String c ""]
        end
  end.

Definition parts (path : string) : list string :=
  filter (fun p => negb (String.eqb p "" || String.eqb p "."))
         (components path).

(** [Path(path).name] *)
Definition name (path : string) : string := last (parts path) "".

(** [Path(path).parent.name] *)
Definition parent_name (path : string) : string :=
  last (removelast (parts path)) "".

End Path.

(** ** analyze-stress.py *)

Module Stress.
Import Py.
Open Scope run_scope.

(** The payload size column of the ladder table: [f"{size // 1024}KB"] or
    [f"{size}B"]. *)
Inductive size_str : Type :=
| KB (n : Z)
| B (size : json).

(** The lines of the report, one constructor per [print] of the script; a
    value that the script formats as a number is the number, a value that it
    prints as it is is the decoded value. *)
Inductive line : Type :=
| L_box_top
| L_box_title
| L_box_bottom
| L_files (n : nat)
| L_empty (label : string)
| L_section_rule
| L_rule
| L_heading (aggregator label : string)
| L_total_pings (n : nat)
| L_rtt_min (q : Q)
| L_rtt_max (q : Q)
| L_rtt_avg (q : Q)
| L_rtt_median (q : Q)
| L_rtt_stddev (variance : Q)
| L_rtt_p95 (q : Q)
| L_success_rate (ok total : json) (pct : Q)
| L_blank
| L_reconnections (n : json)
| L_path_changes (n direct relay : nat)
| L_round (n : json)
| L_sent_acked (sent acked lost : json)
| L_payload (size : json)
| L_throughput (mps kbps : Q)
| L_duration (ms : Q)
| L_burst_rtt (rmin ravg rmax : Q)
| L_ladder_header
| L_ladder_row (size : size_str) (ok fail : json) (rmin ravg rmax : Q)
| L_targets (n : json)
| L_sent_delivered (sent delivered : json)
| L_failed (n : json)
| L_avg_rtt (q : Q)
| L_max_rtt (q : Q)
| L_end_rule
| L_done
| L_usage.

Definition proc := run line unit.

Definition load_events (fs : files) (path : string) : res (list json) :=
  match fs path with
  | None => Raise FileNotFoundError
  | Some lines => Ok (flat_map decoded lines)
  end.

Definition is_empty {A} (l : list A) : bool :=
  match l with
  | [] => true
  | _ => false
  end.

(** The three statistics behind [if len(rtts) > 1]. *)
Definition spread_lines (rtts : list Q) : proc :=
  if (1 <? List.length rtts)%nat then
    md <- lift (median rtts) ;;
    print (L_rtt_median md) ;;
    var <- lift (variance rtts) ;;
    print (L_rtt_stddev var) ;;
    p <- lift (p95 rtts) ;;
    print (L_rtt_p95 p)
  else ret tt.

(** The block under [if summaries]. *)
Definition summary_lines (summaries : list json) : proc :=
  match summaries with
  | [] => ret tt
  | s0 :: rest =>
      let s := last rest s0 in
      let total := get_default s "total_pings" (JNum 0) in
      let ok := get_default s "successful" (JNum 0) in
      let fail := get_default s "failed" (JNum 0) in
      let reconn := get_default s "reconnections" (JNum 0) in
      (if truthy total
       then
         hundred_ok <- lift (number ok) ;;
         t <- lift (number total) ;;
         print (L_success_rate ok total (100 * hundred_ok / t))
       else print L_blank) ;;
      print (L_reconnections reconn)
  end.

(** The block under [if path_changes]. *)
Definition path_change_lines (path_changes : list json) : proc :=
  if is_empty path_changes then ret tt
  else
    direct <- lift (select "kind" "direct" path_changes) ;;
    relay <- lift (select "kind" "relay" path_changes) ;;
    print (L_path_changes (List.length path_changes)
                          (List.length direct) (List.length relay)).

Definition analyze_pings (events : list json) (label : string) : proc :=
  pings <- lift (select "event" "ping" events) ;;
  if is_empty pings then ret tt
  else
    rtts <- lift (map_res (fun p => subscript p "rtt_ms") pings) ;;
    summaries <- lift (select "event" "summary" events) ;;
    path_changes <- lift (select "event" "path_change" events) ;;
    print L_section_rule ;;
    print (L_heading "PING" label) ;;
    print L_rule ;;
    print (L_total_pings (List.length pings)) ;;
    lo <- lift (least rtts) ;;
    lo' <- lift (fmt_float lo) ;;
    print (L_rtt_min lo') ;;
    hi <- lift (greatest rtts) ;;
    hi' <- lift (fmt_float hi) ;;
    print (L_rtt_max hi') ;;
    nums <- lift (numbers rtts) ;;
    avg <- lift (mean nums) ;;
    print (L_rtt_avg avg) ;;
    spread_lines nums ;;
    summary_lines summaries ;;
    path_change_lines path_changes.

Definition burst_round (r : json) : proc :=
  let sent := get_default r "messages_sent" (JNum 0) in
  let acked := get_default r "messages_acked" (JNum 0) in
  let lost := get_default r "lost" (JNum 0) in
  let size := get_default r "payload_size" (JNum 0) in
  let mps := get_default r "messages_per_sec" (JNum 0) in
  let bps := get_default r "bytes_per_sec" (JNum 0) in
  let elapsed := get_default r "elapsed_ms" (JNum 0) in
  print (L_round (get_default r "round" (JStr "?"))) ;;
  print (L_sent_acked sent acked lost) ;;
  print (L_payload size) ;;
  m <- lift (fmt_float mps) ;;
  b <- lift (number bps) ;;
  print (L_throughput m (b / 1024)) ;;
  el <- lift (fmt_float elapsed) ;;
  print (L_duration el) ;;
  rmin <- lift (fmt_float (get_default r "rtt_min_ms" (JNum 0))) ;;
  ravg <- lift (fmt_float (get_default r "rtt_avg_ms" (JNum 0))) ;;
  rmax <- lift (fmt_float (get_default r "rtt_max_ms" (JNum 0))) ;;
  print (L_burst_rtt rmin ravg rmax).

Definition analyze_burst (events : list json) (label : string) : proc :=
  results <- lift (select "event" "burst_result" events) ;;
  if is_empty results then ret tt
  else
    print L_section_rule ;;
    print (L_heading "BURST" label) ;;
    print L_rule ;;
    for_each results burst_round.

Definition ladder_row (r : json) : proc :=
  let size := get_default r "size" (JNum 0) in
  let ok := get_default r "successful" (JNum 0) in
  let fail := get_default r "failed" (JNum 0) in
  rs <- lift (get r "rtt_min_ms") ;;
  let rmin := or_zero rs in
  ra <- lift (get r "rtt_avg_ms") ;;
  let ravg := or_zero ra in
  rx <- lift (get r "rtt_max_ms") ;;
  let rmax := or_zero rx in
  sz <- lift (number size) ;;
  let size_str :=
    if Qle_bool 1024 sz then KB (Qfloor (sz / 1024)) else B size in
  ok' <- lift (fmt_align ok) ;;
  fail' <- lift (fmt_align fail) ;;
  rmin' <- lift (fmt_float rmin) ;;
  ravg' <- lift (fmt_float ravg) ;;
  rmax' <- lift (fmt_float rmax) ;;
  print (L_ladder_row size_str ok' fail' rmin' ravg' rmax').

Definition analyze_ladder (events : list json) (label : string) : proc :=
  results <- lift (select "event" "ladder_result" events) ;;
  if is_empty results then ret tt
  else
    print L_section_rule ;;
    print (L_heading "LADDER" label) ;;
    print L_rule ;;
    print L_ladder_header ;;
    for_each results ladder_row.

Definition fanout_trial (r : json) : proc :=
  print (L_targets (get_default r "target_count" (JStr "?"))) ;;
  print (L_sent_delivered (get_default r "total_sent" (JNum 0))
                          (get_default r "total_delivered" (JNum 0))) ;;
  print (L_failed (get_default r "total_failed" (JNum 0))) ;;
  avg <- lift (fmt_float (get_default r "avg_rtt_ms" (JNum 0))) ;;
  print (L_avg_rtt avg) ;;
  mx <- lift (fmt_float (get_default r "max_rtt_ms" (JNum 0))) ;;
  print (L_max_rtt mx).

Definition analyze_fanout (events : list json) (label : string) : proc :=
  results <- lift (select "event" "fanout_result" events) ;;
  if is_empty results then ret tt
  else
    print L_section_rule ;;
    print (L_heading "FANOUT" label) ;;
    print L_rule ;;
    for_each results fanout_trial.

Definition label_of (path : string) : string :=
  Path.parent_name path ++ "/" ++ Path.name path.

(** The body of [for path in sorted(files)]. *)
Definition report_file (fs : files) (path : string) : proc :=
  let label := label_of path in
  events <- lift (load_events fs path) ;;
  if is_empty events then print (L_empty label)
  else
    analyze_pings events label ;;
    analyze_burst events label ;;
    analyze_ladder events label ;;
    analyze_fanout events label.

(** [main], with [sys.argv[1:]] as [files]. *)
Definition main (fs : files) (files : list string) : run line ending :=
  if is_empty files then
    print L_usage ;;
    ret (SysExit 1)
  else
    print L_box_top ;;
    print L_box_title ;;
    print L_box_bottom ;;
    print (L_files (List.length files)) ;;
    for_each (sorted_str files) (report_file fs) ;;
    print L_end_rule ;;
    print L_done ;;
    ret Done.

(** *** Report lines by kind *)

(** The lines that [analyze_pings] prints when there are pings with
    numeric RTTs, up to the blocks that follow the mean. *)
Definition ping_head (label : string) (n : nat) (lo hi avg : Q) : list line :=
  [L_section_rule; L_heading "PING" label; L_rule; L_total_pings n;
   L_rtt_min lo; L_rtt_max hi; L_rtt_avg avg].

(** The lines under [if len(rtts) > 1] *)
Definition is_spread (l : line) : bool :=
  match l with
  | L_rtt_median _ | L_rtt_stddev _ | L_rtt_p95 _ => true
  | _ => false
  end.

Definition is_success_rate (l : line) : bool :=
  match l with
  | L_success_rate _ _ _ => true
  | _ => false
  end.

End Stress.

(** ** analyze-results.py *)

Module Results.
Import Py.

(** The dictionary [analyze_file] returns. Its first nine keys are always
    set; a key that is set only under a condition is an [option], [None] for
    a key that is not in the dictionary. *)
Record result : Type := Result {
  file : string;
  total_pings : nat;
  direct_pings : nat;
  relay_pings : nat;
  direct_pct : Q;
  path_changes : nat;
  hole_punches : nat;
  disconnections : nat;
  reconnections : nat;
  rtt_mean : option Q;
  rtt_median : option Q;
  rtt_p95 : option Q;
  rtt_min : option Q;
  rtt_max : option Q;
  direct_rtt_mean : option Q;
  direct_rtt_p95 : option Q;
  relay_rtt_mean : option Q;
  hole_punch_time_s : option json;
  reconnect_mean_ms : option Q;
  reconnect_max_ms : option Q;
  duration_s : option json;
  total_disconnected_s : option json
}.

Open Scope res_scope.

Definition is_empty {A} (l : list A) : bool :=
  match l with
  | [] => true
  | _ => false
  end.

Definition count {A} (l : list A) : Q := inject_Z (Z.of_nat (List.length l)).

(** The analysis of the decoded events of a file named [name]: the body of
    [analyze_file] after the loading loop. *)
Definition analyze_events (name : string) (events : list json) : res result :=
  pings <-? select "event" "ping" events ;;
  path_changes <-? select "event" "path_change" events ;;
  hole_punches <-? select "event" "hole_punch" events ;;
  disconnects <-? select "event" "disconnected" events ;;
  reconnects <-? select "event" "reconnected" events ;;
  summaries <-? select "event" "summary" events ;;
  direct_pings <-? select "via" "DIRECT" pings ;;
  relay_pings <-? select "via" "RELAY" pings ;;
  direct_rtts <-? map_res (fun p => subscript p "rtt_ms") direct_pings ;;
  relay_rtts <-? map_res (fun p => subscript p "rtt_ms") relay_pings ;;
  all_rtts <-? map_res (fun p => subscript p "rtt_ms") pings ;;
  (* the exact quotient; Python rounds the division and the product *)
  let direct_pct :=
    if is_empty pings then 0
    else count direct_pings / count pings * 100 in
  (* RTT stats *)
  all_stats <-?
    (if is_empty all_rtts then Ok (None, None, None, None, None)
     else
       nums <-? numbers all_rtts ;;
       m <-? mean nums ;;
       md <-? median nums ;;
       p <-? p95 nums ;;
       lo <-? py_min nums ;;
       hi <-? py_max nums ;;
       Ok (Some m, Some md, Some p, Some lo, Some hi)) ;;
  direct_stats <-?
    (if is_empty direct_rtts then Ok (None, None)
     else
       nums <-? numbers direct_rtts ;;
       m <-? mean nums ;;
       p <-? p95 nums ;;
       Ok (Some m, Some p)) ;;
  relay_mean <-?
    (if is_empty relay_rtts then Ok None
     else
       nums <-? numbers relay_rtts ;;
       m <-? mean nums ;;
       Ok (Some m)) ;;
  (* Hole punch timing *)
  let punch :=
    match hole_punches with
    | [] => None
    | h :: _ => Some (get_default h "time_to_direct_s" (JNum 0))
    end in
  (* Reconnection stats *)
  recon <-?
    (if is_empty reconnects then Ok (None, None)
     else
       recon_times <-?
         map_res (fun r => subscript r "reconnect_time_ms") reconnects ;;
       nums <-? numbers recon_times ;;
       m <-? mean nums ;;
       hi <-? py_max nums ;;
       Ok (Some m, Some hi)) ;;
  (* Duration *)
  let duration :=
    match pings with
    | [] => None
    | p0 :: rest => Some (get_default (last rest p0) "elapsed_s" (JNum 0))
    end in
  (* Use final summary if available *)
  let downtime :=
    match summaries with
    | [] => None
    | s0 :: rest =>
        Some (get_default (last rest s0) "total_disconnected_s" (JNum 0))
    end in
  let '(m, md, p, lo, hi) := all_stats in
  Ok {| file := name;
        total_pings := List.length pings;
        direct_pings := List.length direct_pings;
        relay_pings := List.length relay_pings;
        direct_pct := direct_pct;
        path_changes := List.length path_changes;
        hole_punches := List.length hole_punches;
        disconnections := List.length disconnects;
        reconnections := List.length reconnects;
        rtt_mean := m;
        rtt_median := md;
        rtt_p95 := p;
        rtt_min := lo;
        rtt_max := hi;
        direct_rtt_mean := fst direct_stats;
        direct_rtt_p95 := snd direct_stats;
        relay_rtt_mean := relay_mean;
        hole_punch_time_s := punch;
        reconnect_mean_ms := fst recon;
        reconnect_max_ms := snd recon;
        duration_s := duration;
        total_disconnected_s := downtime |}.

Definition analyze_file (fs : files) (filepath : string) : res result :=
  match fs filepath with
  | None => Raise FileNotFoundError
  | Some lines => analyze_events (Path.name filepath) (flat_map decoded lines)
  end.

(** A row of the comparison table; [None] in a column is the dash. *)
Record row : Type := Row {
  row_name : string;
  row_pings : nat;
  row_direct_pct : Q;
  row_rtt : Q;
  row_punch : option Q;
  row_discon : nat;
  row_recon : nat;
  row_down : option Q
}.

Inductive line : Type :=
| L_usage
| L_skip (f : string)
| L_error (f : string) (e : exn)
| L_no_valid_results
| L_sep60_nl
| L_sep60
| L_file (name : string)
| L_blank
| L_duration (seconds minutes : Q)
| L_total_pings (n : nat)
| L_direct (n : nat) (pct : Q)
| L_relay (n : nat)
| L_rtt_all (rmean rmedian rp95 rmin rmax : Q)
| L_rtt_direct (rmean rp95 : Q)
| L_rtt_relay (rmean : Q)
| L_hole_punch (seconds : Q)
| L_path_changes (n : nat)
| L_disconnections (n : nat)
| L_reconnections (n : nat)
| L_reconnect_time (rmean rmax : Q)
| L_total_downtime (seconds : Q)
| L_sep100_nl
| L_sep100
| L_comparison_title
| L_table_header
| L_dashes
| L_row (r : row)
| L_average_direct (dmean dmin dmax : Q)
| L_totals (discon recon : nat).

Definition proc := run line unit.

(** [r[k]] for a key that is set only under a condition *)
Definition item {A} (k : string) (v : option A) : res A :=
  match v with
  | Some a => Ok a
  | None => Raise (KeyError k)
  end.

Definition or_default {A} (v : option A) (d : A) : A :=
  match v with
  | Some a => a
  | None => d
  end.

Close Scope res_scope.
Open Scope run_scope.

(** [if k in r: body], with [r[k]] handed to the body *)
Definition when_set {A} (v : option A) (body : A -> proc) : proc :=
  match v with
  | Some a => body a
  | None => ret tt
  end.

Definition print_single (r : result) : proc :=
  print L_sep60_nl ;;
  print (L_file (file r)) ;;
  print L_sep60 ;;
  print L_blank ;;
  let dur := or_default (duration_s r) (JNum 0) in
  d <- lift (fmt_float dur) ;;
  print (L_duration d (d / 60)) ;;
  print (L_total_pings (total_pings r)) ;;
  print (L_direct (direct_pings r) (direct_pct r)) ;;
  print (L_relay (relay_pings r)) ;;
  print L_blank ;;
  when_set (rtt_mean r) (fun m =>
    md <- lift (item "rtt_median" (rtt_median r)) ;;
    p <- lift (item "rtt_p95" (rtt_p95 r)) ;;
    lo <- lift (item "rtt_min" (rtt_min r)) ;;
    hi <- lift (item "rtt_max" (rtt_max r)) ;;
    print (L_rtt_all m md p lo hi)) ;;
  when_set (direct_rtt_mean r) (fun m =>
    p <- lift (item "direct_rtt_p95" (direct_rtt_p95 r)) ;;
    print (L_rtt_direct m p)) ;;
  when_set (relay_rtt_mean r) (fun m => print (L_rtt_relay m)) ;;
  print L_blank ;;
  when_set (hole_punch_time_s r) (fun v =>
    t <- lift (fmt_float v) ;;
    print (L_hole_punch t)) ;;
  print (L_path_changes (path_changes r)) ;;
  print (L_disconnections (disconnections r)) ;;
  print (L_reconnections (reconnections r)) ;;
  when_set (reconnect_mean_ms r) (fun m =>
    hi <- lift (item "reconnect_max_ms" (reconnect_max_ms r)) ;;
    print (L_reconnect_time m hi)) ;;
  when_set (total_disconnected_s r) (fun v =>
    t <- lift (fmt_float v) ;;
    print (L_total_downtime t)) ;;
  print L_blank.

(** [s.replace(pat, "")]: the occurrences of [pat] are found from the left
    and do not overlap; [skip] characters of the occurrence just found are
    still to be dropped. *)
Fixpoint remove_all (pat : string) (skip : nat) (s : string) : string :=
  match s with
  | EmptyString => EmptyString
  | String c s' =>
      match skip with
      | S k => remove_all pat k s'
      | O =>
          if String.prefix pat s
          then remove_all pat (String.length pat - 1) s'
          else String c (remove_all pat 0 s')
      end
  end.

(** [r["file"].replace(".jsonl", "")[:29]] *)
Definition scenario (r : result) : string :=
  String.substring 0 29 (remove_all ".jsonl" 0 (file r)).

(** [r.get('direct_rtt_mean', r.get('rtt_mean', 0))] *)
Definition rtt_column (r : result) : Q :=
  or_default (direct_rtt_mean r) (or_default (rtt_mean r) 0).

(** [f"{v:.2f}" if k in r else "-"] *)
Definition column (v : option json) : res (option Q) :=
  match v with
  | Some x => res_bind (fmt_float x) (fun q => Ok (Some q))
  | None => Ok None
  end.

Definition comparison_row (r : result) : proc :=
  let name := scenario r in
  let rtt := rtt_column r in
  punch <- lift (column (hole_punch_time_s r)) ;;
  down <- lift (column (total_disconnected_s r)) ;;
  print (L_row {| row_name := name;
                  row_pings := total_pings r;
                  row_direct_pct := direct_pct r;
                  row_rtt := rtt;
                  row_punch := punch;
                  row_discon := disconnections r;
                  row_recon := reconnections r;
                  row_down := down |}).

Definition total (l : list nat) : nat := fold_left Nat.add l 0%nat.

Definition print_comparison (results : list result) : proc :=
  print L_sep100_nl ;;
  print L_comparison_title ;;
  print L_sep100 ;;
  print L_blank ;;
  print L_table_header ;;
  print L_dashes ;;
  for_each results comparison_row ;;
  print L_blank ;;
  let all_direct := map direct_pct results in
  avg <- lift (mean all_direct) ;;
  lo <- lift (py_min all_direct) ;;
  hi <- lift (py_max all_direct) ;;
  print (L_average_direct avg lo hi) ;;
  print (L_totals (total (map disconnections results))
                  (total (map reconnections results))) ;;
  print L_blank.

(** The loop [for f in files] of [main]: [results] is the list built so
    far. *)
Fixpoint analyze_all (fs : files) (files : list string)
         (results : list result) : run line (list result) :=
  match files with
  | [] => ret results
  | f :: rest =>
      match analyze_file fs f with
      | Ok r => analyze_all fs rest (results ++ [r])
      | Raise FileNotFoundError =>
          print (L_skip f) ;; analyze_all fs rest results
      | Raise e =>
          print (L_error f e) ;; analyze_all fs rest results
      end
  end.

(** [main], with [sys.argv[1:]] as [files]. *)
Definition main (fs : files) (files : list string) : run line ending :=
  if is_empty files then
    print L_usage ;;
    ret (SysExit 1)
  else
    results <- analyze_all fs files [] ;;
    if is_empty results then
      print L_no_valid_results ;;
      ret (SysExit 1)
    else
      for_each results print_single ;;
      (if (1 <? List.length results)%nat then print_comparison results
       else ret tt) ;;
      ret Done.

(** *** Observations *)

Open Scope Q_scope.

(** The RTTs of the direct pings of a file:
    [[p["rtt_ms"] for p in direct_pings]], taken as numbers. *)
Definition direct_rtts (events : list json) : res (list Q) :=
  res_bind (select "event" "ping" events) (fun pings =>
  res_bind (select "via" "DIRECT" pings) (fun direct_pings =>
  res_bind (map_res (fun p => subscript p "rtt_ms") direct_pings) numbers)).

(** A value stored only for a list that is not empty *)
Definition opt {A} (l : list Q) (a : A) : option A :=
  if is_empty l then None else Some a.

(** The RTT lines of a section *)
Definition is_rtt_line (l : line) : bool :=
  match l with
  | L_rtt_all _ _ _ _ _ | L_rtt_direct _ _ | L_rtt_relay _ => true
  | _ => false
  end.

(** What a file adds to the results of analyze-results.py. *)
Definition attempt (fs : files) (f : string) : list result :=
  match analyze_file fs f with
  | Ok r => [r]
  | Raise _ => []
  end.

(** The line that opens the section of a file *)
Definition is_file_line (l : line) : bool :=
  match l with
  | L_file _ => true
  | _ => false
  end.

End Results.

(** ** The index in binary64

    [int(len(rtts) * 0.95)] as the interpreter computes it: the length as a
    double, times the double nearest to 0.95, truncated. [p95_index] is the
    same number for every length a log file can have in practice; the lemma
    checks the lengths up to 2000. *)

Module Double.
Import PrimFloat.

(** [int(x)] for a finite double that is not negative *)
Definition trunc (x : PrimFloat.float) : Z :=
  match FloatOps.Prim2SF x with
  | SpecFloat.S754_finite false m e =>
      if (0 <=? e)%Z then (Z.pos m * 2 ^ e)%Z else (Z.pos m / 2 ^ (- e))%Z
  | _ => 0%Z
  end.

Definition p95_index (n : Z) : Z :=
  trunc (PrimFloat.mul (PrimFloat.of_uint63 (Uint63.of_Z n))
                       0x1.e666666666666p-1%float).

End Double.

(** ** Sample logs *)

Module Sample.
Import Py.

Definition ping (rtt : Q) : json :=
  JObj [("event", JStr "ping"); ("rtt_ms", JNum rtt)].

Definition ping_via (via : string) (rtt : Q) : json :=
  JObj [("event", JStr "ping"); ("via", JStr via); ("rtt_ms", JNum rtt)].

(** A ping record without its [rtt_ms]. *)
Definition bare_ping : json := JObj [("event", JStr "ping")].

(** A reconnect record without its [reconnect_time_ms]. *)
Definition bare_reconnect : json := JObj [("event", JStr "reconnected")].

Definition summary (total ok : Q) : json :=
  JObj [("event", JStr "summary"); ("total_pings", JNum total);
        ("successful", JNum ok)].

(** A ladder record with a size and counts, without RTT fields. *)
Definition ladder_fields (size : Q) : list (string * json) :=
  [("event", JStr "ladder_result"); ("size", JNum size);
   ("successful", JNum 3); ("failed", JNum 0)].



Definition five_pings : list json := map ping [10; 20; 30; 40; 50].

(** Three pings and the producer's summary of a hundred. *)
Definition pings_and_summary : list json :=
  [ping 12; ping 15; ping 11; summary 100 97].

(** A log without ping events: a path change and a summary. *)
Definition idle_log : list json :=
  [JObj [("event", JStr "path_change"); ("kind", JStr "relay")];
   summary 0 0].

(** A run with a direct and a relayed ping, and a run that stayed on the
    relay. *)
Definition mixed_run : list json := [ping_via "DIRECT" 10; ping_via "RELAY" 30].
Definition relay_run : list json := [ping_via "RELAY" 50].

Definition two_pings : list fline := [Decoded (ping 5); Decoded (ping 6)].

(** A file that holds no event: an empty line and a line that does not
    decode. *)
Definition no_events : list fline := [Blank; Malformed].

(** A file system with the given files and nothing else. *)
Fixpoint disk (entries : list (string * list fline)) : files :=
  match entries with
  | [] => fun _ => None
  | (name, lines) :: rest =>
      fun path => if String.eqb path name then Some lines else disk rest path
  end.

(** Two valid pings around a ping without [rtt_ms]. *)
Definition gap_log : list fline :=
  [Decoded (ping 10); Decoded bare_ping; Decoded (ping 20)].

Definition gap_disk : files := disk [("run/ping.jsonl", gap_log)].

(** A log whose first line decodes to a number. *)
Definition stray_value_log : list fline := [Decoded (JNum 42); Decoded (ping 10)].

Definition stray_value_disk : files := disk [("odd.jsonl", stray_value_log)].

(** Three direct pings and a relayed one. *)
Definition mostly_direct : list json :=
  [ping_via "DIRECT" 10; ping_via "DIRECT" 12; ping_via "RELAY" 40;
   ping_via "DIRECT" 11].

Definition path_change (kind : string) : json :=
  JObj [("event", JStr "path_change"); ("kind", JStr kind)].

(** A ping and three path changes, one of them of an unknown kind. *)
Definition changing_paths : list json :=
  [ping 10; path_change "relay"; path_change "direct"; path_change "mixed"].

(** Pings of a run whose summary counted no ping. *)
Definition pings_and_empty_summary : list json :=
  [ping 12; ping 15; summary 0 0].

(** Two burst rounds with different throughput. *)
Definition burst_round_fields (n mps : Q) : list (string * json) :=
  [("event", JStr "burst_result"); ("round", JNum n);
   ("messages_sent", JNum 100); ("messages_acked", JNum 100);
   ("messages_per_sec", JNum mps); ("bytes_per_sec", JNum 2048)].

Definition two_rounds : list json :=
  [JObj (burst_round_fields 1 250); JObj (burst_round_fields 2 400)].

Definition hole_punch (seconds : Q) : json :=
  JObj [("event", JStr "hole_punch"); ("time_to_direct_s", JNum seconds)].

Definition reconnected (ms : Q) : json :=
  JObj [("event", JStr "reconnected"); ("reconnect_time_ms", JNum ms)].

(** A session that reached a direct path after a second and a half and
    reconnected twice. *)
Definition session_log : list json :=
  [hole_punch (3 # 2); ping 10; reconnected 200; reconnected 800].

Definition disconnected : json := JObj [("event", JStr "disconnected")].

(** Nine direct pings in ten and two disconnections; three direct pings in
    five and none. *)
Definition run_90 : list json :=
  map (ping_via "DIRECT") [10; 10; 10; 10; 10; 10; 10; 10; 10]
  ++ [ping_via "RELAY" 40; disconnected; disconnected].

Definition run_60 : list json :=
  map (ping_via "DIRECT") [10; 10; 10]
  ++ [ping_via "RELAY" 40; ping_via "RELAY" 40].

(** A ping whose [elapsed_s] is a string. *)
Definition ping_without_clock : json :=
  JObj [("event", JStr "ping"); ("rtt_ms", JNum 10);
        ("elapsed_s", JStr "soon")].

Definition clockless_disk : files :=
  disk [("a.jsonl", [Decoded (ping 10)]);
        ("b.jsonl", [Decoded ping_without_clock])].

(** Only [b.jsonl] exists. *)
Definition only_b : files := disk [("b.jsonl", two_pings)].

(** Only [empty.jsonl] exists, and holds no event. *)
Definition only_empty : files := disk [("empty.jsonl", no_events)].

Definition a_and_b : files :=
  disk [("a.jsonl", [Decoded (ping 1)]); ("b.jsonl", two_pings)].

(** A ping whose [rtt_ms] is a string. *)
Definition slow_ping : json :=
  JObj [("event", JStr "ping"); ("rtt_ms", JStr "slow")].

(** The mixed run and the relay run, as two files. *)
Definition mixed_and_relay : files :=
  disk [("mixed.jsonl", map Decoded mixed_run);
        ("relay.jsonl", map Decoded relay_run)].

(** [a.jsonl] holds no event, [c.jsonl] two pings, and there is no
    [b.jsonl]. *)
Definition a_and_c : files :=
  disk [("a.jsonl", no_events); ("c.jsonl", two_pings)].

End Sample.

(** * Observations on the reports *)

Section Observations.
Import Py.

(** A field that the burst report formats as a number: absent, or a
    number within the range of binary64. *)
Definition numeric_or_absent (fields : list (string * json)) (k : string)
  : Prop :=
  match lookup k fields with
  | Some v => exists q, number v = Ok q /\ double_range q
  | None => True
  end.

(** A burst result whose formatted fields are numbers or absent *)
Definition burst_fields_numeric (r : json) : Prop :=
  match r with
  | JObj fields =>
      numeric_or_absent fields "messages_per_sec" /\
      numeric_or_absent fields "bytes_per_sec" /\
      numeric_or_absent fields "elapsed_ms" /\
      numeric_or_absent fields "rtt_min_ms" /\
      numeric_or_absent fields "rtt_avg_ms" /\
      numeric_or_absent fields "rtt_max_ms"
  | _ => False
  end.

(** The reconnect times of a file:
    [[r["reconnect_time_ms"] for r in reconnects]], taken as numbers. *)
Definition reconnect_times (events : list json) : res (list Q) :=
  res_bind (select "event" "reconnected" events) (fun reconnects =>
  res_bind (map_res (fun r => subscript r "reconnect_time_ms") reconnects)
           numbers).

(** The line that the loop of [main] prints for a file. *)
Definition diagnostic (fs : files) (f : string) : list Results.line :=
  match Results.analyze_file fs f with
  | Ok _ => []
  | Raise FileNotFoundError => [Results.L_skip f]
  | Raise e => [Results.L_error f e]
  end.

(** The lines of the comparison table *)
Definition is_table_line (l : Results.line) : bool :=
  match l with
  | Results.L_comparison_title | Results.L_table_header | Results.L_row _
  | Results.L_average_direct _ _ _ | Results.L_totals _ _ => true
  | _ => false
  end.

(** The row of a result whose optional columns can be formatted. *)
Definition row_of (r : Results.result) : Results.row :=
  {| Results.row_name := Results.scenario r;
     Results.row_pings := Results.total_pings r;
     Results.row_direct_pct := Results.direct_pct r;
     Results.row_rtt := Results.rtt_column r;
     Results.row_punch :=
       match Results.column (Results.hole_punch_time_s r) with
       | Ok p => p
       | Raise _ => None
       end;
     Results.row_discon := Results.disconnections r;
     Results.row_recon := Results.reconnections r;
     Results.row_down :=
       match Results.column (Results.total_disconnected_s r) with
       | Ok d => d
       | Raise _ => None
       end |}.

(** The optional columns of a result can be formatted. *)
Definition columns_ok (r : Results.result) : Prop :=
  (exists p, Results.column (Results.hole_punch_time_s r) = Ok p) /\
  (exists d, Results.column (Results.total_disconnected_s r) = Ok d).

(** The keys that [analyze_file] sets together are set together. *)
Definition complete (r : Results.result) : Prop :=
  (Results.rtt_mean r <> None ->
   Results.rtt_median r <> None /\ Results.rtt_p95 r <> None /\
   Results.rtt_min r <> None /\ Results.rtt_max r <> None) /\
  (Results.direct_rtt_mean r <> None -> Results.direct_rtt_p95 r <> None) /\
  (Results.reconnect_mean_ms r <> None -> Results.reconnect_max_ms r <> None).

(** The numbers that [print_single] formats: the statistics that are
    stored, and the raw values of the last ping, the first hole punch and
    the last summary where they are numbers. *)
Definition stored (v : option Q) : list Q :=
  match v with
  | Some q => [q]
  | None => []
  end.

Definition raw_number (v : option json) : list Q :=
  match v with
  | Some x =>
      match number x with
      | Ok q => [q]
      | Raise _ => []
      end
  | None => []
  end.

Definition formatted_numbers (r : Results.result) : list Q :=
  stored (Results.rtt_mean r) ++ stored (Results.rtt_median r)
  ++ stored (Results.rtt_p95 r) ++ stored (Results.rtt_min r)
  ++ stored (Results.rtt_max r) ++ stored (Results.direct_rtt_mean r)
  ++ stored (Results.direct_rtt_p95 r) ++ stored (Results.relay_rtt_mean r)
  ++ stored (Results.reconnect_mean_ms r)
  ++ stored (Results.reconnect_max_ms r)
  ++ raw_number (Results.duration_s r)
  ++ raw_number (Results.hole_punch_time_s r)
  ++ raw_number (Results.total_disconnected_s r).

(** The values that [print_single] formats as numbers can be formatted. *)
Definition printable (r : Results.result) : Prop :=
  (exists d,
     fmt_float (Results.or_default (Results.duration_s r) (JNum 0)) = Ok d) /\
  columns_ok r.

(** A path component: not empty, not [.], and without a slash. *)
Fixpoint has_slash (s : string) : bool :=
  match s with
  | EmptyString => false
  | String c s' => Ascii.eqb c "/" || has_slash s'
  end.

Definition component (s : string) : bool :=
  negb (String.eqb s "" || String.eqb s ".") && negb (has_slash s).

(** A decoded string *)
Definition is_string (v : json) : bool :=
  match v with
  | JStr _ => true
  | _ => false
  end.

(** The four lines that open the report of analyze-stress.py. *)
Definition banner (n : nat) : list Stress.line :=
  [Stress.L_box_top; Stress.L_box_title; Stress.L_box_bottom;
   Stress.L_files n].

End Observations.

(** * Properties *)

Open Scope list_scope.

(** ** The printing monad *)

Section RunFacts.
Import Py.
Variables L A B : Type.

Lemma printed_bind_ok (m : run L A) (k : A -> run L B) a :
  outcome m = Ok a ->
  printed (bind m k) = printed m ++ printed (k a).
Proof. unfold bind. intros ->. reflexivity. Qed.

Lemma outcome_bind_ok (m : run L A) (k : A -> run L B) a :
  outcome m = Ok a ->
  outcome (bind m k) = outcome (k a).
Proof. unfold bind. intros ->. reflexivity. Qed.

Lemma bind_raise (m : run L A) (k : A -> run L B) e :
  outcome m = Raise e ->
  bind m k = Run (printed m) (Raise e).
Proof. unfold bind. intros ->. reflexivity. Qed.

(** What has been printed stays printed. *)
Lemma in_printed_bind_l (m : run L A) (k : A -> run L B) l :
  In l (printed m) -> In l (printed (bind m k)).
Proof.
  unfold bind. destruct (outcome m); simpl; auto using in_or_app.
Qed.

Lemma in_printed_bind_r (m : run L A) (k : A -> run L B) a l :
  outcome m = Ok a -> In l (printed (k a)) -> In l (printed (bind m k)).
Proof.
  intros H Hin. rewrite (printed_bind_ok _ _ H). auto using in_or_app.
Qed.

(** A printed line comes from the first part or, when that ended well,
    from the second. *)
Lemma in_printed_bind_inv (m : run L A) (k : A -> run L B) l :
  In l (printed (bind m k)) ->
  In l (printed m) \/ exists a, outcome m = Ok a /\ In l (printed (k a)).
Proof.
  unfold bind. destruct (outcome m) as [a|e]; simpl; auto.
  intros H. apply in_app_or in H as [H|H]; eauto.
Qed.

Lemma outcome_bind_inv (m : run L A) (k : A -> run L B) b :
  outcome (bind m k) = Ok b ->
  exists a, outcome m = Ok a /\ outcome (k a) = Ok b.
Proof.
  unfold bind. destruct (outcome m) as [a|e]; simpl; eauto. discriminate.
Qed.
End RunFacts.

Section ForEachFacts.
Import Py.
Variables L A : Type.
Variable body : A -> run L unit.

(** A loop whose body raises on some element does not end well. *)
Lemma for_each_raises (l : list A) a :
  In a l ->
  (exists e, outcome (body a) = Raise e) ->
  exists e, outcome (for_each l body) = Raise e.
Proof.
  induction l as [|x l IH]; simpl; [tauto|].
  intros [->|Hin] Hr.
  - destruct Hr as [e He]. exists e. rewrite (bind_raise _ _ He). reflexivity.
  - destruct (outcome (body x)) as [[]|e] eqn:Hx.
    + rewrite (outcome_bind_ok _ _ Hx). auto.
    + exists e. rewrite (bind_raise _ _ Hx). reflexivity.
Qed.

(** A loop whose body ends well on every element ends well and prints
    what the body prints, in order. *)
Lemma for_each_ok (l : list A) :
  (forall a, In a l -> outcome (body a) = Ok tt) ->
  outcome (for_each l body) = Ok tt /\
  printed (for_each l body) = flat_map (fun a => printed (body a)) l.
Proof.
  induction l as [|x l IH]; simpl; intros H; [auto|].
  assert (Hx : outcome (body x) = Ok tt) by auto.
  destruct IH as [IHo IHp]; [auto|].
  rewrite (outcome_bind_ok _ _ Hx), (printed_bind_ok _ _ Hx), IHo, IHp.
  auto.
Qed.

Lemma in_printed_for_each (l : list A) x :
  In x (printed (for_each l body)) ->
  exists a, In a l /\ In x (printed (body a)).
Proof.
  induction l as [|a l IH]; simpl; [tauto|].
  intros H. apply in_printed_bind_inv in H as [H|(u & _ & H)]; eauto.
  destruct (IH H) as (b & Hb & Hx). eauto.
Qed.
End ForEachFacts.

(** ** Selecting events *)

Section SelectFacts.
Import Py.

Lemma res_bind_ok A B (r : res A) (k : A -> res B) b :
  res_bind r k = Ok b -> exists a, r = Ok a /\ k a = Ok b.
Proof. destruct r; simpl; eauto. discriminate. Qed.

Lemma field_is_ok k s e b :
  field_is k s e = Ok b -> is_record e = true.
Proof. destruct e; simpl; try discriminate; auto. Qed.

Lemma field_is_record k s e :
  is_record e = true -> exists b, field_is k s e = Ok b.
Proof.
  destruct e; try discriminate. intros _. unfold field_is. simpl.
  destruct (lookup k fields) as [[]|]; eauto.
Qed.

(** A selection succeeds exactly when every event is a record. *)
Lemma select_ok_records k s events l :
  select k s events = Ok l -> forallb is_record events = true.
Proof.
  revert l. induction events as [|e events IH]; simpl; auto.
  intros l H. apply res_bind_ok in H as (b & Hb & H).
  apply res_bind_ok in H as (es & Hes & _).
  rewrite (field_is_ok _ _ _ Hb), (IH _ Hes). reflexivity.
Qed.

Lemma select_records k s events :
  forallb is_record events = true -> exists l, select k s events = Ok l.
Proof.
  induction events as [|e events IH]; simpl; eauto.
  intros H. apply andb_true_iff in H as [He H].
  destruct (field_is_record k s _ He) as [b ->].
  destruct (IH H) as [l ->]. simpl. eauto.
Qed.

Lemma select_other k s k' s' events l :
  select k s events = Ok l -> exists l', select k' s' events = Ok l'.
Proof. eauto using select_ok_records, select_records. Qed.

(** The selected events are events of the list on which the test holds. *)
Lemma select_in k s events l e :
  select k s events = Ok l ->
  In e l -> In e events /\ field_is k s e = Ok true.
Proof.
  revert l. induction events as [|x events IH]; simpl.
  - intros l [= <-] [].
  - intros l H. apply res_bind_ok in H as (b & Hb & H).
    apply res_bind_ok in H as (es & Hes & [= <-]).
    destruct b; simpl.
    + intros [<-|Hin]; [auto|]. destruct (IH _ Hes Hin). auto.
    + intros Hin. destruct (IH _ Hes Hin). auto.
Qed.

Lemma map_res_length A B (f : A -> res B) l bs :
  map_res f l = Ok bs -> List.length bs = List.length l.
Proof.
  revert bs. induction l as [|a l IH]; simpl.
  - intros bs [= <-]. reflexivity.
  - intros bs H. apply res_bind_ok in H as (b & _ & H).
    apply res_bind_ok in H as (bs' & Hbs & [= <-]).
    simpl. f_equal. auto.
Qed.

Lemma ping_rtts_inv events rtts :
  ping_rtts events = Ok rtts ->
  exists pings js,
    select "event" "ping" events = Ok pings /\
    map_res (fun p => subscript p "rtt_ms") pings = Ok js /\
    numbers js = Ok rtts /\
    List.length pings = List.length rtts.
Proof.
  unfold ping_rtts. intros H.
  apply res_bind_ok in H as (pings & Hp & H).
  apply res_bind_ok in H as (js & Hjs & Hn).
  exists pings, js. repeat split; auto.
  apply map_res_length in Hjs. apply map_res_length in Hn. congruence.
Qed.
End SelectFacts.

(** ** Sorting *)

Section SortingFacts.
Import Py.
Variable A : Type.
Variable leb : A -> A -> bool.

Let le (x y : A) : Prop := leb x y = true.

Lemma insert_perm x l : Permutation (x :: l) (insert leb x l).
Proof.
  induction l as [|y l IH]; simpl; [reflexivity|].
  destruct (leb y x).
  - rewrite perm_swap. auto.
  - reflexivity.
Qed.

Lemma fold_insert_perm l acc :
  Permutation (l ++ acc) (fold_left (fun acc x => insert leb x acc) l acc).
Proof.
  revert acc. induction l as [|x l IH]; intros acc; simpl; [reflexivity|].
  rewrite <- IH. rewrite <- insert_perm. apply Permutation_middle.
Qed.

Lemma sorted_perm l : Permutation l (sorted leb l).
Proof.
  unfold sorted. rewrite <- fold_insert_perm, app_nil_r. reflexivity.
Qed.

Lemma sorted_length l : List.length (sorted leb l) = List.length l.
Proof. symmetry. apply Permutation_length, sorted_perm. Qed.

Hypothesis leb_total : forall x y, leb x y = true \/ leb y x = true.
Hypothesis leb_trans :
  forall x y z, leb x y = true -> leb y z = true -> leb x z = true.

Lemma insert_sorted x l :
  StronglySorted le l -> StronglySorted le (insert leb x l).
Proof.
  induction 1 as [|y l Hs IH Hy]; simpl.
  - repeat constructor.
  - destruct (leb y x) eqn:Hyx.
    + constructor; [exact IH|].
      apply (Permutation_Forall (insert_perm x l)). constructor; auto.
    + assert (Hxy : le x y) by (destruct (leb_total x y); congruence).
      constructor; [constructor; auto|].
      constructor; [exact Hxy|].
      eapply Forall_impl; [|exact Hy]. intros z Hz. eapply leb_trans; eauto.
Qed.

Lemma fold_insert_sorted l acc :
  StronglySorted le acc ->
  StronglySorted le (fold_left (fun acc x => insert leb x acc) l acc).
Proof.
  revert acc. induction l as [|x l IH]; simpl; auto using insert_sorted.
Qed.

Lemma sorted_sorted l : StronglySorted le (sorted leb l).
Proof. apply fold_insert_sorted. constructor. Qed.

Hypothesis leb_antisym :
  forall x y, leb x y = true -> leb y x = true -> x = y.

(** With an antisymmetric order a list has one sorted arrangement. *)
Lemma sorted_unique l1 l2 :
  StronglySorted le l1 -> StronglySorted le l2 ->
  Permutation l1 l2 -> l1 = l2.
Proof.
  intros H1. revert l2. induction H1 as [|x l1 Hs IH Hx]; intros l2 H2 Hp.
  - apply Permutation_nil in Hp. auto.
  - destruct H2 as [|y l2 Hs2 Hy].
    + symmetry in Hp. apply Permutation_nil in Hp. discriminate.
    + assert (Hxy : x = y).
      { assert (Hin1 : In x (y :: l2))
          by (eapply Permutation_in; [exact Hp|left; auto]).
        assert (Hin2 : In y (x :: l1))
          by (eapply Permutation_in; [symmetry; exact Hp|left; auto]).
        destruct Hin1 as [->|Hin1]; [reflexivity|].
        destruct Hin2 as [->|Hin2]; [reflexivity|].
        rewrite Forall_forall in Hx, Hy.
        apply leb_antisym; [apply Hx | apply Hy]; assumption. }
      subst y. f_equal. apply IH; [assumption|].
      eapply Permutation_cons_inv; eauto.
Qed.

Lemma sorted_permutation_invariant l1 l2 :
  Permutation l1 l2 -> sorted leb l1 = sorted leb l2.
Proof.
  intros Hp. apply sorted_unique; try apply sorted_sorted.
  rewrite <- !sorted_perm. exact Hp.
Qed.
End SortingFacts.

Lemma string_leb_trans (x y z : string) :
  String.leb x y = true -> String.leb y z = true -> String.leb x z = true.
Proof.
  assert (Hle : forall a b,
             String.leb a b = true <-> String_as_OT.lt a b \/ a = b).
  { intros a b. unfold String.leb.
    rewrite <- String_as_OT.cmp_lt, <- String_as_OT.cmp_eq.
    unfold String_as_OT.cmp. destruct (String.compare a b); split; intros H;
      auto; try discriminate; destruct H; discriminate. }
  rewrite !Hle. intros [H1| ->] [H2| ->]; auto.
  left. eapply String_as_OT.lt_trans; eauto.
Qed.

Lemma Qle_bool_total (x y : Q) : Qle_bool x y = true \/ Qle_bool y x = true.
Proof.
  rewrite !Qle_bool_iff. destruct (Qlt_le_dec x y) as [H|H]; auto.
  left. apply Qlt_le_weak. exact H.
Qed.

Lemma Qle_bool_trans (x y z : Q) :
  Qle_bool x y = true -> Qle_bool y z = true -> Qle_bool x z = true.
Proof. rewrite !Qle_bool_iff. apply Qle_trans. Qed.

Section SortedInstances.
Import Py.

Lemma sorted_num_perm l : Permutation l (sorted_num l).
Proof. apply sorted_perm. Qed.

Lemma sorted_num_length l : List.length (sorted_num l) = List.length l.
Proof. apply sorted_length. Qed.

Lemma sorted_num_sorted l : StronglySorted Qle (sorted_num l).
Proof.
  assert (H : StronglySorted (fun x y => Qle_bool x y = true)
                             (sorted_num l))
    by (apply sorted_sorted; [exact Qle_bool_total | exact Qle_bool_trans]).
  induction H as [|x s Hs IH Hx]; constructor; auto.
  eapply Forall_impl; [|exact Hx]. intros y. apply Qle_bool_iff.
Qed.

Lemma sorted_str_perm l : Permutation l (sorted_str l).
Proof. apply sorted_perm. Qed.

Lemma sorted_str_sorted l :
  StronglySorted (fun x y => String.leb x y = true) (sorted_str l).
Proof.
  apply sorted_sorted; [exact String.leb_total | exact string_leb_trans].
Qed.

Lemma sorted_str_invariant l1 l2 :
  Permutation l1 l2 -> sorted_str l1 = sorted_str l2.
Proof.
  apply sorted_permutation_invariant;
    [exact String.leb_total | exact string_leb_trans
     | exact String.leb_antisym].
Qed.
End SortedInstances.

(** ** Statistics *)

Section StatisticsFacts.
Import Py.

Lemma p95_index_floor (n : nat) : p95_index n = (n * 95 / 100)%nat.
Proof.
  unfold p95_index.
  replace (Qfloor (inject_Z (Z.of_nat n) * (95 # 100)))
    with (Z.of_nat n * 95 / 100)%Z.
  - apply Nat2Z.inj. rewrite Z2Nat.id.
    + rewrite Nat2Z.inj_div, Nat2Z.inj_mul. reflexivity.
    + apply Z.div_pos; lia.
  - unfold Qfloor, Qmult, inject_Z. simpl. reflexivity.
Qed.

(** The index stays inside a list that is not empty. *)
Lemma p95_index_lt (n : nat) : (0 < n)%nat -> (p95_index n < n)%nat.
Proof.
  intros H. rewrite p95_index_floor.
  apply Nat.Div0.div_lt_upper_bound. lia.
Qed.

Lemma index_nth A (xs : list A) i d :
  (i < List.length xs)%nat -> index xs i = Ok (nth i xs d).
Proof.
  intros H. unfold index.
  destruct (nth_error xs i) eqn:E.
  - f_equal. symmetry. apply nth_error_nth. exact E.
  - apply nth_error_None in E. lia.
Qed.

Lemma p95_nonempty (rtts : list Q) :
  rtts <> [] ->
  p95 rtts = Ok (nth (p95_index (List.length rtts)) (sorted_num rtts) 0).
Proof.
  intros H. unfold p95. apply index_nth.
  rewrite sorted_num_length. apply p95_index_lt.
  destruct rtts; [congruence | simpl; lia].
Qed.

Lemma mean_nonempty (l : list Q) :
  l <> [] -> mean l = Ok (sum l / len l).
Proof. destruct l; [congruence | reflexivity]. Qed.

Lemma median_nonempty (l : list Q) :
  l <> [] -> exists q, median l = Ok q.
Proof.
  intros H. unfold median. rewrite sorted_num_length.
  destruct l as [|x l]; [congruence|]. simpl List.length.
  destruct (Nat.odd (S (List.length l))); eauto.
Qed.

Lemma variance_two (l : list Q) :
  (2 <= List.length l)%nat -> exists q, variance l = Ok q.
Proof.
  destruct l as [|x [|y l]]; simpl; try lia. eauto.
Qed.

Lemma py_min_nonempty (l : list Q) :
  l <> [] -> exists q, py_min l = Ok q.
Proof. destruct l; [congruence | simpl; eauto]. Qed.

Lemma py_max_nonempty (l : list Q) :
  l <> [] -> exists q, py_max l = Ok q.
Proof. destruct l; [congruence | simpl; eauto]. Qed.

(** [min] returns an element of the list that no element is below. *)
Lemma py_min_spec (l : list Q) lo :
  py_min l = Ok lo -> In lo l /\ Forall (fun x => lo <= x)%Q l.
Proof.
  destruct l as [|x l]; [discriminate|]. simpl. intros [= <-].
  assert (H : forall l m,
             let r := fold_left (fun m y => if Qlt_le_dec y m then y else m)
                                l m in
             (r = m \/ In r l) /\ (r <= m)%Q /\
             Forall (fun x => r <= x)%Q l).
  { clear. induction l as [|y l IH]; intros m; simpl.
    - split; [auto|]. split; [apply Qle_refl | constructor].
    - destruct (Qlt_le_dec y m) as [Hlt|Hle].
      + destruct (IH y) as (Hin & Hb & Hall).
        split; [destruct Hin as [Hin|Hin]; auto|]. split.
        * eapply Qle_trans; [exact Hb|]. apply Qlt_le_weak. exact Hlt.
        * constructor; assumption.
      + destruct (IH m) as (Hin & Hb & Hall).
        split; [tauto|]. split; [assumption|].
        constructor; [|assumption]. eapply Qle_trans; eauto. }
  destruct (H l x) as (Hin & Hb & Hall).
  split; [destruct Hin as [->|Hin]; [left; reflexivity | right; exact Hin]|].
  constructor; assumption.
Qed.

(** [max] returns an element of the list that no element is above. *)
Lemma py_max_spec (l : list Q) hi :
  py_max l = Ok hi -> In hi l /\ Forall (fun x => x <= hi)%Q l.
Proof.
  destruct l as [|x l]; [discriminate|]. simpl. intros [= <-].
  assert (H : forall l m,
             let r := fold_left (fun m y => if Qlt_le_dec m y then y else m)
                                l m in
             (r = m \/ In r l) /\ (m <= r)%Q /\
             Forall (fun x => x <= r)%Q l).
  { clear. induction l as [|y l IH]; intros m; simpl.
    - split; [auto|]. split; [apply Qle_refl | constructor].
    - destruct (Qlt_le_dec m y) as [Hlt|Hle].
      + destruct (IH y) as (Hin & Hb & Hall).
        split; [destruct Hin as [Hin|Hin]; auto|]. split.
        * eapply Qle_trans; [|exact Hb]. apply Qlt_le_weak. exact Hlt.
        * constructor; assumption.
      + destruct (IH m) as (Hin & Hb & Hall).
        split; [tauto|]. split; [assumption|].
        constructor; [|assumption]. eapply Qle_trans; eauto. }
  destruct (H l x) as (Hin & Hb & Hall).
  split; [destruct Hin as [->|Hin]; [left; reflexivity | right; exact Hin]|].
  constructor; assumption.
Qed.
End StatisticsFacts.

Lemma p95_index_double :
  forallb (fun n => Z.eqb (Double.p95_index (Z.of_nat n))
                          (Z.of_nat (Py.p95_index n)))
          (seq 0 2001) = true.
Proof. vm_compute. reflexivity. Qed.

(** ** analyze-stress.py: the ping report *)

Ltac in_printed H :=
  repeat (cbv beta in H;
          match type of H with
          | In _ (Py.printed (Py.bind _ _)) =>
              apply in_printed_bind_inv in H;
              destruct H as [H | (? & ? & H)]
          | In _ (Py.printed (Py.print _)) => destruct H as [H | []]
          | In _ (Py.printed (Py.lift _)) => destruct H
          | In _ (Py.printed (Py.ret _)) => destruct H
          | In _ (Py.printed (if ?c then _ else _)) => destruct c eqn:?
          | In _ (Py.printed (match ?o with Some _ => _ | None => _ end)) =>
              destruct o eqn:?
          end).

Section RunEquations.
Import Py.
Variables L A B : Type.

Lemma bind_lift_ok (a : A) (k : A -> run L B) : bind (lift (Ok a)) k = k a.
Proof. unfold bind. simpl. destruct (k a). reflexivity. Qed.

Lemma bind_ret (a : A) (k : A -> run L B) : bind (ret a) k = k a.
Proof. apply bind_lift_ok. Qed.

Lemma bind_printed (ls : list L) (a : A) (k : A -> run L B) :
  bind (Run ls (Ok a)) k = Run (ls ++ printed (k a)) (outcome (k a)).
Proof. reflexivity. Qed.
End RunEquations.

Lemma bind_print L B (l : L) (k : unit -> Py.run L B) :
  Py.bind (Py.print l) k = Py.Run (l :: Py.printed (k tt)) (Py.outcome (k tt)).
Proof. reflexivity. Qed.

Ltac run_step :=
  rewrite ?bind_lift_ok, ?bind_ret, ?bind_print, ?bind_printed;
  cbv beta; cbn [Py.printed Py.outcome app].

Section StressFacts.
Import Py Stress.

Lemma is_empty_false A (l : list A) : l <> [] -> is_empty l = false.
Proof. destruct l; [congruence | reflexivity]. Qed.

Lemma length_nonempty A B (l : list A) (l' : list B) :
  List.length l = List.length l' -> l' <> [] -> l <> [].
Proof. destruct l, l'; simpl; congruence. Qed.

Lemma fmt_float_number v q : number v = Ok q -> fmt_float v = Ok q.
Proof. destruct v; simpl; congruence. Qed.

(** On numbers [min] and [max] are the extrema of the values. *)
Lemma least_numbers l qs :
  numbers l = Ok qs ->
  res_bind (least l) fmt_float = py_min qs.
Proof.
  destruct l as [|x l]; simpl; [intros [= <-]; reflexivity|].
  intros H. unfold numbers in H. simpl in H.
  apply res_bind_ok in H as (q & Hq & H).
  apply res_bind_ok in H as (qs' & Hqs & H). injection H as <-.
  simpl. revert x q Hq qs' Hqs.
  induction l as [|y l IH]; intros x q Hq qs' Hqs; simpl in *.
  - injection Hqs as <-. simpl. exact (fmt_float_number _ Hq).
  - apply res_bind_ok in Hqs as (qy & Hy & Hqs).
    apply res_bind_ok in Hqs as (qs'' & Hqs & E). injection E as <-.
    assert (Hl : less y x = Ok (if Qlt_le_dec qy q then true else false)).
    { unfold less. rewrite Hy, Hq.
      destruct y; try reflexivity. destruct x; try reflexivity.
      simpl in Hq. discriminate. }
    rewrite Hl. simpl. destruct (Qlt_le_dec qy q); eauto.
Qed.

Lemma greatest_numbers l qs :
  numbers l = Ok qs ->
  res_bind (greatest l) fmt_float = py_max qs.
Proof.
  destruct l as [|x l]; simpl; [intros [= <-]; reflexivity|].
  intros H. unfold numbers in H. simpl in H.
  apply res_bind_ok in H as (q & Hq & H).
  apply res_bind_ok in H as (qs' & Hqs & H). injection H as <-.
  simpl. revert x q Hq qs' Hqs.
  induction l as [|y l IH]; intros x q Hq qs' Hqs; simpl in *.
  - injection Hqs as <-. simpl. exact (fmt_float_number _ Hq).
  - apply res_bind_ok in Hqs as (qy & Hy & Hqs).
    apply res_bind_ok in Hqs as (qs'' & Hqs & E). injection E as <-.
    assert (Hl : less x y = Ok (if Qlt_le_dec q qy then true else false)).
    { unfold less. rewrite Hy, Hq.
      destruct x; try reflexivity. destruct y; try reflexivity.
      simpl in Hy. discriminate. }
    rewrite Hl. simpl. destruct (Qlt_le_dec q qy); eauto.
Qed.

Lemma bind_lift_bind L A B C (r : res A) (f : A -> res B)
      (k : B -> run L C) :
  bind (lift r) (fun a => bind (lift (f a)) k) = bind (lift (res_bind r f)) k.
Proof. destruct r as [a|e]; [|reflexivity]. rewrite bind_lift_ok. reflexivity. Qed.

Lemma analyze_pings_with_rtts events label rtts :
  ping_rtts events = Ok rtts -> rtts <> [] ->
  exists lo hi summaries path_changes,
    py_min rtts = Ok lo /\ py_max rtts = Ok hi /\
    select "event" "summary" events = Ok summaries /\
    select "event" "path_change" events = Ok path_changes /\
    analyze_pings events label =
      bind (Run (ping_head label (List.length rtts) lo hi
                           (sum rtts / len rtts)) (Ok tt))
           (fun _ =>
              bind (spread_lines rtts) (fun _ =>
              bind (summary_lines summaries) (fun _ =>
              path_change_lines path_changes))).
Proof.
  intros H Hne.
  destruct (ping_rtts_inv _ H) as (pings & js & Hp & Hjs & Hn & Hlen).
  destruct (py_min_nonempty Hne) as [lo Hlo].
  destruct (py_max_nonempty Hne) as [hi Hhi].
  destruct (@select_other "event" "ping" "event" "summary" _ _ Hp)
    as [ss Hss].
  destruct (@select_other "event" "ping" "event" "path_change" _ _ Hp)
    as [pcs Hpcs].
  exists lo, hi, ss, pcs. repeat (split; [assumption|]).
  unfold analyze_pings. rewrite Hp, Hss, Hpcs.
  assert (Hpe : is_empty pings = false)
    by (apply is_empty_false; eapply length_nonempty; eauto).
  run_step. rewrite Hpe, Hjs. run_step.
  rewrite !bind_lift_bind, (least_numbers _ Hn), (greatest_numbers _ Hn).
  rewrite Hlo. run_step. rewrite Hhi. run_step. rewrite Hn. run_step.
  rewrite (mean_nonempty Hne). run_step.
  unfold ping_head. rewrite Hlen. reflexivity.
Qed.

(** Without ping events [analyze_pings] prints nothing. *)
Lemma analyze_pings_silent events label :
  (forall e, In e events -> field_is "event" "ping" e <> Ok true) ->
  printed (analyze_pings events label) = [].
Proof.
  intros H. unfold analyze_pings.
  destruct (select "event" "ping" events) as [pings|x] eqn:Hp.
  - destruct pings as [|p pings]; [reflexivity|].
    destruct (@select_in _ _ _ _ p Hp) as [Hin Ht]; [left; reflexivity|].
    destruct (H p Hin Ht).
  - reflexivity.
Qed.

Lemma spread_lines_two rtts :
  (2 <= List.length rtts)%nat ->
  exists md var,
    median rtts = Ok md /\ variance rtts = Ok var /\
    spread_lines rtts =
      Run [L_rtt_median md; L_rtt_stddev var;
           L_rtt_p95 (nth (p95_index (List.length rtts))
                          (sorted_num rtts) 0)] (Ok tt).
Proof.
  intros H.
  assert (Hne : rtts <> []) by (destruct rtts; simpl in H; [lia|congruence]).
  destruct (median_nonempty Hne) as [md Hmd].
  destruct (@variance_two _ H) as [var Hvar].
  exists md, var. repeat (split; [assumption|]).
  unfold spread_lines.
  replace (1 <? List.length rtts)%nat with true
    by (symmetry; apply Nat.ltb_lt; lia).
  rewrite Hmd, Hvar, (p95_nonempty Hne). reflexivity.
Qed.

Lemma spread_lines_few rtts :
  (List.length rtts < 2)%nat -> spread_lines rtts = ret tt.
Proof.
  intros H. unfold spread_lines.
  replace (1 <? List.length rtts)%nat with false
    by (symmetry; apply Nat.ltb_ge; lia).
  reflexivity.
Qed.

Lemma spread_lines_ok rtts :
  rtts <> [] -> outcome (spread_lines rtts) = Ok tt.
Proof.
  intros Hne. destruct (le_lt_dec 2 (List.length rtts)) as [H|H].
  - destruct (@spread_lines_two rtts H) as (md & var & _ & _ & ->).
    reflexivity.
  - rewrite spread_lines_few by exact H. reflexivity.
Qed.

Lemma last_cons A (x d : A) (l : list A) : last (x :: l) d = last l x.
Proof.
  revert x d. induction l as [|y l IH]; intros x d; [reflexivity|].
  change (last (x :: y :: l) d) with (last (y :: l) d).
  rewrite !IH. reflexivity.
Qed.

Lemma summary_lines_no_spread ss l :
  In l (printed (summary_lines ss)) -> is_spread l = false.
Proof.
  unfold summary_lines. destruct ss as [|s0 rest]; [intros []|].
  destruct (truthy _); intros H; in_printed H; subst; reflexivity.
Qed.

Lemma path_change_lines_plain pcs l :
  In l (printed (path_change_lines pcs)) ->
  is_spread l = false /\ is_success_rate l = false.
Proof.
  unfold path_change_lines. destruct (is_empty pcs); [intros []|].
  intros H; in_printed H; subst; auto.
Qed.

(** The success-rate line comes from the last summary record. *)
Lemma summary_lines_success_rate s0 rest ok total pct :
  In (L_success_rate ok total pct) (printed (summary_lines (s0 :: rest))) ->
  let s := last rest s0 in
  total = get_default s "total_pings" (JNum 0) /\
  ok = get_default s "successful" (JNum 0) /\
  exists a b, number ok = Ok a /\ number total = Ok b /\
              pct = 100 * a / b.
Proof.
  unfold summary_lines.
  destruct (truthy _); intros H; in_printed H; try discriminate.
  injection H as <- <- <-.
  match goal with
  | H1 : outcome (lift _) = Ok ?a, H2 : outcome (lift _) = Ok ?b |- _ =>
      simpl in H1, H2; cbv zeta; repeat split; auto; exists a, b; auto
  end.
Qed.
(** A p95 line of the ping report carries the element of the sorted RTTs at
    the p95 index. *)
Lemma analyze_pings_p95_line events label rtts q :
  ping_rtts events = Ok rtts ->
  In (L_rtt_p95 q) (printed (analyze_pings events label)) ->
  q = nth (p95_index (List.length rtts)) (sorted_num rtts) 0.
Proof.
  intros Hr H.
  destruct rtts as [|x rtts'] eqn:Ex.
  - destruct (ping_rtts_inv _ Hr) as (pings & js & Hp & _ & _ & Hlen).
    destruct pings; [|discriminate].
    unfold analyze_pings in H. rewrite Hp in H. destruct H.
  - rewrite <- Ex in *.
    assert (Hne : rtts <> []) by (rewrite Ex; discriminate).
    destruct (@analyze_pings_with_rtts events label rtts Hr Hne)
      as (lo & hi & ss & pcs & _ & _ & _ & _ & E).
    rewrite E, bind_printed in H. apply in_app_or in H as [H|H].
    + simpl in H. repeat (destruct H as [H|H]; [discriminate|]). destruct H.
    + apply in_printed_bind_inv in H as [H|(u & _ & H)].
      * destruct (le_lt_dec 2 (List.length rtts)) as [Hn|Hn].
        -- destruct (@spread_lines_two rtts Hn) as (md & var & _ & _ & Es).
           rewrite Es in H. simpl in H.
           destruct H as [H|[H|[H|[]]]]; try discriminate.
           injection H as <-. reflexivity.
        -- rewrite spread_lines_few in H by exact Hn. destruct H.
      * apply in_printed_bind_inv in H as [H|(v & _ & H)].
        -- apply summary_lines_no_spread in H. discriminate.
        -- apply path_change_lines_plain in H. destruct H. discriminate.
Qed.
End StressFacts.

(** ** analyze-results.py: the result of a file *)

Ltac inv_res :=
  repeat match goal with
    | H : Py.res_bind _ _ = Py.Ok _ |- _ =>
        apply res_bind_ok in H; destruct H as (? & ? & H)
    end.

Section ResultsFacts.
Import Py Results.

Lemma numbers_cons j js nums :
  numbers (j :: js) = Ok nums -> nums <> [].
Proof.
  intros H. apply map_res_length in H. destruct nums; [discriminate|].
  congruence.
Qed.

Lemma opt_some A (l : list Q) (a : A) : l <> [] -> opt l a = Some a.
Proof. destruct l; [congruence|reflexivity]. Qed.

(** The block under [if all_rtts] *)
Lemma all_stats_inv js x :
  (if is_empty js then Ok (None, None, None, None, None)
   else
     res_bind (numbers js) (fun nums =>
     res_bind (mean nums) (fun m =>
     res_bind (median nums) (fun md =>
     res_bind (p95 nums) (fun p =>
     res_bind (py_min nums) (fun lo =>
     res_bind (py_max nums) (fun hi =>
     Ok (Some m, Some md, Some p, Some lo, Some hi)))))))) = Ok x ->
  exists rtts md lo hi,
    numbers js = Ok rtts /\
    x = (opt rtts (sum rtts / len rtts), md,
         opt rtts (nth (p95_index (List.length rtts)) (sorted_num rtts) 0),
         lo, hi) /\
    (rtts = [] -> md = None /\ lo = None /\ hi = None).
Proof.
  destruct js as [|j js]; cbn [is_empty].
  - intros [= <-]. exists [], None, None, None. auto.
  - intros H. inv_res. injection H as <-.
    match goal with
    | Hn : numbers (j :: js) = Ok ?nums |- _ =>
        assert (Hne : nums <> []) by (eapply numbers_cons; exact Hn);
        exists nums
    end.
    do 3 eexists. split; [eassumption|].
    rewrite !opt_some by assumption.
    match goal with
    | Hm : mean _ = Ok _, Hp : p95 _ = Ok _ |- _ =>
        rewrite (mean_nonempty Hne) in Hm;
        rewrite (p95_nonempty Hne) in Hp;
        injection Hm as <-; injection Hp as <-
    end.
    split; [reflexivity|]. intros; contradiction.
Qed.

(** The block under [if direct_rtts] *)
Lemma direct_stats_inv js x :
  (if is_empty js then Ok (None, None)
   else
     res_bind (numbers js) (fun nums =>
     res_bind (mean nums) (fun m =>
     res_bind (p95 nums) (fun p => Ok (Some m, Some p)))))
  = Ok x ->
  exists rtts,
    numbers js = Ok rtts /\
    fst x = opt rtts (sum rtts / len rtts) /\
    (js = [] -> snd x = None).
Proof.
  destruct js as [|j js]; cbn [is_empty].
  - intros [= <-]. exists []. auto.
  - intros H. inv_res. injection H as <-.
    match goal with
    | Hn : numbers (j :: js) = Ok ?nums |- _ =>
        assert (Hne : nums <> []) by (eapply numbers_cons; exact Hn);
        exists nums
    end.
    split; [assumption|]. rewrite opt_some by assumption.
    match goal with
    | Hm : mean _ = Ok _ |- _ =>
        rewrite (mean_nonempty Hne) in Hm; injection Hm as <-
    end.
    split; [reflexivity|]. discriminate.
Qed.

Lemma analyze_events_inv name events r :
  analyze_events name events = Ok r ->
  exists pings directs relays rtts drtts,
    select "event" "ping" events = Ok pings /\
    select "via" "DIRECT" pings = Ok directs /\
    select "via" "RELAY" pings = Ok relays /\
    ping_rtts events = Ok rtts /\
    direct_rtts events = Ok drtts /\
    List.length rtts = List.length pings /\
    file r = name /\
    total_pings r = List.length pings /\
    direct_pings r = List.length directs /\
    relay_pings r = List.length relays /\
    direct_pct r =
      (if is_empty pings then 0 else count directs / count pings * 100) /\
    duration_s r =
      match pings with
      | [] => None
      | p0 :: rest => Some (get_default (last rest p0) "elapsed_s" (JNum 0))
      end /\
    rtt_mean r = opt rtts (sum rtts / len rtts) /\
    rtt_p95 r =
      opt rtts (nth (p95_index (List.length rtts)) (sorted_num rtts) 0) /\
    (rtts = [] ->
     rtt_median r = None /\ rtt_min r = None /\ rtt_max r = None) /\
    direct_rtt_mean r = opt drtts (sum drtts / len drtts) /\
    (directs = [] -> direct_rtt_p95 r = None) /\
    (relays = [] -> relay_rtt_mean r = None).
Proof.
  unfold analyze_events. intros H. inv_res.
  match goal with
  | Hp : select "event" "ping" events = Ok ?pings,
    Hd : select "via" "DIRECT" ?pings = Ok ?directs,
    Hr : select "via" "RELAY" ?pings = Ok ?relays,
    Ha : map_res _ ?pings = Ok ?all_rtts,
    Hdr : map_res _ ?directs = Ok ?direct_js,
    Hrr : map_res _ ?relays = Ok ?relay_js,
    Hall : (if is_empty ?all_rtts then _ else _) = Ok ?all_stats,
    Hds : (if is_empty ?direct_js then _ else _) = Ok ?direct_stats,
    Hrs : (if is_empty ?relay_js then _ else _) = Ok ?relay_mean |- _ =>
      pose proof (map_res_length _ _ Ha) as Hlen;
      pose proof (map_res_length _ _ Hdr) as Hdlen;
      pose proof (map_res_length _ _ Hrr) as Hrlen;
      apply all_stats_inv in Hall;
      destruct Hall as (rtts & md & lo & hi & Hn & -> & Hnil);
      apply direct_stats_inv in Hds;
      destruct Hds as (drtts & Hdn & Hdm & Hdnil);
      exists pings, directs, relays, rtts, drtts;
      injection H as <-; cbn [file total_pings direct_pings relay_pings
        direct_pct duration_s rtt_mean rtt_p95 rtt_median rtt_min rtt_max
        direct_rtt_mean direct_rtt_p95 relay_rtt_mean];
      repeat split; auto;
      try solve [unfold ping_rtts; rewrite Hp; simpl; rewrite Ha; exact Hn];
      try solve [unfold direct_rtts; rewrite Hp; simpl; rewrite Hd; simpl;
                 rewrite Hdr; exact Hdn];
      try solve [apply map_res_length in Hn; congruence];
      try solve [apply Hnil; assumption];
      try solve [intros ->; apply Hdnil; destruct direct_js;
                 [reflexivity|discriminate]];
      try solve [intros ->; destruct relay_js; [|discriminate];
                 injection Hrs as <-; reflexivity]
  end.
Qed.

(** A file without ping events: what [analyze_file] stores. *)
Lemma analyze_events_no_pings name events r :
  select "event" "ping" events = Ok [] ->
  analyze_events name events = Ok r ->
  file r = name /\ total_pings r = 0%nat /\ direct_pings r = 0%nat /\
  relay_pings r = 0%nat /\ direct_pct r = 0 /\ duration_s r = None /\
  rtt_mean r = None /\ direct_rtt_mean r = None /\
  relay_rtt_mean r = None.
Proof.
  intros Hp Ha. apply analyze_events_inv in Ha.
  destruct Ha as (pings & directs & relays & rtts & drtts & Hp' & Hd & Hr &
                  Hrt & Hdr & Hlen & Hf & Htot & Hdir & Hrel & Hpct & Hdur &
                  Hmean & _ & _ & Hdm & _ & Hrm).
  rewrite Hp in Hp'. injection Hp' as <-.
  simpl in Hd, Hr. injection Hd as <-. injection Hr as <-.
  unfold direct_rtts in Hdr. rewrite Hp in Hdr. simpl in Hdr.
  injection Hdr as <-.
  destruct rtts; [|discriminate].
  rewrite Hf, Htot, Hdir, Hrel, Hpct, Hdur, Hmean, Hdm, Hrm by reflexivity.
  repeat split.
Qed.

(** The section of such a file starts with zero-filled lines. *)
Lemma print_single_no_pings r :
  total_pings r = 0%nat -> direct_pings r = 0%nat ->
  relay_pings r = 0%nat -> direct_pct r = 0 -> duration_s r = None ->
  rtt_mean r = None -> direct_rtt_mean r = None ->
  relay_rtt_mean r = None ->
  exists rest,
    printed (print_single r) =
      [L_sep60_nl; L_file (file r); L_sep60; L_blank;
       L_duration 0 (0 / 60); L_total_pings 0; L_direct 0 0; L_relay 0;
       L_blank; L_blank] ++ rest.
Proof.
  intros Htot Hdir Hrel Hpct Hdur Hmean Hdm Hrm.
  unfold print_single.
  rewrite Htot, Hdir, Hrel, Hpct, Hdur, Hmean, Hdm, Hrm.
  cbn [when_set or_default fmt_float].
  do 4 (rewrite bind_print; cbn [printed outcome]).
  rewrite bind_lift_ok.
  do 5 (rewrite bind_print; cbn [printed outcome]).
  do 3 (rewrite bind_ret).
  rewrite bind_print; cbn [printed outcome].
  eexists. reflexivity.
Qed.

(** An RTT line in a section comes from an RTT key of the result. *)
Lemma print_single_rtt_line r l :
  In l (printed (print_single r)) -> is_rtt_line l = true ->
  rtt_mean r <> None \/ direct_rtt_mean r <> None \/
  relay_rtt_mean r <> None.
Proof.
  unfold print_single, when_set. intros H Hl.
  in_printed H; subst; try discriminate;
    repeat match goal with
      | E : ?o = Some _ |- context [?o] => rewrite E
      end;
    try solve [left; discriminate
              | right; left; discriminate
              | right; right; discriminate].
Qed.
End ResultsFacts.

(** ** The batch loops *)

Section BatchFacts.
Import Py.

(** The loop of analyze-results.py never raises: it ends with the results
    of the files that could be analysed, in the order of the paths. *)
Lemma analyze_all_outcome fs files acc :
  outcome (Results.analyze_all fs files acc) =
    Ok (acc ++ flat_map (Results.attempt fs) files).
Proof.
  revert acc. induction files as [|f files IH]; intros acc; simpl.
  - rewrite app_nil_r. reflexivity.
  - unfold Results.attempt at 1.
    destruct (Results.analyze_file fs f) as [r|e].
    + rewrite IH, <- app_assoc. reflexivity.
    + destruct e; rewrite bind_print; cbn [outcome]; rewrite IH;
        reflexivity.
Qed.

Lemma analyze_all_skip fs files acc f :
  In f files -> fs f = None ->
  In (Results.L_skip f) (printed (Results.analyze_all fs files acc)).
Proof.
  revert acc. induction files as [|g files IH]; intros acc; simpl; [tauto|].
  intros [E|Hin] Hf.
  - subst g. unfold Results.analyze_file. rewrite Hf. rewrite bind_print. left.
    reflexivity.
  - destruct (Results.analyze_file fs g) as [r|e]; [auto|].
    destruct e; rewrite bind_print; right; auto.
Qed.

Lemma attempts_nil fs files :
  flat_map (Results.attempt fs) files = [] <->
  forall f, In f files -> exists e, Results.analyze_file fs f = Raise e.
Proof.
  induction files as [|g files IH]; simpl.
  - split; [intros _ f [] | reflexivity].
  - unfold Results.attempt at 1. split.
    + intros H f [E|Hin].
      * subst f. destruct (Results.analyze_file fs g); [discriminate|eauto].
      * apply IH; [|exact Hin].
        destruct (Results.analyze_file fs g); [discriminate|exact H].
    + intros H. destruct (H g (or_introl eq_refl)) as [e ->].
      apply IH. intros f Hin. apply H. right. exact Hin.
Qed.

(** analyze-results.py leaves through [sys.exit(1)] exactly when no file
    gave a result. *)
Lemma results_main_exit fs files :
  outcome (Results.main fs files) = Ok (SysExit 1) <->
  flat_map (Results.attempt fs) files = [].
Proof.
  unfold Results.main. destruct files as [|f files]; [simpl; tauto|].
  cbn [Results.is_empty].
  rewrite (outcome_bind_ok _ _ (analyze_all_outcome fs (f :: files) [])).
  cbn [app].
  destruct (flat_map (Results.attempt fs) (f :: files)) as [|r rs] eqn:E.
  - simpl. tauto.
  - cbn [Results.is_empty]. split; [|discriminate].
    intros H. apply outcome_bind_inv in H as (u & _ & H).
    apply outcome_bind_inv in H as (v & _ & H). discriminate.
Qed.

(** A file that holds no event still gives a result. *)
Lemma analyze_file_no_events fs f lines :
  fs f = Some lines -> flat_map decoded lines = [] ->
  exists r, Results.analyze_file fs f = Ok r /\
            Results.total_pings r = 0%nat /\ Results.rtt_mean r = None.
Proof.
  intros Hf He. unfold Results.analyze_file. rewrite Hf, He.
  eexists. split; [reflexivity|]. split; reflexivity.
Qed.

(** analyze-stress.py on files that all hold no event. *)
Lemma stress_main_all_empty fs files :
  files <> [] ->
  (forall f, In f files -> Stress.load_events fs f = Ok []) ->
  outcome (Stress.main fs files) = Ok Done /\
  forall f, In f files ->
            In (Stress.L_empty (Stress.label_of f))
               (printed (Stress.main fs files)).
Proof.
  intros Hne Hall.
  assert (Hbody : forall f, In f (sorted_str files) ->
                            Stress.report_file fs f
                            = Run [Stress.L_empty (Stress.label_of f)] (Ok tt)).
  { intros f Hin. unfold Stress.report_file.
    rewrite Hall by (eapply Permutation_in;
                     [symmetry; apply sorted_str_perm | exact Hin]).
    rewrite bind_lift_ok. reflexivity. }
  destruct (@for_each_ok _ _ (Stress.report_file fs) (sorted_str files))
    as [Ho Hp].
  { intros f Hin. rewrite Hbody by exact Hin. reflexivity. }
  unfold Stress.main. rewrite is_empty_false by exact Hne.
  do 4 (rewrite bind_print; cbn [printed outcome]).
  rewrite (outcome_bind_ok _ _ Ho), (printed_bind_ok _ _ Ho).
  split; [reflexivity|].
  intros f Hin. do 4 right. apply in_or_app. left. rewrite Hp.
  apply in_flat_map. exists f. split.
  - eapply Permutation_in; [apply sorted_str_perm | exact Hin].
  - rewrite Hbody; [left; reflexivity|].
    eapply Permutation_in; [apply sorted_str_perm | exact Hin].
Qed.

(** analyze-stress.py with a path that does not exist: the exception leaves
    [main] and the closing lines are not printed. *)
Lemma stress_main_missing fs files f :
  In f files -> fs f = None ->
  (exists e, outcome (Stress.main fs files) = Raise e) /\
  ~ In Stress.L_done (printed (Stress.main fs files)).
Proof.
  intros Hin Hf.
  assert (Hne : files <> []) by (destruct files; [destruct Hin|congruence]).
  destruct (@for_each_raises _ _ (Stress.report_file fs) (sorted_str files) f)
    as [e He].
  { eapply Permutation_in; [apply sorted_str_perm | exact Hin]. }
  { exists FileNotFoundError. unfold Stress.report_file, Stress.load_events.
    rewrite Hf. reflexivity. }
  unfold Stress.main. rewrite is_empty_false by exact Hne.
  do 4 (rewrite bind_print; cbn [printed outcome]).
  rewrite (bind_raise _ _ He). cbn [printed outcome].
  split; [eauto|].
  intros [H|[H|[H|[H|H]]]]; try discriminate.
  apply in_printed_for_each in H as (g & _ & H).
  unfold Stress.report_file in H.
  in_printed H; try discriminate.
  - unfold Stress.analyze_pings, Stress.spread_lines, Stress.summary_lines,
      Stress.path_change_lines in H.
    in_printed H; try discriminate.
    match goal with
    | H : In _ (printed match ?l with [] => _ | _ :: _ => _ end) |- _ =>
        destruct l; in_printed H; discriminate
    end.
  - unfold Stress.analyze_burst in H. in_printed H; try discriminate.
    apply in_printed_for_each in H as (rec & _ & H).
    unfold Stress.burst_round in H. in_printed H; discriminate.
  - unfold Stress.analyze_ladder in H. in_printed H; try discriminate.
    apply in_printed_for_each in H as (rec & _ & H).
    unfold Stress.ladder_row in H. in_printed H; discriminate.
  - unfold Stress.analyze_fanout in H. in_printed H; try discriminate.
    apply in_printed_for_each in H as (rec & _ & H).
    unfold Stress.fanout_trial in H. in_printed H; discriminate.
Qed.

(** The section of a result carries its file name. *)
Lemma print_single_names r :
  In (Results.L_file (Results.file r)) (printed (Results.print_single r)).
Proof.
  unfold Results.print_single. do 2 (rewrite bind_print; cbn [printed]).
  right. left. reflexivity.
Qed.

(** The sections that analyze-results.py prints when no section raises. *)
Lemma results_main_sections fs files r :
  In r (flat_map (Results.attempt fs) files) ->
  (forall r', In r' (flat_map (Results.attempt fs) files) ->
              outcome (Results.print_single r') = Ok tt) ->
  In (Results.L_file (Results.file r)) (printed (Results.main fs files)).
Proof.
  intros Hr Hall. unfold Results.main.
  destruct files as [|f files]; [destruct Hr|]. cbn [Results.is_empty].
  rewrite (printed_bind_ok _ _ (analyze_all_outcome fs (f :: files) [])).
  cbn [app]. apply in_or_app. right.
  destruct (flat_map (Results.attempt fs) (f :: files)) as [|r0 rs] eqn:E;
    [destruct Hr|].
  cbn [Results.is_empty]. apply in_printed_bind_l.
  destruct (@for_each_ok _ _ Results.print_single (r0 :: rs) Hall) as [_ ->].
  apply in_flat_map. exists r. split; [exact Hr | apply print_single_names].
Qed.

Lemma results_main_skip fs files f :
  In f files -> fs f = None ->
  In (Results.L_skip f) (printed (Results.main fs files)).
Proof.
  intros Hin Hf. unfold Results.main.
  destruct files as [|g files]; [destruct Hin|]. cbn [Results.is_empty].
  apply in_printed_bind_l. apply analyze_all_skip; assumption.
Qed.

(** The order of the paths on the command line does not reach the report of
    analyze-stress.py. *)
Lemma stress_main_permutation fs files files' :
  Permutation files files' -> Stress.main fs files = Stress.main fs files'.
Proof.
  intros Hp. unfold Stress.main.
  rewrite (sorted_str_invariant Hp), (Permutation_length Hp).
  destruct files, files'; try reflexivity.
  - apply Permutation_nil in Hp. discriminate.
  - symmetry in Hp. apply Permutation_nil in Hp. discriminate.
Qed.
End BatchFacts.

Unset Implicit Arguments.

(** * The reports in detail *)

(** ** Selections *)

Section MoreSelectFacts.
Import Py.

Lemma field_is_not_record (k s : string) (e : json) :
  is_record e = false -> field_is k s e = Raise AttributeError.
Proof. destruct e; try reflexivity. discriminate. Qed.

(** The only exception of a selection is the [AttributeError] of a value
    that has no [get]. *)
Lemma select_raises (k s : string) (events : list json) (x : exn) :
  select k s events = Raise x -> x = AttributeError.
Proof.
  induction events as [|e events IH]; simpl; [discriminate|].
  destruct e; simpl; try (intros [= <-]; reflexivity).
  destruct (select k s events); simpl.
  - destruct (field_is k s (JObj fields)) eqn:E; simpl; [discriminate|].
    unfold field_is in E. simpl in E.
    destruct (lookup k fields) as [[]|]; discriminate.
  - destruct (field_is k s (JObj fields)) eqn:E; simpl.
    + intros [= <-]. apply IH. reflexivity.
    + unfold field_is in E. simpl in E.
      destruct (lookup k fields) as [[]|]; discriminate.
Qed.

Lemma select_not_records (k s : string) (events : list json) :
  forallb is_record events = false ->
  select k s events = Raise AttributeError.
Proof.
  intros H. destruct (select k s events) as [l|x] eqn:E.
  - apply select_ok_records in E. congruence.
  - f_equal. eapply select_raises. exact E.
Qed.

Lemma select_app (k s : string) (l1 l2 : list json) :
  select k s (l1 ++ l2) =
    res_bind (select k s l1) (fun a =>
    res_bind (select k s l2) (fun b => Ok (a ++ b))).
Proof.
  induction l1 as [|e l1 IH]; simpl.
  - destruct (select k s l2); reflexivity.
  - destruct (field_is k s e) as [b|x]; simpl; [|reflexivity].
    rewrite IH. destruct (select k s l1) as [a|x]; simpl; [|reflexivity].
    destruct (select k s l2) as [c|x]; simpl; [|reflexivity].
    destruct b; reflexivity.
Qed.

(** Two selections on one key with different values share no event. *)
Lemma select_disjoint_length (k s1 s2 : string) (l a b : list json) :
  s1 <> s2 ->
  select k s1 l = Ok a -> select k s2 l = Ok b ->
  (List.length a + List.length b <= List.length l)%nat.
Proof.
  intros Hs. revert a b. induction l as [|e l IH]; simpl; intros a b.
  - intros [= <-] [= <-]. simpl. lia.
  - intros Ha Hb.
    apply res_bind_ok in Ha as (ba & Hba & Ha).
    apply res_bind_ok in Ha as (a' & Ha' & [= <-]).
    apply res_bind_ok in Hb as (bb & Hbb & Hb).
    apply res_bind_ok in Hb as (b' & Hb' & [= <-]).
    specialize (IH a' b' Ha' Hb').
    assert (Hnot : ba = true -> bb = true -> False).
    { intros -> ->. unfold field_is in Hba, Hbb.
      destruct (get e k) as [[v|]|]; try discriminate.
      destruct v; try discriminate.
      injection Hba as Hba. injection Hbb as Hbb.
      apply String.eqb_eq in Hba. apply String.eqb_eq in Hbb. congruence. }
    destruct ba, bb; simpl; solve [lia | exfalso; auto].
Qed.

Lemma map_res_ok_iff (A B : Type) (f : A -> res B) (l : list A) :
  (exists bs, map_res f l = Ok bs) <->
  (forall a, In a l -> exists b, f a = Ok b).
Proof.
  induction l as [|x l IH]; simpl.
  - split; [intros _ a [] | eauto].
  - split.
    + intros [bs H]. apply res_bind_ok in H as (b & Hb & H).
      apply res_bind_ok in H as (bs' & Hbs & _).
      intros a [<-|Hin]; [eauto|]. apply IH; eauto.
    + intros H. destruct (H x (or_introl eq_refl)) as [b ->].
      destruct (proj2 IH (fun a Ha => H a (or_intror Ha))) as [bs ->].
      simpl. eauto.
Qed.

Lemma map_res_app (A B : Type) (f : A -> res B) (l1 l2 : list A) :
  map_res f (l1 ++ l2) =
    res_bind (map_res f l1) (fun a =>
    res_bind (map_res f l2) (fun b => Ok (a ++ b))).
Proof.
  induction l1 as [|x l1 IH]; simpl.
  - destruct (map_res f l2); reflexivity.
  - destruct (f x); simpl; [|reflexivity]. rewrite IH.
    destruct (map_res f l1); simpl; [|reflexivity].
    destruct (map_res f l2); reflexivity.
Qed.
End MoreSelectFacts.

(** ** Loading and malformed input *)

Section Loading.
Import Py.

(** X2. A line that decodes to a value that is no object (a number, a
    string, a list) is not skipped: every selection raises
    [AttributeError]. analyze-stress.py prints nothing for the file and the
    exception leaves the loop; analyze-results.py gives the file up with an
    [ERROR] line. *)
Theorem value_that_is_no_record_raises :
  forall events,
    forallb is_record events = false ->
    (forall label,
        Stress.analyze_pings events label = Run [] (Raise AttributeError)) /\
    (forall name,
        Results.analyze_events name events = Raise AttributeError) /\
    (forall (fs : files) path lines,
        fs path = Some lines -> flat_map decoded lines = events ->
        Stress.report_file fs path = Run [] (Raise AttributeError) /\
        Results.main fs [path] =
          Run [Results.L_error path AttributeError;
               Results.L_no_valid_results] (Ok (SysExit 1))).
Proof.
  intros events H.
  assert (Hp : forall label,
             Stress.analyze_pings events label
             = Run [] (Raise AttributeError)).
  { intros label. unfold Stress.analyze_pings.
    rewrite (select_not_records "event" "ping" events H). reflexivity. }
  assert (Hr : forall name,
             Results.analyze_events name events = Raise AttributeError).
  { intros name. unfold Results.analyze_events.
    rewrite (select_not_records "event" "ping" events H). reflexivity. }
  split; [exact Hp|]. split; [exact Hr|].
  intros fs path lines Hf He. split.
  - unfold Stress.report_file, Stress.load_events. rewrite Hf, He.
    rewrite bind_lift_ok.
    destruct events as [|e events]; [discriminate|].
    cbn [Stress.is_empty]. rewrite Hp. reflexivity.
  - unfold Results.main, Results.analyze_all, Results.analyze_file.
    rewrite Hf, He, Hr. reflexivity.
Qed.

(** A file whose first line is [42]. *)
Lemma stray_value_in_a_log :
  Stress.report_file Sample.stray_value_disk "odd.jsonl"
    = Run [] (Raise AttributeError) /\
  Results.main Sample.stray_value_disk ["odd.jsonl"] =
    Run [Results.L_error "odd.jsonl" AttributeError;
         Results.L_no_valid_results] (Ok (SysExit 1)).
Proof.
  apply (proj2 (proj2 (value_that_is_no_record_raises
                         (flat_map decoded Sample.stray_value_log) eq_refl))
               Sample.stray_value_disk "odd.jsonl" Sample.stray_value_log
               eq_refl eq_refl).
Defined.
End Loading.

(** ** Counts and rates *)

Section Counts.
Import Py.

Lemma count_pos (A : Type) (l : list A) : l <> [] -> 0 < Results.count l.
Proof.
  intros H. unfold Results.count.
  destruct l as [|x l]; [congruence|].
  change 0 with (inject_Z 0). rewrite <- Zlt_Qlt. simpl List.length. lia.
Qed.

Lemma count_le (A B : Type) (l : list A) (l' : list B) :
  (List.length l <= List.length l')%nat -> Results.count l <= Results.count l'.
Proof. intros H. unfold Results.count. rewrite <- Zle_Qle. lia. Qed.

Lemma count_nonneg (A : Type) (l : list A) : 0 <= Results.count l.
Proof.
  unfold Results.count. change 0 with (inject_Z 0). rewrite <- Zle_Qle. lia.
Qed.

(** X3. In the result of a file the direct and the relayed pings are
    disjoint parts of the pings (a ping with another [via], or none, is in
    neither), and the direct percentage lies between 0 and 100: it is 0
    when no ping is direct, a file without pings included, above 0 when
    one is, and 100 when every ping is direct. *)
Theorem direct_share_of_pings :
  forall name events r,
    Results.analyze_events name events = Ok r ->
    (Results.direct_pings r + Results.relay_pings r
     <= Results.total_pings r)%nat /\
    0 <= Results.direct_pct r /\ Results.direct_pct r <= 100 /\
    (Results.direct_pings r = 0%nat -> Results.direct_pct r == 0) /\
    ((0 < Results.direct_pings r)%nat -> 0 < Results.direct_pct r) /\
    ((0 < Results.total_pings r)%nat ->
     Results.direct_pings r = Results.total_pings r ->
     Results.direct_pct r == 100).
Proof.
  intros name events r Ha. apply analyze_events_inv in Ha.
  destruct Ha as (pings & directs & relays & rtts & drtts & _ & Hd & Hr &
                  _ & _ & _ & _ & Htot & Hdir & Hrel & Hpct & _).
  rewrite Htot, Hdir, Hrel, Hpct.
  assert (Hsum : (List.length directs + List.length relays
                  <= List.length pings)%nat).
  { apply (select_disjoint_length "via" "DIRECT" "RELAY" pings directs relays);
      [discriminate | assumption | assumption]. }
  split; [exact Hsum|].
  destruct pings as [|p pings'] eqn:Ep.
  - simpl in Hsum. simpl.
    repeat split; try lra; intros H; try reflexivity; simpl in H; lia.
  - rewrite <- Ep in *. cbn [Results.is_empty].
    replace (Results.is_empty pings) with false by (rewrite Ep; reflexivity).
    assert (Hpos : 0 < Results.count pings)
      by (apply count_pos; rewrite Ep; discriminate).
    assert (Hle : Results.count directs <= Results.count pings)
      by (apply count_le; lia).
    pose proof (count_nonneg _ directs) as Hnn.
    assert (H0 : 0 <= Results.count directs / Results.count pings).
    { apply Qle_shift_div_l; [exact Hpos|]. lra. }
    assert (H1 : Results.count directs / Results.count pings <= 1).
    { apply Qle_shift_div_r; [exact Hpos|]. lra. }
    split; [lra|]. split; [lra|]. split; [|split].
    + intros H. destruct directs; [|discriminate].
      unfold Results.count at 1. simpl List.length.
      change (inject_Z (Z.of_nat 0)) with 0. field.
      intros E. rewrite E in Hpos. lra.
    + intros H.
      assert (Hdpos : 0 < Results.count directs)
        by (apply count_pos; destruct directs; [simpl in H; lia|discriminate]).
      assert (0 < Results.count directs / Results.count pings).
      { apply Qlt_shift_div_l; [exact Hpos|]. lra. }
      lra.
    + intros _ E. unfold Results.count. rewrite E. field.
      intros H. unfold Results.count in Hpos. rewrite H in Hpos. lra.
Qed.

(** Three direct pings in four: a share above 0 and at most 100. *)
Lemma three_direct_in_four :
  exists r,
    Results.analyze_events "car.jsonl" Sample.mostly_direct = Ok r /\
    Results.direct_pings r = 3%nat /\ Results.relay_pings r = 1%nat /\
    0 < Results.direct_pct r /\ Results.direct_pct r <= 100.
Proof.
  eexists. split; [vm_compute; reflexivity|].
  split; [reflexivity|]. split; [reflexivity|].
  match goal with
  | |- 0 < Results.direct_pct ?r /\ _ =>
      destruct (direct_share_of_pings "car.jsonl" Sample.mostly_direct r
                                      eq_refl) as (_ & _ & Hle & _ & Hpos & _)
  end.
  split; [apply Hpos; simpl; lia | exact Hle].
Defined.

Lemma path_change_lines_counts (pcs : list json) (n d r : nat) :
  In (Stress.L_path_changes n d r)
     (printed (Stress.path_change_lines pcs)) ->
  n = List.length pcs /\ (0 < n)%nat /\ (d + r <= n)%nat.
Proof.
  unfold Stress.path_change_lines. intros H.
  destruct pcs as [|p pcs'] eqn:Ep; [destruct H|].
  rewrite <- Ep in *. cbn [Stress.is_empty] in H.
  replace (Stress.is_empty pcs) with false in H by (rewrite Ep; reflexivity).
  in_printed H. injection H as <- <- <-.
  match goal with
  | H1 : outcome (lift (select "kind" "direct" pcs)) = Ok ?a,
    H2 : outcome (lift (select "kind" "relay" pcs)) = Ok ?b |- _ =>
      simpl in H1, H2;
      pose proof (select_disjoint_length "kind" "direct" "relay" pcs a b
                    ltac:(discriminate) H1 H2)
  end.
  split; [reflexivity|]. split; [rewrite Ep; simpl; lia | assumption].
Qed.

(** X4. A path-change line of the ping report counts the [path_change]
    records of the file, at least one; its direct and relay counts are
    disjoint parts of that number (a record of another kind is in the total
    only). *)
Theorem path_change_line_counts :
  forall events label n d r,
    In (Stress.L_path_changes n d r)
       (printed (Stress.analyze_pings events label)) ->
    exists pcs,
      select "event" "path_change" events = Ok pcs /\
      n = List.length pcs /\ (0 < n)%nat /\ (d + r <= n)%nat.
Proof.
  intros events label n d r H. unfold Stress.analyze_pings in H.
  in_printed H; try discriminate.
  - unfold Stress.spread_lines in H. in_printed H; discriminate.
  - unfold Stress.summary_lines in H.
    match type of H with
    | In _ (printed match ?l with [] => _ | _ :: _ => _ end) =>
        destruct l; in_printed H; discriminate
    end.
  - match goal with
    | Hx : outcome (lift (select "event" "path_change" events)) = Ok ?x
      |- _ => exists x; split; [exact Hx|]
    end.
    apply path_change_lines_counts. exact H.
Qed.

(** Three path changes, one to the relay, one to a direct path. *)
Lemma three_path_changes :
  In (Stress.L_path_changes 3 1 1)
     (printed (Stress.analyze_pings Sample.changing_paths "run/ping.jsonl")) /\
  exists pcs,
    select "event" "path_change" Sample.changing_paths = Ok pcs /\
    3%nat = List.length pcs /\ (0 < 3)%nat /\ (1 + 1 <= 3)%nat.
Proof.
  assert (H : In (Stress.L_path_changes 3 1 1)
                 (printed (Stress.analyze_pings Sample.changing_paths
                                                "run/ping.jsonl")))
    by (vm_compute; intuition).
  split; [exact H|].
  exact (path_change_line_counts Sample.changing_paths "run/ping.jsonl"
                                 3 1 1 H).
Defined.
End Counts.

(** ** The summary block of the ping report *)

Section SummaryBlock.
Import Py.

Lemma truthy_number_nonzero (v : json) (b : Q) :
  truthy v = true -> number v = Ok b -> ~ b == 0.
Proof.
  destruct v; simpl; try discriminate.
  - intros -> [= <-]. discriminate.
  - intros H [= <-]. intros E. apply Qeq_bool_iff in E.
    rewrite E in H. discriminate.
Qed.

Lemma summary_lines_rate (ss : list json) (ok total : json) (pct : Q) :
  In (Stress.L_success_rate ok total pct)
     (printed (Stress.summary_lines ss)) ->
  exists a b, number ok = Ok a /\ number total = Ok b /\ ~ b == 0 /\
              pct = 100 * a / b.
Proof.
  unfold Stress.summary_lines. destruct ss as [|s0 rest]; [intros []|].
  destruct (truthy _) eqn:Ht; intros H; in_printed H; try discriminate.
  injection H as <- <- <-.
  match goal with
  | H1 : outcome (lift _) = Ok ?a, H2 : outcome (lift _) = Ok ?b |- _ =>
      simpl in H1, H2; exists a, b; repeat split; auto;
      eapply truthy_number_nonzero; eassumption
  end.
Qed.

Lemma summary_lines_zero_total (s0 : json) (rest : list json) :
  truthy (get_default (last rest s0) "total_pings" (JNum 0)) = false ->
  Stress.summary_lines (s0 :: rest) =
    Run [Stress.L_blank;
         Stress.L_reconnections
           (get_default (last rest s0) "reconnections" (JNum 0))] (Ok tt).
Proof.
  intros H. unfold Stress.summary_lines. rewrite H. reflexivity.
Qed.

(** X5. The percentage of a success-rate line is never a division by
    zero: the line is printed only for a [total_pings] that is a number
    other than 0. For a last summary whose [total_pings] is 0, absent or
    null the report has an empty line in place of the success rate, and the
    reconnections line after it. *)
Theorem success_rate_needs_a_total :
  (forall events label ok total pct,
      In (Stress.L_success_rate ok total pct)
         (printed (Stress.analyze_pings events label)) ->
      exists a b, number ok = Ok a /\ number total = Ok b /\ ~ b == 0 /\
                  pct = 100 * a / b) /\
  (forall events label rtts summaries,
      ping_rtts events = Ok rtts -> rtts <> [] ->
      select "event" "summary" events = Ok summaries -> summaries <> [] ->
      truthy (get_default (last summaries JNull) "total_pings" (JNum 0))
        = false ->
      In Stress.L_blank (printed (Stress.analyze_pings events label)) /\
      In (Stress.L_reconnections
            (get_default (last summaries JNull) "reconnections" (JNum 0)))
         (printed (Stress.analyze_pings events label)) /\
      forall ok total pct,
        ~ In (Stress.L_success_rate ok total pct)
             (printed (Stress.analyze_pings events label))).
Proof.
  split.
  - intros events label ok total pct H. unfold Stress.analyze_pings in H.
    in_printed H; try discriminate.
    + unfold Stress.spread_lines in H. in_printed H; discriminate.
    + eapply summary_lines_rate. exact H.
    + apply path_change_lines_plain in H. destruct H. discriminate.
  - intros events label rtts summaries Hr Hne Hss Hsne Ht.
    destruct (@analyze_pings_with_rtts events label rtts Hr Hne)
      as (lo & hi & ss & pcs & _ & _ & Hss' & _ & ->).
    rewrite Hss in Hss'. injection Hss' as <-.
    destruct summaries as [|s0 rest]; [congruence|].
    rewrite last_cons in *.
    rewrite (summary_lines_zero_total s0 rest Ht).
    rewrite bind_printed.
    rewrite (printed_bind_ok _ _ (spread_lines_ok Hne)).
    rewrite bind_printed.
    split; [|split].
    + apply in_or_app. right. apply in_or_app. right. left. reflexivity.
    + apply in_or_app. right. apply in_or_app. right. right. left.
      reflexivity.
    + intros ok total pct H.
      apply in_app_or in H as [H|H].
      * simpl in H. repeat (destruct H as [H|H]; [discriminate|]).
        destruct H.
      * apply in_app_or in H as [H|H].
        -- unfold Stress.spread_lines in H. in_printed H; discriminate.
        -- simpl in H. destruct H as [H|[H|H]]; try discriminate.
           apply path_change_lines_plain in H. destruct H. discriminate.
Qed.

(** A summary that counted no ping: an empty line, no rate. *)
Lemma summary_without_total :
  In Stress.L_blank
     (printed (Stress.analyze_pings Sample.pings_and_empty_summary
                                    "run/ping.jsonl")) /\
  forall ok total pct,
    ~ In (Stress.L_success_rate ok total pct)
         (printed (Stress.analyze_pings Sample.pings_and_empty_summary
                                        "run/ping.jsonl")).
Proof.
  destruct (proj2 success_rate_needs_a_total
                  Sample.pings_and_empty_summary "run/ping.jsonl"
                  [12; 15] [Sample.summary 0 0]
                  eq_refl ltac:(discriminate) eq_refl ltac:(discriminate)
                  eq_refl) as (Hb & _ & Hn).
  split; assumption.
Defined.
End SummaryBlock.

(** ** Order of the statistics *)

Section StatisticsOrder.
Import Py.

Lemma len_cons (x : Q) (l : list Q) : len (x :: l) == len l + 1.
Proof.
  unfold len. simpl List.length.
  rewrite Nat2Z.inj_succ, <- Z.add_1_r, inject_Z_plus. reflexivity.
Qed.

Lemma len_pos (l : list Q) : l <> [] -> 0 < len l.
Proof.
  intros H. destruct l as [|x l]; [congruence|].
  unfold len. change 0 with (inject_Z 0). rewrite <- Zlt_Qlt.
  simpl List.length. lia.
Qed.

Lemma fold_plus_lower (lo : Q) (l : list Q) (acc : Q) :
  Forall (fun x => lo <= x) l ->
  acc + lo * len l <= fold_left Qplus l acc.
Proof.
  revert acc. induction l as [|x l IH]; intros acc H; simpl.
  - change (len []) with 0. lra.
  - inversion H as [|y l' Hx Hl]; subst.
    eapply Qle_trans; [|apply IH; exact Hl].
    rewrite len_cons. set (t := lo * len l).
    assert (E : lo * (len l + 1) == t + lo) by (unfold t; ring).
    rewrite E. lra.
Qed.

Lemma fold_plus_upper (hi : Q) (l : list Q) (acc : Q) :
  Forall (fun x => x <= hi) l ->
  fold_left Qplus l acc <= acc + hi * len l.
Proof.
  revert acc. induction l as [|x l IH]; intros acc H; simpl.
  - change (len []) with 0. lra.
  - inversion H as [|y l' Hx Hl]; subst.
    eapply Qle_trans; [apply IH; exact Hl|].
    rewrite len_cons. set (t := hi * len l).
    assert (E : hi * (len l + 1) == t + hi) by (unfold t; ring).
    rewrite E. lra.
Qed.

(** The mean lies between a lower and an upper bound of the data. *)
Lemma mean_between (lo hi : Q) (l : list Q) :
  l <> [] ->
  Forall (fun x => lo <= x) l -> Forall (fun x => x <= hi) l ->
  lo <= sum l / len l /\ sum l / len l <= hi.
Proof.
  intros Hne Hlo Hhi. pose proof (len_pos l Hne) as Hpos.
  pose proof (fold_plus_lower lo l 0 Hlo) as H1.
  pose proof (fold_plus_upper hi l 0 Hhi) as H2.
  fold (sum l) in H1, H2. split.
  - apply Qle_shift_div_l; [exact Hpos|]. lra.
  - apply Qle_shift_div_r; [exact Hpos|]. lra.
Qed.

(** In a sorted list the elements grow with the index. *)
Lemma sorted_nth_le (s : list Q) :
  StronglySorted Qle s ->
  forall i j, (i <= j)%nat -> (j < List.length s)%nat ->
              nth i s 0 <= nth j s 0.
Proof.
  induction 1 as [|x s Hs IH Hx]; intros i j Hij Hj; simpl in Hj; [lia|].
  destruct i as [|i], j as [|j]; simpl; try lia.
  - apply Qle_refl.
  - rewrite Forall_forall in Hx. apply Hx. apply nth_In. lia.
  - apply IH; lia.
Qed.

Lemma half_le_p95_index (n : nat) : (n / 2 <= p95_index n)%nat.
Proof.
  rewrite p95_index_floor.
  replace (n / 2)%nat with (n * 50 / 100)%nat.
  - apply Nat.Div0.div_le_mono. lia.
  - change 100%nat with (2 * 50)%nat.
    rewrite Nat.Div0.div_mul_cancel_r; [reflexivity | lia].
Qed.

Lemma Forall_sorted_num (P : Q -> Prop) (l : list Q) :
  Forall P l -> Forall P (sorted_num l).
Proof. apply Permutation_Forall. apply sorted_num_perm. Qed.

(** The median lies between the bounds of the data and is not above the
    element at the p95 index. *)
Lemma median_between (lo hi : Q) (l : list Q) (md : Q) :
  median l = Ok md ->
  Forall (fun x => lo <= x) l -> Forall (fun x => x <= hi) l ->
  lo <= md /\ md <= hi /\
  md <= nth (p95_index (List.length l)) (sorted_num l) 0.
Proof.
  intros Hm Hlo Hhi. unfold median in Hm.
  pose proof (sorted_num_sorted l) as Hs.
  pose proof (Forall_sorted_num _ l Hlo) as Hslo.
  pose proof (Forall_sorted_num _ l Hhi) as Hshi.
  rewrite Forall_forall in Hslo, Hshi.
  pose proof (half_le_p95_index (List.length l)) as Hhalf.
  rewrite sorted_num_length in Hm.
  destruct (List.length l) as [|n] eqn:En; [discriminate|].
  assert (Hp : (p95_index (S n) < List.length (sorted_num l))%nat)
    by (rewrite sorted_num_length, En; apply p95_index_lt; lia).
  assert (Hlen : List.length (sorted_num l) = S n)
    by (rewrite sorted_num_length; exact En).
  assert (Hdiv : (S n / 2 < S n)%nat) by (apply Nat.div_lt; lia).
  destruct (Nat.odd (S n)).
  - injection Hm as <-.
    change (fst (Nat.divmod n 1 0 0)) with (S n / 2)%nat.
    split; [apply Hslo, nth_In; lia|].
    split; [apply Hshi, nth_In; lia|].
    apply sorted_nth_le; [exact Hs | exact Hhalf | exact Hp].
  - injection Hm as <-.
    change (fst (Nat.divmod n 1 0 0)) with (S n / 2)%nat.
    set (a := nth (S n / 2 - 1) (sorted_num l) 0).
    set (b := nth (S n / 2) (sorted_num l) 0).
    assert (Ha : lo <= a) by (apply Hslo, nth_In; lia).
    assert (Hb : lo <= b) by (apply Hslo, nth_In; lia).
    assert (Hb' : b <= hi) by (apply Hshi, nth_In; lia).
    assert (Hab : a <= b) by (apply sorted_nth_le; [exact Hs | lia | lia]).
    assert (Hbp : b <= nth (p95_index (S n)) (sorted_num l) 0)
      by (apply sorted_nth_le; [exact Hs | exact Hhalf | exact Hp]).
    assert (E : (a + b) / 2 == (a + b) * (1 # 2)) by (field).
    rewrite E.
    set (p := nth (p95_index (S n)) (sorted_num l) 0) in *.
    clearbody a b p. repeat split; lra.
Qed.

(** The sample variance is not negative. *)
Lemma variance_nonneg (l : list Q) (v : Q) : variance l = Ok v -> 0 <= v.
Proof.
  destruct l as [|x [|y l]]; try discriminate.
  intros [= <-].
  set (d := x :: y :: l).
  set (m := sum d / len d).
  assert (Hsq : Forall (fun z => 0 <= z) (map (fun z => (z - m) * (z - m)) d)).
  { apply Forall_forall. intros z Hz. apply in_map_iff in Hz as (w & <- & _).
    set (t := w - m). clearbody t.
    destruct (Qlt_le_dec t 0) as [Ht|Ht].
    - assert (E : t * t == (- t) * (- t)) by ring.
      rewrite E. apply Qmult_le_0_compat; lra.
    - apply Qmult_le_0_compat; lra. }
  pose proof (fold_plus_lower 0 _ 0 Hsq) as H.
  fold (sum (map (fun z => (z - m) * (z - m)) d)) in H.
  assert (Hlen : 0 < len d - 1).
  { unfold d. rewrite !len_cons.
    assert (0 <= len l).
    { unfold len. change 0 with (inject_Z 0). rewrite <- Zle_Qle. lia. }
    lra. }
  apply Qle_shift_div_l; [exact Hlen|].
  rewrite Qmult_0_l. rewrite Qmult_0_l, Qplus_0_l in H. exact H.
Qed.
End StatisticsOrder.

Section OrderedReports.
Import Py.

(** The RTT statistics that [analyze_file] stores for a file with pings. *)
Lemma analyze_events_rtt_stats (name : string) (events : list json)
      (r : Results.result) (rtts : list Q) :
  Results.analyze_events name events = Ok r ->
  ping_rtts events = Ok rtts -> rtts <> [] ->
  exists md lo hi,
    median rtts = Ok md /\ py_min rtts = Ok lo /\ py_max rtts = Ok hi /\
    Results.rtt_median r = Some md /\ Results.rtt_min r = Some lo /\
    Results.rtt_max r = Some hi /\
    Results.rtt_mean r = Some (sum rtts / len rtts) /\
    Results.rtt_p95 r =
      Some (nth (p95_index (List.length rtts)) (sorted_num rtts) 0).
Proof.
  intros Ha Hr Hne.
  destruct (ping_rtts_inv events Hr) as (pings & js & Hp & Hjs & Hn & Hlen).
  unfold Results.analyze_events in Ha. inv_res.
  match goal with
  | Hp' : select "event" "ping" events = Ok ?p |- _ =>
      rewrite Hp in Hp'; injection Hp' as <-
  end.
  match goal with
  | Hj : map_res _ pings = Ok ?j,
    Hall : (if Results.is_empty ?j then _ else _) = Ok ?st |- _ =>
      rewrite Hjs in Hj; injection Hj as <-;
      replace (Results.is_empty js) with false in Hall
        by (destruct js; [apply map_res_length in Hn; destruct rtts;
                          [congruence|discriminate] | reflexivity]);
      rewrite Hn in Hall; cbn [res_bind] in Hall;
      rewrite (mean_nonempty Hne), (p95_nonempty Hne) in Hall;
      cbn [res_bind] in Hall
  end.
  destruct (median rtts) as [md|] eqn:Emd;
    [|match goal with H : _ = Ok _ |- _ => discriminate H end].
  destruct (py_min rtts) as [lo|] eqn:Elo;
    [|match goal with H : res_bind _ _ = Ok _ |- _ => discriminate H
      | H : Raise _ = Ok _ |- _ => discriminate H end].
  destruct (py_max rtts) as [hi|] eqn:Ehi;
    [|match goal with H : res_bind _ _ = Ok _ |- _ => discriminate H
      | H : Raise _ = Ok _ |- _ => discriminate H end].
  exists md, lo, hi.
  match goal with
  | Hall : res_bind (Ok md) _ = Ok ?st |- _ =>
      cbn [res_bind] in Hall; injection Hall as <-
  end.
  injection Ha as <-. cbn. repeat split; reflexivity.
Qed.

(** X6. The RTT statistics that analyze-results.py stores for a file with
    pings whose RTTs are at most 2^53 in magnitude are ordered: minimum <=
    median <= p95 <= maximum, and the mean lies between the minimum and
    the maximum. *)
Theorem result_statistics_are_ordered :
  forall name events r rtts,
    Results.analyze_events name events = Ok r ->
    ping_rtts events = Ok rtts -> rtts <> [] ->
    Forall double_exact rtts ->
    exists lo md p hi m,
      Results.rtt_min r = Some lo /\ Results.rtt_median r = Some md /\
      Results.rtt_p95 r = Some p /\ Results.rtt_max r = Some hi /\
      Results.rtt_mean r = Some m /\
      lo <= md /\ md <= p /\ p <= hi /\ lo <= m /\ m <= hi.
Proof.
  intros name events r rtts Ha Hr Hne _.
  destruct (analyze_events_rtt_stats name events r rtts Ha Hr Hne)
    as (md & lo & hi & Hmd & Hlo & Hhi & Em & El & Eh & Emean & Ep).
  destruct (py_min_spec _ Hlo) as [_ Hlow].
  destruct (py_max_spec _ Hhi) as [_ Hup].
  destruct (median_between lo hi rtts md Hmd Hlow Hup) as (H1 & _ & H2).
  destruct (mean_between lo hi rtts Hne Hlow Hup) as [H3 H4].
  exists lo, md, (nth (p95_index (List.length rtts)) (sorted_num rtts) 0),
         hi, (sum rtts / len rtts).
  repeat (split; [assumption|]).
  split.
  - pose proof (Forall_sorted_num _ rtts Hup) as Hs.
    rewrite Forall_forall in Hs. apply Hs. apply nth_In.
    rewrite sorted_num_length. apply p95_index_lt.
    destruct rtts; [congruence | simpl; lia].
  - split; assumption.
Qed.

(** The five pings 10..50: 10 <= 30 <= 50 <= 50, mean 30. *)
Lemma five_pings_statistics :
  exists r lo md p hi m,
    Results.analyze_events "ping.jsonl" Sample.five_pings = Ok r /\
    Results.rtt_min r = Some lo /\ Results.rtt_median r = Some md /\
    Results.rtt_p95 r = Some p /\ Results.rtt_max r = Some hi /\
    Results.rtt_mean r = Some m /\
    lo <= md /\ md <= p /\ p <= hi /\ lo <= m /\ m <= hi.
Proof.
  eexists.
  match goal with
  | |- exists lo md p hi m, ?a = Ok ?r /\ _ =>
      assert (Ha : a = Ok r) by (vm_compute; reflexivity);
      destruct (result_statistics_are_ordered
                  "ping.jsonl" Sample.five_pings r [10; 20; 30; 40; 50]
                  Ha eq_refl ltac:(discriminate)
                  ltac:(repeat constructor; vm_compute; discriminate))
        as (lo & md & p & hi & m & H)
  end.
  exists lo, md, p, hi, m. split; [reflexivity | exact H].
Defined.

(** A line under [if len(rtts) > 1] comes from that block, and there are
    at least two RTTs. *)
Lemma analyze_pings_spread_line (events : list json) (label : string)
      (rtts : list Q) (l : Stress.line) :
  ping_rtts events = Ok rtts ->
  In l (printed (Stress.analyze_pings events label)) ->
  Stress.is_spread l = true ->
  (2 <= List.length rtts)%nat /\ In l (printed (Stress.spread_lines rtts)).
Proof.
  intros Hr H Hl.
  destruct rtts as [|x rtts'] eqn:Ex.
  - destruct (ping_rtts_inv events Hr) as (pings & js & Hp & _ & _ & Hlen).
    destruct pings; [|discriminate].
    unfold Stress.analyze_pings in H. rewrite Hp in H. destruct H.
  - rewrite <- Ex in *.
    assert (Hne : rtts <> []) by (rewrite Ex; discriminate).
    destruct (@analyze_pings_with_rtts events label rtts Hr Hne)
      as (lo & hi & ss & pcs & _ & _ & _ & _ & E).
    rewrite E, bind_printed in H. apply in_app_or in H as [H|H].
    + simpl in H.
      repeat (destruct H as [H|H]; [subst l; discriminate|]). destruct H.
    + apply in_printed_bind_inv in H as [H|(u & _ & H)].
      * destruct (le_lt_dec 2 (List.length rtts)) as [Hn|Hn]; [auto|].
        rewrite spread_lines_few in H by exact Hn. destruct H.
      * apply in_printed_bind_inv in H as [H|(v & _ & H)].
        -- apply summary_lines_no_spread in H. congruence.
        -- apply path_change_lines_plain in H. destruct H. congruence.
Qed.

(** X7. In the ping report of analyze-stress.py for pings whose RTTs are
    at most 2^53 in magnitude, the minimum and the maximum printed bound
    the mean printed; a median line lies between them and is not above the
    p95; a p95 line lies between them; and the number under the square
    root of a deviation line is not negative. *)
Theorem ping_report_is_ordered :
  forall events label rtts,
    ping_rtts events = Ok rtts -> rtts <> [] ->
    Forall double_exact rtts ->
    exists lo hi,
      In (Stress.L_rtt_min lo)
         (printed (Stress.analyze_pings events label)) /\
      In (Stress.L_rtt_max hi)
         (printed (Stress.analyze_pings events label)) /\
      In (Stress.L_rtt_avg (sum rtts / len rtts))
         (printed (Stress.analyze_pings events label)) /\
      lo <= sum rtts / len rtts /\ sum rtts / len rtts <= hi /\
      (forall md,
          In (Stress.L_rtt_median md)
             (printed (Stress.analyze_pings events label)) ->
          lo <= md /\ md <= hi /\
          md <= nth (p95_index (List.length rtts)) (sorted_num rtts) 0) /\
      (forall p,
          In (Stress.L_rtt_p95 p)
             (printed (Stress.analyze_pings events label)) ->
          lo <= p /\ p <= hi) /\
      (forall v,
          In (Stress.L_rtt_stddev v)
             (printed (Stress.analyze_pings events label)) ->
          0 <= v).
Proof.
  intros events label rtts Hr Hne _.
  destruct (@analyze_pings_with_rtts events label rtts Hr Hne)
    as (lo & hi & ss & pcs & Hlo & Hhi & _ & _ & E).
  destruct (py_min_spec _ Hlo) as [_ Hlow].
  destruct (py_max_spec _ Hhi) as [_ Hup].
  destruct (mean_between lo hi rtts Hne Hlow Hup) as [H3 H4].
  exists lo, hi.
  assert (Hhead : forall l,
             In l (Stress.ping_head label (List.length rtts) lo hi
                                    (sum rtts / len rtts)) ->
             In l (printed (Stress.analyze_pings events label))).
  { intros l Hl. rewrite E, bind_printed. apply in_or_app. left. exact Hl. }
  split; [apply Hhead; simpl; tauto|].
  split; [apply Hhead; simpl; tauto|].
  split; [apply Hhead; simpl; tauto|].
  split; [exact H3|]. split; [exact H4|].
  assert (Hspread : forall l,
             In l (printed (Stress.analyze_pings events label)) ->
             Stress.is_spread l = true ->
             exists md var,
               median rtts = Ok md /\ variance rtts = Ok var /\
               In l [Stress.L_rtt_median md; Stress.L_rtt_stddev var;
                     Stress.L_rtt_p95
                       (nth (p95_index (List.length rtts))
                            (sorted_num rtts) 0)]).
  { intros l Hl Hs.
    destruct (analyze_pings_spread_line events label rtts l Hr Hl Hs)
      as [Hn Hin].
    destruct (@spread_lines_two rtts Hn) as (md & var & Hmd & Hvar & Es).
    rewrite Es in Hin. exists md, var. auto. }
  split; [|split].
  - intros md H. destruct (Hspread _ H eq_refl) as (md' & var & Hmd & _ & Hin).
    destruct Hin as [Hin|[Hin|[Hin|[]]]]; try discriminate.
    injection Hin as ->.
    apply (median_between lo hi rtts md Hmd Hlow Hup).
  - intros p H. destruct (Hspread _ H eq_refl) as (md' & var & _ & _ & Hin).
    destruct Hin as [Hin|[Hin|[Hin|[]]]]; try discriminate.
    injection Hin as <-.
    pose proof (Forall_sorted_num _ rtts Hlow) as Hs1.
    pose proof (Forall_sorted_num _ rtts Hup) as Hs2.
    rewrite Forall_forall in Hs1, Hs2.
    assert (Hi : In (nth (p95_index (List.length rtts)) (sorted_num rtts) 0)
                    (sorted_num rtts)).
    { apply nth_In. rewrite sorted_num_length. apply p95_index_lt.
      destruct rtts; [congruence | simpl; lia]. }
    split; [apply Hs1 | apply Hs2]; exact Hi.
  - intros v H. destruct (Hspread _ H eq_refl) as (md' & var & _ & Hvar & Hin).
    destruct Hin as [Hin|[Hin|[Hin|[]]]]; try discriminate.
    injection Hin as ->.
    apply (variance_nonneg rtts v Hvar).
Qed.

(** The five pings again, in the report of analyze-stress.py. *)
Lemma five_pings_report :
  exists lo hi,
    In (Stress.L_rtt_min lo)
       (printed (Stress.analyze_pings Sample.five_pings "run/ping.jsonl")) /\
    In (Stress.L_rtt_max hi)
       (printed (Stress.analyze_pings Sample.five_pings "run/ping.jsonl")) /\
    lo <= hi.
Proof.
  destruct (ping_report_is_ordered
              Sample.five_pings "run/ping.jsonl" [10; 20; 30; 40; 50]
              eq_refl ltac:(discriminate)
              ltac:(repeat constructor; vm_compute; discriminate))
    as (lo & hi & Hlo & Hhi & _ & H1 & H2 & _).
  exists lo, hi. split; [exact Hlo|]. split; [exact Hhi|].
  eapply Qle_trans; eassumption.
Defined.
End OrderedReports.

(** ** The burst, ladder and fanout reports *)

Section OtherAggregators.
Import Py.

(** X8. The size column of a ladder row: a size of at least 1024 is shown
    in whole kilobytes, [n] KB with n * 1024 <= size < (n + 1) * 1024 and
    n >= 1; a smaller size is shown as it is, in bytes. A row is printed
    only for a size that is a number. *)
Theorem ladder_size_column :
  forall fields size ok fail rmin ravg rmax,
    In (Stress.L_ladder_row size ok fail rmin ravg rmax)
       (printed (Stress.ladder_row (JObj fields))) ->
    exists sz,
      number (get_default (JObj fields) "size" (JNum 0)) = Ok sz /\
      ((1024 <= sz /\
        exists n, size = Stress.KB n /\ (1 <= n)%Z /\
                  inject_Z n * 1024 <= sz /\ sz < (inject_Z n + 1) * 1024) \/
       (sz < 1024 /\
        size = Stress.B (get_default (JObj fields) "size" (JNum 0)))).
Proof.
  intros fields size ok fail rmin ravg rmax H.
  unfold Stress.ladder_row in H. in_printed H.
  injection H as <- _ _ _ _ _.
  lazymatch goal with
  | Hs : outcome (lift (number _)) = Ok ?sz |- _ =>
      simpl in Hs; exists sz; split; [exact Hs|];
      pose proof (Qfloor_le (sz / 1024)) as Hfl;
      pose proof (Qlt_floor (sz / 1024)) as Hfu;
      assert (E : sz == sz / 1024 * 1024) by (field);
      destruct (Qle_bool 1024 sz) eqn:Eb;
      [left; apply Qle_bool_iff in Eb; split; [exact Eb|];
       exists (Qfloor (sz / 1024)); split; [reflexivity|];
       assert (Hy : 1 <= sz / 1024) by (apply Qle_shift_div_l; lra);
       pose proof (Qfloor_resp_le 1 (sz / 1024) Hy) as Hone;
       split; [exact Hone|];
       rewrite inject_Z_plus in Hfu; change (inject_Z 1) with 1 in Hfu;
       set (y := sz / 1024) in *; clearbody y; split; lra
      |right; split; [|reflexivity];
       apply Qnot_le_lt; intros Hc; apply Qle_bool_iff in Hc; congruence]
  end.
Qed.

(** A payload of 2048 bytes is shown as 2 KB. *)
Lemma ladder_size_2048 :
  exists sz,
    number (get_default (JObj (Sample.ladder_fields 2048)) "size" (JNum 0))
      = Ok sz /\
    ((1024 <= sz /\
      exists n, Stress.KB 2 = Stress.KB n /\ (1 <= n)%Z /\
                inject_Z n * 1024 <= sz /\ sz < (inject_Z n + 1) * 1024) \/
     (sz < 1024 /\
      Stress.KB 2 =
        Stress.B (get_default (JObj (Sample.ladder_fields 2048)) "size"
                              (JNum 0)))).
Proof.
  apply (ladder_size_column (Sample.ladder_fields 2048)
                            (Stress.KB 2) (JNum 3) (JNum 0) 0 0 0).
  vm_compute. left. reflexivity.
Defined.

(** X9. An aggregator without records of its kind prints nothing, not
    even its heading: the burst, ladder and fanout reports of a file are
    empty when the file has no [burst_result], [ladder_result] or
    [fanout_result] record, and start with their heading when it has
    one. *)
Theorem aggregators_without_records_are_silent :
  forall events label,
    (forall results,
        select "event" "burst_result" events = Ok results ->
        (results = [] -> Stress.analyze_burst events label = Run [] (Ok tt)) /\
        (results <> [] ->
         In (Stress.L_heading "BURST" label)
            (printed (Stress.analyze_burst events label)))) /\
    (forall results,
        select "event" "ladder_result" events = Ok results ->
        (results = [] ->
         Stress.analyze_ladder events label = Run [] (Ok tt)) /\
        (results <> [] ->
         In (Stress.L_heading "LADDER" label)
            (printed (Stress.analyze_ladder events label)))) /\
    (forall results,
        select "event" "fanout_result" events = Ok results ->
        (results = [] ->
         Stress.analyze_fanout events label = Run [] (Ok tt)) /\
        (results <> [] ->
         In (Stress.L_heading "FANOUT" label)
            (printed (Stress.analyze_fanout events label)))).
Proof.
  intros events label. split; [|split]; intros results Hs; split.
  - intros ->. unfold Stress.analyze_burst. rewrite Hs. reflexivity.
  - intros Hne. unfold Stress.analyze_burst. rewrite Hs, bind_lift_ok.
    rewrite (is_empty_false Hne).
    do 2 (rewrite bind_print; cbn [printed]). right. left. reflexivity.
  - intros ->. unfold Stress.analyze_ladder. rewrite Hs. reflexivity.
  - intros Hne. unfold Stress.analyze_ladder. rewrite Hs, bind_lift_ok.
    rewrite (is_empty_false Hne).
    do 2 (rewrite bind_print; cbn [printed]). right. left. reflexivity.
  - intros ->. unfold Stress.analyze_fanout. rewrite Hs. reflexivity.
  - intros Hne. unfold Stress.analyze_fanout. rewrite Hs, bind_lift_ok.
    rewrite (is_empty_false Hne).
    do 2 (rewrite bind_print; cbn [printed]). right. left. reflexivity.
Qed.

(** A log of pings has no burst, ladder or fanout section. *)
Lemma pings_only_log :
  Stress.analyze_burst Sample.five_pings "run/ping.jsonl" = Run [] (Ok tt) /\
  Stress.analyze_ladder Sample.five_pings "run/ping.jsonl" = Run [] (Ok tt) /\
  Stress.analyze_fanout Sample.five_pings "run/ping.jsonl" = Run [] (Ok tt).
Proof.
  destruct (aggregators_without_records_are_silent
              Sample.five_pings "run/ping.jsonl") as (Hb & Hl & Hf).
  split; [|split].
  - apply (proj1 (Hb [] eq_refl)). reflexivity.
  - apply (proj1 (Hl [] eq_refl)). reflexivity.
  - apply (proj1 (Hf [] eq_refl)). reflexivity.
Defined.

Lemma flat_map_constant_length (A B : Type) (f : A -> list B) (k : nat)
      (l : list A) :
  (forall a, In a l -> List.length (f a) = k) ->
  List.length (flat_map f l) = (k * List.length l)%nat.
Proof.
  induction l as [|a l IH]; intros H; simpl; [lia|].
  rewrite length_app, IH, (H a (or_introl eq_refl)).
  - lia.
  - intros b Hb. apply H. right. exact Hb.
Qed.

Lemma numeric_field (fields : list (string * json)) (k : string) :
  numeric_or_absent fields k ->
  exists q,
    number (get_default (JObj fields) k (JNum 0)) = Ok q /\
    fmt_float (get_default (JObj fields) k (JNum 0)) = Ok q.
Proof.
  unfold numeric_or_absent, get_default.
  destruct (lookup k fields) as [v|].
  - intros (q & Hq & _). exists q. split; [exact Hq|].
    destruct v; try discriminate; exact Hq.
  - intros _. exists 0. split; reflexivity.
Qed.

Lemma burst_round_numeric (fields : list (string * json)) :
  numeric_or_absent fields "messages_per_sec" ->
  numeric_or_absent fields "bytes_per_sec" ->
  numeric_or_absent fields "elapsed_ms" ->
  numeric_or_absent fields "rtt_min_ms" ->
  numeric_or_absent fields "rtt_avg_ms" ->
  numeric_or_absent fields "rtt_max_ms" ->
  outcome (Stress.burst_round (JObj fields)) = Ok tt /\
  List.length (printed (Stress.burst_round (JObj fields))) = 6%nat.
Proof.
  intros H1 H2 H3 H4 H5 H6.
  destruct (numeric_field fields _ H1) as (q1 & _ & E1).
  destruct (numeric_field fields _ H2) as (q2 & E2 & _).
  destruct (numeric_field fields _ H3) as (q3 & _ & E3).
  destruct (numeric_field fields _ H4) as (q4 & _ & E4).
  destruct (numeric_field fields _ H5) as (q5 & _ & E5).
  destruct (numeric_field fields _ H6) as (q6 & _ & E6).
  unfold Stress.burst_round. rewrite E1, E2, E3, E4, E5, E6.
  split; reflexivity.
Qed.

(** X10. The burst report treats every round on its own: when the fields
    it formats as numbers are numbers within the range of binary64 (or
    absent) in every [burst_result] record, it ends without exception and prints its three heading lines
    followed by the six lines of each round, in the order of the records;
    nothing is added across rounds. *)
Theorem burst_rounds_are_independent :
  forall events label results,
    select "event" "burst_result" events = Ok results ->
    results <> [] ->
    (forall r, In r results -> burst_fields_numeric r) ->
    outcome (Stress.analyze_burst events label) = Ok tt /\
    printed (Stress.analyze_burst events label) =
      [Stress.L_section_rule; Stress.L_heading "BURST" label; Stress.L_rule]
      ++ flat_map (fun r => printed (Stress.burst_round r)) results /\
    List.length (printed (Stress.analyze_burst events label)) =
      (3 + 6 * List.length results)%nat.
Proof.
  intros events label results Hs Hne Hall.
  assert (Hround : forall r, In r results ->
                     outcome (Stress.burst_round r) = Ok tt /\
                     List.length (printed (Stress.burst_round r)) = 6%nat).
  { intros r Hr. specialize (Hall r Hr). destruct r; try contradiction.
    destruct Hall as (H1 & H2 & H3 & H4 & H5 & H6).
    apply burst_round_numeric; assumption. }
  destruct (@for_each_ok _ _ Stress.burst_round results
                         (fun r Hr => proj1 (Hround r Hr))) as [Ho Hp].
  assert (E : Stress.analyze_burst events label =
              Run ([Stress.L_section_rule; Stress.L_heading "BURST" label;
                    Stress.L_rule]
                   ++ flat_map (fun r => printed (Stress.burst_round r))
                               results) (Ok tt)).
  { unfold Stress.analyze_burst. rewrite Hs, bind_lift_ok.
    rewrite (is_empty_false Hne).
    do 3 (rewrite bind_print; cbn [printed outcome]).
    rewrite Ho, Hp. reflexivity. }
  rewrite E. cbn [printed outcome].
  split; [reflexivity|]. split; [reflexivity|].
  rewrite length_app.
  rewrite (flat_map_constant_length _ _ _ 6%nat results
             (fun r Hr => proj2 (Hround r Hr))).
  simpl List.length. lia.
Qed.

(** Two rounds with different throughput: each has its own throughput
    line. *)
Lemma two_burst_rounds :
  In (Stress.L_throughput 250 (2048 / 1024))
     (printed (Stress.analyze_burst Sample.two_rounds "run/burst.jsonl")) /\
  In (Stress.L_throughput 400 (2048 / 1024))
     (printed (Stress.analyze_burst Sample.two_rounds "run/burst.jsonl")) /\
  List.length
    (printed (Stress.analyze_burst Sample.two_rounds "run/burst.jsonl"))
  = 15%nat.
Proof.
  destruct (burst_rounds_are_independent
              Sample.two_rounds "run/burst.jsonl" Sample.two_rounds
              eq_refl ltac:(discriminate)) as (_ & Hp & Hl).
  - intros r [<-|[<-|[]]]; simpl; unfold numeric_or_absent; simpl;
      repeat split; eexists; (split; [reflexivity|]);
      vm_compute; discriminate.
  - split; [|split; [|exact Hl]]; rewrite Hp; vm_compute; intuition.
Defined.
End OtherAggregators.

(** ** Session diagnostics of analyze-results.py *)

Section SessionDiagnostics.
Import Py.

(** The block under [if reconnects] *)
Lemma recon_stats_inv (recs : list json) (x : option Q * option Q) :
  (if Results.is_empty recs then Ok (None, None)
   else
     res_bind (map_res (fun r => subscript r "reconnect_time_ms") recs)
       (fun recon_times =>
     res_bind (numbers recon_times) (fun nums =>
     res_bind (mean nums) (fun m =>
     res_bind (py_max nums) (fun hi => Ok (Some m, Some hi))))))
  = Ok x ->
  exists ts,
    res_bind (map_res (fun r => subscript r "reconnect_time_ms") recs) numbers
      = Ok ts /\
    List.length ts = List.length recs /\
    (ts = [] -> x = (None, None)) /\
    (ts <> [] ->
     exists hi, py_max ts = Ok hi /\
                x = (Some (sum ts / len ts), Some hi)).
Proof.
  destruct recs as [|r recs]; cbn [Results.is_empty].
  - intros [= <-]. exists []. repeat split; auto. congruence.
  - intros H. inv_res. injection H as <-.
    match goal with
    | Hm : map_res _ (r :: recs) = Ok ?js, Hn : numbers ?js = Ok ?ts,
      Hmean : mean ?ts = Ok _, Hmax : py_max ?ts = Ok ?hi |- _ =>
        exists ts; rewrite Hm; cbn [res_bind];
        pose proof (map_res_length _ _ Hm) as L1;
        pose proof (map_res_length _ _ Hn) as L2;
        assert (Hne : ts <> []) by (destruct ts; [discriminate|congruence]);
        rewrite (mean_nonempty Hne) in Hmean; injection Hmean as <-;
        split; [exact Hn|]; split; [congruence|];
        split; [intros; contradiction|]; intros _; exists hi; auto
    end.
Qed.

(** What [analyze_file] stores about the session of a file. *)
Lemma analyze_events_session (name : string) (events : list json)
      (r : Results.result) :
  Results.analyze_events name events = Ok r ->
  exists pcs hps dis recs sums ts,
    select "event" "path_change" events = Ok pcs /\
    select "event" "hole_punch" events = Ok hps /\
    select "event" "disconnected" events = Ok dis /\
    select "event" "reconnected" events = Ok recs /\
    select "event" "summary" events = Ok sums /\
    reconnect_times events = Ok ts /\
    List.length ts = List.length recs /\
    Results.path_changes r = List.length pcs /\
    Results.hole_punches r = List.length hps /\
    Results.disconnections r = List.length dis /\
    Results.reconnections r = List.length recs /\
    Results.hole_punch_time_s r =
      match hps with
      | [] => None
      | h :: _ => Some (get_default h "time_to_direct_s" (JNum 0))
      end /\
    Results.total_disconnected_s r =
      match sums with
      | [] => None
      | s0 :: rest =>
          Some (get_default (last rest s0) "total_disconnected_s" (JNum 0))
      end /\
    (ts = [] -> Results.reconnect_mean_ms r = None /\
                Results.reconnect_max_ms r = None) /\
    (ts <> [] ->
     exists hi, py_max ts = Ok hi /\
                Results.reconnect_mean_ms r = Some (sum ts / len ts) /\
                Results.reconnect_max_ms r = Some hi).
Proof.
  unfold Results.analyze_events. intros H. inv_res.
  match goal with
  | H1 : select "event" "path_change" events = Ok ?pcs,
    H2 : select "event" "hole_punch" events = Ok ?hps,
    H3 : select "event" "disconnected" events = Ok ?dis,
    H4 : select "event" "reconnected" events = Ok ?recs,
    H5 : select "event" "summary" events = Ok ?sums,
    Hrec : (if Results.is_empty ?recs then _ else _) = Ok ?rs,
    st : (option Q * option Q * option Q * option Q * option Q)%type |- _ =>
      apply recon_stats_inv in Hrec;
      destruct Hrec as (ts & Hts & Hlen & Hnil & Hsome);
      destruct st as [[[[m md] p] lo] hi];
      injection H as <-;
      exists pcs, hps, dis, recs, sums, ts;
      cbn [Results.path_changes Results.hole_punches Results.disconnections
           Results.reconnections Results.hole_punch_time_s
           Results.total_disconnected_s Results.reconnect_mean_ms
           Results.reconnect_max_ms];
      repeat (split; [first [assumption | reflexivity
                            | unfold reconnect_times; rewrite H4; exact Hts]
                     |]);
      split;
      [intros E; rewrite (Hnil E); split; reflexivity
      |intros E; destruct (Hsome E) as (hi' & Hhi & ->);
       exists hi'; repeat split; assumption]
  end.
Qed.
End SessionDiagnostics.

Section SessionProperties.
Import Py.

Lemma select_snoc (k s : string) (events l : list json) (extra : json) :
  select k s events = Ok l ->
  field_is k s extra = Ok true ->
  select k s (events ++ [extra]) = Ok (l ++ [extra]).
Proof.
  intros Hl He. rewrite select_app, Hl. simpl. rewrite He. reflexivity.
Qed.

Lemma last_snoc (A : Type) (l : list A) (a x : A) (rest : list A) :
  l ++ [a] = x :: rest -> last rest x = a.
Proof.
  intros E. rewrite <- (last_cons x x rest), <- E. apply last_last.
Qed.

(** X11. Which record speaks for a session. The time to the first direct
    path is that of the first [hole_punch] record: a further one is counted
    and changes nothing else. The total downtime is that of the last
    [summary] record and the duration that of the last ping: a further
    record replaces the value. *)
Theorem first_punch_and_last_summary :
  forall name events extra r r',
    Results.analyze_events name events = Ok r ->
    Results.analyze_events name (events ++ [extra]) = Ok r' ->
    (field_is "event" "hole_punch" extra = Ok true ->
     Results.hole_punches r' = S (Results.hole_punches r) /\
     Results.hole_punch_time_s r' =
       match Results.hole_punch_time_s r with
       | Some t => Some t
       | None => Some (get_default extra "time_to_direct_s" (JNum 0))
       end) /\
    (field_is "event" "summary" extra = Ok true ->
     Results.total_disconnected_s r' =
       Some (get_default extra "total_disconnected_s" (JNum 0))) /\
    (field_is "event" "ping" extra = Ok true ->
     Results.duration_s r' = Some (get_default extra "elapsed_s" (JNum 0))).
Proof.
  intros name events extra r r' Ha Ha'.
  destruct (analyze_events_session name events r Ha)
    as (pcs & hps & dis & recs & sums & ts & _ & Hh & _ & _ & Hs & _ & _ &
        _ & Hnh & _ & _ & Hht & _).
  destruct (analyze_events_session name _ r' Ha')
    as (pcs' & hps' & dis' & recs' & sums' & ts' & _ & Hh' & _ & _ & Hs' &
        _ & _ & _ & Hnh' & _ & _ & Hht' & Hdown' & _).
  destruct (@analyze_events_inv name events r Ha)
    as (pings & directs & relays & rtts & drtts & Hp & _).
  destruct (@analyze_events_inv name _ r' Ha')
    as (pings' & directs' & relays' & rtts' & drtts' & Hp' & _ & _ & _ & _ &
        _ & _ & _ & _ & _ & _ & Hdur' & _).
  split; [|split]; intros He.
  - rewrite (select_snoc _ _ _ _ _ Hh He) in Hh'. injection Hh' as <-.
    rewrite Hnh', Hnh, Hht', Hht, length_app. simpl.
    split; [lia|]. destruct hps; reflexivity.
  - rewrite (select_snoc _ _ _ _ _ Hs He) in Hs'. injection Hs' as <-.
    rewrite Hdown'.
    destruct (sums ++ [extra]) as [|s0 rest] eqn:E.
    + destruct sums; discriminate.
    + rewrite (last_snoc _ _ _ _ _ E). reflexivity.
  - rewrite (select_snoc _ _ _ _ _ Hp He) in Hp'. injection Hp' as <-.
    rewrite Hdur'.
    destruct (pings ++ [extra]) as [|p0 rest] eqn:E.
    + destruct pings; discriminate.
    + rewrite (last_snoc _ _ _ _ _ E). reflexivity.
Qed.

(** A second hole punch after nine seconds: the time stays at a second and
    a half. *)
Lemma second_hole_punch_is_ignored :
  exists r r',
    Results.analyze_events "nat.jsonl" Sample.session_log = Ok r /\
    Results.analyze_events "nat.jsonl"
                           (Sample.session_log ++ [Sample.hole_punch 9])
      = Ok r' /\
    Results.hole_punches r = 1%nat /\
    Results.hole_punches r' = 2%nat /\
    Results.hole_punch_time_s r' = Some (JNum (3 # 2)).
Proof.
  eexists. eexists.
  match goal with
  | |- ?a = Ok ?r /\ ?a' = Ok ?r' /\ _ =>
      assert (Hr : a = Ok r) by (vm_compute; reflexivity);
      assert (Hr' : a' = Ok r') by (vm_compute; reflexivity);
      destruct (first_punch_and_last_summary
                  "nat.jsonl" Sample.session_log (Sample.hole_punch 9) r r'
                  Hr Hr') as (H & _)
  end.
  destruct (H eq_refl) as [Hn Ht].
  split; [exact Hr|]. split; [exact Hr'|]. split; [reflexivity|].
  split; [exact Hn | exact Ht].
Defined.

(** X12. The reconnect statistics of a file cover all its [reconnected]
    records: their number is the reconnection count; without such a record
    no reconnect time is stored; otherwise a mean is stored with the
    maximum of the times, a time of the file that no time exceeds; and
    when the times are at most 2^53 in magnitude the mean is not above the
    maximum and not below every time. *)
Theorem reconnect_statistics :
  forall name events r,
    Results.analyze_events name events = Ok r ->
    exists ts,
      reconnect_times events = Ok ts /\
      Results.reconnections r = List.length ts /\
      (ts = [] -> Results.reconnect_mean_ms r = None /\
                  Results.reconnect_max_ms r = None) /\
      (ts <> [] ->
       exists m hi,
         Results.reconnect_mean_ms r = Some m /\
         Results.reconnect_max_ms r = Some hi /\
         In hi ts /\ Forall (fun t => t <= hi) ts /\
         (Forall double_exact ts ->
          m <= hi /\ exists t, In t ts /\ t <= m)).
Proof.
  intros name events r Ha.
  destruct (analyze_events_session name events r Ha)
    as (pcs & hps & dis & recs & sums & ts & _ & _ & _ & _ & _ & Ht & Hlen &
        _ & _ & _ & Hn & _ & _ & Hnil & Hsome).
  exists ts. split; [exact Ht|]. split; [congruence|].
  split; [exact Hnil|].
  intros Hne. destruct (Hsome Hne) as (hi & Hhi & Hm & Hx).
  exists (sum ts / len ts), hi. destruct (py_max_spec _ Hhi) as [Hin Hup].
  repeat (split; [assumption|]).
  intros _.
  destruct (py_min_nonempty Hne) as [lo Hlo].
  destruct (py_min_spec _ Hlo) as [Hlin Hlow].
  destruct (mean_between lo hi ts Hne Hlow Hup) as [H1 H2].
  split; [exact H2|]. exists lo. split; assumption.
Qed.

(** Two reconnections, after 200 and 800 ms: the maximum is 800 and the
    mean is not above it. *)
Lemma two_reconnections :
  exists r,
    Results.analyze_events "nat.jsonl" Sample.session_log = Ok r /\
    Results.reconnections r = 2%nat /\
    Results.reconnect_max_ms r = Some 800 /\
    exists m, Results.reconnect_mean_ms r = Some m /\ m <= 800.
Proof.
  eexists. split; [vm_compute; reflexivity|].
  match goal with
  | |- Results.reconnections ?r = _ /\ _ =>
      destruct (reconnect_statistics "nat.jsonl" Sample.session_log r
                                     eq_refl) as (ts & Ht & Hn & _ & Hs)
  end.
  vm_compute in Ht. injection Ht as <-.
  destruct (Hs ltac:(discriminate)) as (m & hi & Hm & Hx & Hin & _ & Hb).
  destruct (Hb ltac:(repeat constructor; vm_compute; discriminate))
    as [Hle _].
  assert (Ehi : hi = 800).
  { destruct Hin as [<-|[<-|[]]]; [|reflexivity].
    vm_compute in Hx. discriminate. }
  subst hi.
  split; [exact Hn|]. split; [exact Hx|].
  exists m. split; [exact Hm | exact Hle].
Defined.
End SessionProperties.

(** ** When a file can be analysed *)

Section Analysable.
Import Py.

Lemma map_res_compose_ok (A B C : Type) (g : A -> res B) (h : B -> res C)
      (l : list A) (cs : list C) :
  map_res (fun a => res_bind (g a) h) l = Ok cs <->
  exists bs, map_res g l = Ok bs /\ map_res h bs = Ok cs.
Proof.
  revert cs. induction l as [|a l IH]; intros cs; simpl.
  - split.
    + intros [= <-]. exists []. auto.
    + intros (bs & [= <-] & H). exact H.
  - split.
    + intros H. apply res_bind_ok in H as (c & Hc & H).
      apply res_bind_ok in H as (cs' & Hcs & [= <-]).
      apply res_bind_ok in Hc as (b & Hb & Hc).
      apply IH in Hcs as (bs & Hbs & Hh).
      exists (b :: bs). rewrite Hb, Hbs. simpl. rewrite Hc, Hh. auto.
    + intros (bs & Hg & Hh).
      apply res_bind_ok in Hg as (b & Hb & Hg).
      apply res_bind_ok in Hg as (bs' & Hbs & [= <-]).
      simpl in Hh. apply res_bind_ok in Hh as (c & Hc & Hh).
      apply res_bind_ok in Hh as (cs' & Hcs & [= <-]).
      rewrite Hb. simpl. rewrite Hc. simpl.
      rewrite (proj2 (IH cs') (ex_intro _ bs' (conj Hbs Hcs))). reflexivity.
Qed.

(** The numbers of a key can be read from every part of a selection that
    they can be read from. *)
Lemma numbers_of_selection (k s key : string) (l sub : list json)
      (qs : list Q) :
  select k s l = Ok sub ->
  res_bind (map_res (fun p => subscript p key) l) numbers = Ok qs ->
  exists js qs',
    map_res (fun p => subscript p key) sub = Ok js /\
    numbers js = Ok qs'.
Proof.
  intros Hs H. apply res_bind_ok in H as (js & Hjs & Hn).
  assert (Hall : map_res (fun p => res_bind (subscript p key) number) l
                 = Ok qs)
    by (apply map_res_compose_ok; eauto).
  assert (Hsub : exists qs', map_res (fun p => res_bind (subscript p key)
                                                        number) sub = Ok qs').
  { apply map_res_ok_iff. intros p Hp.
    destruct (@select_in k s l sub p Hs Hp) as [Hin _].
    apply (proj1 (map_res_ok_iff _ _ _ l) (ex_intro _ qs Hall) p Hin). }
  destruct Hsub as [qs' Hqs'].
  apply map_res_compose_ok in Hqs' as (js' & H1 & H2). eauto.
Qed.

Lemma selection_of_records (k s : string) (l sub : list json) :
  select k s l = Ok sub -> forallb is_record sub = true.
Proof.
  intros H. apply forallb_forall. intros e He.
  destruct (@select_in k s l sub e H He) as [_ Hf].
  exact (field_is_ok _ _ _ Hf).
Qed.

(** The blocks of [analyze_file] on lists of numbers *)
Lemma all_stats_ok (js : list json) (nums : list Q) :
  numbers js = Ok nums ->
  exists st,
    (if Results.is_empty js then Ok (None, None, None, None, None)
     else
       res_bind (numbers js) (fun nums =>
       res_bind (mean nums) (fun m =>
       res_bind (median nums) (fun md =>
       res_bind (p95 nums) (fun p =>
       res_bind (py_min nums) (fun lo =>
       res_bind (py_max nums) (fun hi =>
       Ok (Some m, Some md, Some p, Some lo, Some hi)))))))) = Ok st.
Proof.
  intros Hn. destruct js as [|j js]; cbn [Results.is_empty]; [eauto|].
  assert (Hne : nums <> []) by (eapply numbers_cons; exact Hn).
  rewrite Hn. cbn [res_bind].
  rewrite (mean_nonempty Hne), (p95_nonempty Hne).
  destruct (median_nonempty Hne) as [md ->].
  destruct (py_min_nonempty Hne) as [lo ->].
  destruct (py_max_nonempty Hne) as [hi ->].
  cbn [res_bind]. eauto.
Qed.

Lemma direct_stats_ok (js : list json) (nums : list Q) :
  numbers js = Ok nums ->
  exists st,
    (if Results.is_empty js then Ok (None, None)
     else
       res_bind (numbers js) (fun nums =>
       res_bind (mean nums) (fun m =>
       res_bind (p95 nums) (fun p => Ok (Some m, Some p))))) = Ok st.
Proof.
  intros Hn. destruct js as [|j js]; cbn [Results.is_empty]; [eauto|].
  assert (Hne : nums <> []) by (eapply numbers_cons; exact Hn).
  rewrite Hn. cbn [res_bind].
  rewrite (mean_nonempty Hne), (p95_nonempty Hne). cbn [res_bind]. eauto.
Qed.

Lemma relay_stats_ok (js : list json) (nums : list Q) :
  numbers js = Ok nums ->
  exists st,
    (if Results.is_empty js then Ok None
     else
       res_bind (numbers js) (fun nums =>
       res_bind (mean nums) (fun m => Ok (Some m)))) = Ok st.
Proof.
  intros Hn. destruct js as [|j js]; cbn [Results.is_empty]; [eauto|].
  assert (Hne : nums <> []) by (eapply numbers_cons; exact Hn).
  rewrite Hn. cbn [res_bind].
  rewrite (mean_nonempty Hne). cbn [res_bind]. eauto.
Qed.

Lemma recon_stats_ok (recs : list json) (ts : list Q) :
  res_bind (map_res (fun r => subscript r "reconnect_time_ms") recs) numbers
    = Ok ts ->
  exists st,
    (if Results.is_empty recs then Ok (None, None)
     else
       res_bind (map_res (fun r => subscript r "reconnect_time_ms") recs)
         (fun recon_times =>
       res_bind (numbers recon_times) (fun nums =>
       res_bind (mean nums) (fun m =>
       res_bind (py_max nums) (fun hi => Ok (Some m, Some hi))))))
    = Ok st.
Proof.
  intros H. apply res_bind_ok in H as (js & Hjs & Hn).
  destruct recs as [|r recs]; cbn [Results.is_empty]; [eauto|].
  rewrite Hjs. cbn [res_bind].
  assert (Hne : ts <> []).
  { apply map_res_length in Hjs. apply map_res_length in Hn.
    destruct ts; [simpl in *; congruence | discriminate]. }
  rewrite Hn. cbn [res_bind]. rewrite (mean_nonempty Hne).
  destruct (py_max_nonempty Hne) as [hi ->]. cbn [res_bind]. eauto.
Qed.

(** X13. When analyze_file gives a result, every ping record has a
    numeric [rtt_ms] and every [reconnected] record a numeric
    [reconnect_time_ms]; and it does give a result when these are numbers
    within the range of binary64 (every decoded line being a record):
    nothing else in a log can make it raise. *)
Theorem analysable_files :
  forall name events,
    ((exists r, Results.analyze_events name events = Ok r) ->
     (exists rtts, ping_rtts events = Ok rtts) /\
     (exists ts, reconnect_times events = Ok ts)) /\
    (forall rtts ts,
        ping_rtts events = Ok rtts -> reconnect_times events = Ok ts ->
        Forall double_range rtts -> Forall double_range ts ->
        exists r, Results.analyze_events name events = Ok r).
Proof.
  intros name events. split.
  - intros [r Ha]. split.
    + destruct (@analyze_events_inv name events r Ha)
        as (pings & directs & relays & rtts & drtts & _ & _ & _ & Hr & _).
      eauto.
    + destruct (analyze_events_session name events r Ha)
        as (pcs & hps & dis & recs & sums & ts & _ & _ & _ & _ & _ & Ht & _).
      eauto.
  - intros rtts ts Hr Ht _ _.
    pose proof Hr as Hr0. unfold ping_rtts in Hr0.
    apply res_bind_ok in Hr0 as (pings & Hp & Hrt).
    pose proof Ht as Ht0. unfold reconnect_times in Ht0.
    apply res_bind_ok in Ht0 as (recs & Hrecs & Hts).
    destruct (@select_other "event" "ping" "event" "path_change" events
                            pings Hp) as [pcs Hpcs].
    destruct (@select_other "event" "ping" "event" "hole_punch" events
                            pings Hp) as [hps Hhps].
    destruct (@select_other "event" "ping" "event" "disconnected" events
                            pings Hp) as [dis Hdis].
    destruct (@select_other "event" "ping" "event" "summary" events
                            pings Hp) as [sums Hsums].
    pose proof (selection_of_records _ _ _ _ Hp) as Hrecp.
    destruct (@select_records "via" "DIRECT" pings Hrecp) as [directs Hd].
    destruct (@select_records "via" "RELAY" pings Hrecp) as [relays Hrl].
    destruct (numbers_of_selection _ _ "rtt_ms" _ _ _ Hd Hrt)
      as (djs & dnums & Hdjs & Hdn).
    destruct (numbers_of_selection _ _ "rtt_ms" _ _ _ Hrl Hrt)
      as (rjs & rnums & Hrjs & Hrn).
    apply res_bind_ok in Hrt as (js & Hjs & Hn).
    destruct (all_stats_ok js rtts Hn) as [st Hst].
    destruct (direct_stats_ok djs dnums Hdn) as [dst Hdst].
    destruct (relay_stats_ok rjs rnums Hrn) as [rst Hrst].
    destruct (recon_stats_ok recs ts Hts) as [cst Hcst].
    unfold Results.analyze_events.
    rewrite Hp, Hpcs, Hhps, Hdis, Hrecs, Hsums. cbn [res_bind].
    rewrite Hd, Hrl. cbn [res_bind].
    rewrite Hdjs, Hrjs, Hjs. cbn [res_bind].
    rewrite Hst, Hdst, Hrst, Hcst. cbn [res_bind].
    destruct st as [[[[m md] p] lo] hi]. eauto.
Qed.

(** The session log can be analysed: its ping has an RTT and its
    reconnections have their times, all of them small numbers. *)
Lemma session_log_is_analysable :
  exists r, Results.analyze_events "nat.jsonl" Sample.session_log = Ok r.
Proof.
  assert (Hr : exists rtts,
             ping_rtts Sample.session_log = Ok rtts /\
             Forall double_range rtts).
  { eexists. split; [vm_compute; reflexivity|].
    repeat constructor; vm_compute; discriminate. }
  assert (Ht : exists ts,
             reconnect_times Sample.session_log = Ok ts /\
             Forall double_range ts).
  { eexists. split; [vm_compute; reflexivity|].
    repeat constructor; vm_compute; discriminate. }
  destruct Hr as (rtts & Hr & Hrr). destruct Ht as (ts & Ht & Htr).
  exact (proj2 (analysable_files "nat.jsonl" Sample.session_log)
               rtts ts Hr Ht Hrr Htr).
Defined.
End Analysable.

(** ** The batch of analyze-results.py *)

Section ResultsBatch.
Import Py.

Lemma analyze_all_printed (fs : files) (files : list string)
      (acc : list Results.result) :
  printed (Results.analyze_all fs files acc) = flat_map (diagnostic fs) files.
Proof.
  revert acc. induction files as [|f files IH]; intros acc; simpl;
    [reflexivity|].
  unfold diagnostic at 1.
  destruct (Results.analyze_file fs f) as [r|e]; [apply IH|].
  destruct e; rewrite bind_print; cbn [printed]; rewrite IH; reflexivity.
Qed.

Lemma attempt_or_diagnostic (fs : files) (f : string) :
  (List.length (Results.attempt fs f) + List.length (diagnostic fs f) = 1)%nat.
Proof.
  unfold Results.attempt, diagnostic.
  destruct (Results.analyze_file fs f) as [r|e]; [reflexivity|].
  destruct e; reflexivity.
Qed.

(** X14. The loop of analyze-results.py accounts for every path once: a
    path gives either a result or one line, [SKIP] for a missing file and
    [ERROR] with the exception for any other failure, so the results and
    the lines together are as many as the paths, and each line names a
    path whose analysis raised. *)
Theorem every_file_is_accounted_for :
  forall (fs : files) files,
    (List.length (flat_map (Results.attempt fs) files)
     + List.length (printed (Results.analyze_all fs files []))
     = List.length files)%nat /\
    (forall l,
        In l (printed (Results.analyze_all fs files [])) ->
        exists f,
          In f files /\
          ((l = Results.L_skip f /\
            Results.analyze_file fs f = Raise FileNotFoundError) \/
           (exists e, l = Results.L_error f e /\
                      Results.analyze_file fs f = Raise e /\
                      e <> FileNotFoundError))) /\
    (forall f,
        In f files -> fs f = None ->
        In (Results.L_skip f) (printed (Results.analyze_all fs files []))).
Proof.
  intros fs files. rewrite analyze_all_printed. split; [|split].
  - induction files as [|f files IH]; [reflexivity|].
    simpl. rewrite !length_app.
    pose proof (attempt_or_diagnostic fs f). lia.
  - intros l Hl. apply in_flat_map in Hl as (f & Hf & Hl).
    exists f. split; [exact Hf|].
    unfold diagnostic in Hl.
    destruct (Results.analyze_file fs f) as [r|e]; [destruct Hl|].
    destruct e; destruct Hl as [<-|[]];
      first [left; split; reflexivity
            | right; eexists; split; [reflexivity|];
              split; [reflexivity | intros E; discriminate E]].
  - intros f Hf Hnone. apply in_flat_map. exists f. split; [exact Hf|].
    unfold diagnostic, Results.analyze_file. rewrite Hnone. left. reflexivity.
Qed.

(** A missing file and a present one: one line, one result. *)
Lemma one_skipped_one_analysed :
  In (Results.L_skip "a.jsonl")
     (printed (Results.analyze_all Sample.only_b ["a.jsonl"; "b.jsonl"] [])) /\
  (List.length (flat_map (Results.attempt Sample.only_b)
                         ["a.jsonl"; "b.jsonl"])
   + List.length
       (printed (Results.analyze_all Sample.only_b ["a.jsonl"; "b.jsonl"] []))
   = 2)%nat.
Proof.
  destruct (every_file_is_accounted_for Sample.only_b ["a.jsonl"; "b.jsonl"])
    as (Hn & _ & Hs).
  split; [|exact Hn].
  apply Hs; [left; reflexivity | reflexivity].
Defined.

Lemma print_single_no_table (r : Results.result) (l : Results.line) :
  In l (printed (Results.print_single r)) -> is_table_line l = false.
Proof.
  unfold Results.print_single, Results.when_set. intros H.
  in_printed H; subst; reflexivity.
Qed.

(** X15. The comparison table is for several results: a line of the table
    appears in the output of analyze-results.py only when at least two
    files gave a result. *)
Theorem comparison_needs_two_results :
  forall (fs : files) files l,
    In l (printed (Results.main fs files)) ->
    is_table_line l = true ->
    (2 <= List.length (flat_map (Results.attempt fs) files))%nat.
Proof.
  intros fs files l H Hl. unfold Results.main in H.
  destruct files as [|f files].
  - cbn [Results.is_empty] in H. in_printed H; subst; discriminate.
  - cbn [Results.is_empty] in H.
    apply in_printed_bind_inv in H as [H|(results & Hres & H)].
    + rewrite analyze_all_printed in H.
      apply in_flat_map in H as (g & _ & H). unfold diagnostic in H.
      destruct (Results.analyze_file fs g) as [r|e]; [destruct H|].
      destruct e; destruct H as [<-|[]]; discriminate.
    + rewrite analyze_all_outcome in Hres. injection Hres as <-.
      cbn [app] in H.
      in_printed H; try (subst l; discriminate Hl).
      * apply in_printed_for_each in H as (r & _ & H).
        apply print_single_no_table in H. congruence.
      * match goal with
        | Eb : (1 <? _)%nat = true |- _ => apply Nat.ltb_lt in Eb; exact Eb
        end.
Qed.

(** Two files give the table. *)
Lemma table_for_two_files :
  (2 <= List.length (flat_map (Results.attempt Sample.a_and_b)
                              ["a.jsonl"; "b.jsonl"]))%nat.
Proof.
  apply (comparison_needs_two_results Sample.a_and_b ["a.jsonl"; "b.jsonl"]
                                      Results.L_comparison_title).
  - vm_compute. intuition.
  - reflexivity.
Defined.
End ResultsBatch.

(** ** The comparison table *)

Section ComparisonTable.
Import Py.

Lemma comparison_row_ok (r : Results.result) :
  columns_ok r ->
  Results.comparison_row r = Run [Results.L_row (row_of r)] (Ok tt).
Proof.
  intros [[p Hp] [d Hd]]. unfold Results.comparison_row, row_of.
  rewrite Hp, Hd. reflexivity.
Qed.

Lemma total_is_sum (l : list nat) : Results.total l = list_sum l.
Proof.
  unfold Results.total.
  assert (H : forall a, fold_left Nat.add l a = (a + list_sum l)%nat).
  { induction l as [|x l IH]; intros a; simpl; [lia|]. rewrite IH. lia. }
  apply H.
Qed.

Lemma substring_length (n : nat) (s : string) :
  (String.length (String.substring 0 n s) <= n)%nat.
Proof.
  revert s. induction n as [|n IH]; intros s.
  - destruct s; simpl; lia.
  - destruct s as [|c s]; simpl; [lia|]. specialize (IH s). lia.
Qed.

(** The table of results whose optional columns can be formatted. *)
Lemma print_comparison_run (results : list Results.result) (lo hi : Q) :
  results <> [] ->
  (forall r, In r results -> columns_ok r) ->
  py_min (map Results.direct_pct results) = Ok lo ->
  py_max (map Results.direct_pct results) = Ok hi ->
  Results.print_comparison results =
    Run ([Results.L_sep100_nl; Results.L_comparison_title;
          Results.L_sep100; Results.L_blank; Results.L_table_header;
          Results.L_dashes]
         ++ map (fun r => Results.L_row (row_of r)) results
         ++ [Results.L_blank;
             Results.L_average_direct
               (sum (map Results.direct_pct results)
                / len (map Results.direct_pct results)) lo hi;
             Results.L_totals
               (list_sum (map Results.disconnections results))
               (list_sum (map Results.reconnections results));
             Results.L_blank]) (Ok tt).
Proof.
  intros Hne Hcols Hlo Hhi.
  set (pcts := map Results.direct_pct results) in *.
  assert (Hpne : pcts <> [])
    by (unfold pcts; destruct results; [congruence | discriminate]).
  assert (Hbody : forall r, In r results ->
                    outcome (Results.comparison_row r) = Ok tt).
  { intros r Hr. rewrite (comparison_row_ok r (Hcols r Hr)). reflexivity. }
  destruct (@for_each_ok _ _ Results.comparison_row results Hbody)
    as [Ho Hp].
  assert (Hrows : flat_map (fun r => printed (Results.comparison_row r))
                           results
                  = map (fun r => Results.L_row (row_of r)) results).
  { clear - Hcols. induction results as [|r results IH]; [reflexivity|].
    simpl. rewrite (comparison_row_ok r (Hcols r (or_introl eq_refl))).
    simpl. f_equal. apply IH. intros r' Hr'. apply Hcols. right. exact Hr'. }
  unfold Results.print_comparison. fold pcts.
  do 6 (rewrite bind_print; cbn [printed outcome]).
  rewrite (printed_bind_ok _ _ Ho), (outcome_bind_ok _ _ Ho), Hp, Hrows.
  rewrite bind_print. cbn [printed outcome].
  rewrite (mean_nonempty Hpne), bind_lift_ok, Hlo, bind_lift_ok, Hhi,
    bind_lift_ok.
  rewrite !total_is_sum. reflexivity.
Qed.

(** X16. The comparison table of results whose optional columns can be
    formatted: after its six heading lines it has one row per result, in
    the order of the results, with the scenario name cut to 29 characters;
    then the mean of the direct percentages with their minimum and
    maximum, which bound every row and the mean, and the totals of the
    disconnections and reconnections of all rows. *)
Theorem comparison_table :
  forall results,
    results <> [] ->
    (forall r, In r results -> columns_ok r) ->
    exists lo hi,
      py_min (map Results.direct_pct results) = Ok lo /\
      py_max (map Results.direct_pct results) = Ok hi /\
      Results.print_comparison results =
        Run ([Results.L_sep100_nl; Results.L_comparison_title;
              Results.L_sep100; Results.L_blank; Results.L_table_header;
              Results.L_dashes]
             ++ map (fun r => Results.L_row (row_of r)) results
             ++ [Results.L_blank;
                 Results.L_average_direct
                   (sum (map Results.direct_pct results)
                    / len (map Results.direct_pct results)) lo hi;
                 Results.L_totals
                   (list_sum (map Results.disconnections results))
                   (list_sum (map Results.reconnections results));
                 Results.L_blank]) (Ok tt) /\
      lo <= sum (map Results.direct_pct results)
            / len (map Results.direct_pct results) /\
      sum (map Results.direct_pct results)
      / len (map Results.direct_pct results) <= hi /\
      (forall r, In r results ->
                 lo <= Results.direct_pct r /\ Results.direct_pct r <= hi /\
                 (String.length (Results.row_name (row_of r)) <= 29)%nat).
Proof.
  intros results Hne Hcols.
  set (pcts := map Results.direct_pct results).
  assert (Hpne : pcts <> [])
    by (unfold pcts; destruct results; [congruence | discriminate]).
  destruct (py_min_nonempty Hpne) as [lo Hlo].
  destruct (py_max_nonempty Hpne) as [hi Hhi].
  destruct (py_min_spec _ Hlo) as [_ Hlow].
  destruct (py_max_spec _ Hhi) as [_ Hup].
  destruct (mean_between lo hi pcts Hpne Hlow Hup) as [H1 H2].
  exists lo, hi. split; [exact Hlo|]. split; [exact Hhi|].
  split; [|split; [exact H1|split; [exact H2|]]].
  - exact (print_comparison_run results lo hi Hne Hcols Hlo Hhi).
  - intros r Hr.
    assert (Hin : In (Results.direct_pct r) pcts)
      by (unfold pcts; apply in_map; exact Hr).
    rewrite Forall_forall in Hlow, Hup.
    split; [apply Hlow; exact Hin|]. split; [apply Hup; exact Hin|].
    apply substring_length.
Qed.

(** A run at 90% direct with two disconnections beside a run at 60% with
    none: mean 75, minimum 60, maximum 90, two disconnections in all. *)
Lemma table_of_two_runs :
  exists ra rb avg lo hi,
    Results.analyze_events "a.jsonl" Sample.run_90 = Ok ra /\
    Results.analyze_events "b.jsonl" Sample.run_60 = Ok rb /\
    In (Results.L_average_direct avg lo hi)
       (printed (Results.print_comparison [ra; rb])) /\
    In (Results.L_totals 2 0)
       (printed (Results.print_comparison [ra; rb])) /\
    avg == 75 /\ lo == 60 /\ hi == 90.
Proof.
  eexists. eexists.
  match goal with
  | |- exists avg lo hi, ?a = Ok ?ra /\ ?b = Ok ?rb /\ _ =>
      assert (Ha : a = Ok ra) by (vm_compute; reflexivity);
      assert (Hb : b = Ok rb) by (vm_compute; reflexivity);
      destruct (comparison_table [ra; rb] ltac:(discriminate))
        as (lo & hi & Hlo & Hhi & E & _)
  end.
  - intros r [<-|[<-|[]]]; split; eexists; reflexivity.
  - vm_compute in Hlo. vm_compute in Hhi.
    injection Hlo as <-. injection Hhi as <-.
    eexists. eexists. eexists.
    split; [exact Ha|]. split; [exact Hb|].
    rewrite E. cbn [printed].
    split; [apply in_or_app; right; apply in_or_app; right;
            right; left; reflexivity|].
    split; [apply in_or_app; right; apply in_or_app; right;
            right; right; left; reflexivity|].
    repeat split; reflexivity.
Defined.
End ComparisonTable.

(** ** Failures while a section is printed *)

Section PrintingFailures.
Import Py.

Lemma outcome_bind (L A B : Type) (m : run L A) (k : A -> run L B) :
  outcome (bind m k) =
    match outcome m with
    | Ok a => outcome (k a)
    | Raise e => Raise e
    end.
Proof. unfold bind. destruct (outcome m); reflexivity. Qed.

Lemma printed_bind_raise (L A B : Type) (m : run L A) (k : A -> run L B)
      (e : exn) :
  outcome m = Raise e -> printed (bind m k) = printed m.
Proof. intros H. rewrite (bind_raise _ _ H). reflexivity. Qed.

Lemma analyze_events_complete (name : string) (events : list json)
      (r : Results.result) :
  Results.analyze_events name events = Ok r -> complete r.
Proof.
  unfold Results.analyze_events. intros H. inv_res.
  repeat match goal with
    | Hs : (if Results.is_empty ?l then _ else _) = Ok _ |- _ =>
        destruct l; cbn [Results.is_empty] in Hs;
        [injection Hs as <- | inv_res; injection Hs as <-]
    end;
    cbn in H; injection H as <-; unfold complete;
    cbn [Results.rtt_mean Results.rtt_median Results.rtt_p95 Results.rtt_min
         Results.rtt_max Results.direct_rtt_mean Results.direct_rtt_p95
         Results.reconnect_mean_ms Results.reconnect_max_ms fst snd];
    repeat split; intros; congruence.
Qed.

Ltac outcome_step :=
  rewrite ?outcome_bind; cbn [outcome print lift ret res_bind].

Ltac optional_number x :=
  let w := fresh "w" in
  destruct x as [w|];
  [outcome_step; destruct (fmt_float w) eqn:?|]; outcome_step.

Lemma fmt_float_raises (v : json) (e : exn) :
  fmt_float v = Raise e -> e = TypeError \/ e = ValueError.
Proof. destruct v; simpl; intros [= <-]; auto. Qed.

Lemma print_single_cases (r : Results.result) :
  complete r ->
  (printable r /\ outcome (Results.print_single r) = Ok tt) \/
  (~ printable r /\
   (outcome (Results.print_single r) = Raise TypeError \/
    outcome (Results.print_single r) = Raise ValueError)).
Proof.
  intros (Hall & Hdir & Hrec).
  unfold printable, columns_ok, Results.column, Results.print_single,
    Results.when_set, Results.item.
  outcome_step.
  destruct (fmt_float (Results.or_default (Results.duration_s r) (JNum 0)))
    as [d|e] eqn:Ed.
  2: { right. split; [intros [[d Hd] _]; discriminate|].
       apply fmt_float_raises in Ed as [->| ->]; auto. }
  clear Ed.
  destruct (Results.rtt_mean r) as [m|].
  1: destruct Hall as (H1 & H2 & H3 & H4); [discriminate|];
     destruct (Results.rtt_median r); [|congruence];
     destruct (Results.rtt_p95 r); [|congruence];
     destruct (Results.rtt_min r); [|congruence];
     destruct (Results.rtt_max r); [|congruence];
     clear H1 H2 H3 H4; outcome_step.
  2: clear Hall.
  all: destruct (Results.direct_rtt_mean r);
    [specialize (Hdir ltac:(discriminate));
     destruct (Results.direct_rtt_p95 r); [|congruence]|];
    clear Hdir; outcome_step.
  all: destruct (Results.relay_rtt_mean r); outcome_step.
  all: optional_number (Results.hole_punch_time_s r).
  all: destruct (Results.reconnect_mean_ms r);
    [specialize (Hrec ltac:(discriminate));
     destruct (Results.reconnect_max_ms r); [|congruence]|];
    clear Hrec; outcome_step.
  all: optional_number (Results.total_disconnected_s r).
  all: first
    [ left; split; [repeat split; eexists; reflexivity | reflexivity]
    | right; split;
      [ intros (_ & [? Hp] & [? Hq]); discriminate
      | repeat match goal with
          | E : fmt_float _ = Raise _ |- _ =>
              apply fmt_float_raises in E as [->| ->]
          end; auto ] ].
Qed.

Lemma print_single_opens_section (r : Results.result) :
  In (Results.L_file (Results.file r)) (printed (Results.print_single r)).
Proof.
  unfold Results.print_single. rewrite !bind_print. cbn [printed].
  right. left. reflexivity.
Qed.

Lemma analyze_file_complete (fs : files) (f : string) (r : Results.result) :
  Results.analyze_file fs f = Ok r -> complete r.
Proof.
  unfold Results.analyze_file. destruct (fs f); [|discriminate].
  apply analyze_events_complete.
Qed.

(** X17. When the numbers it formats are within the range of binary64,
    the section of a file that was analysed is printed to its end exactly
    when the three raw values it formats as numbers (the [elapsed_s] of
    the last ping, the [time_to_direct_s] of the first hole punch and the
    [total_disconnected_s] of the last summary, where present) are
    numbers; otherwise [print_single] raises [TypeError] or [ValueError].
    In both cases the line with the file name has been printed. *)
Theorem section_needs_formattable_values :
  forall fs f r,
    Results.analyze_file fs f = Ok r ->
    Forall double_range (formatted_numbers r) ->
    (outcome (Results.print_single r) = Ok tt <-> printable r) /\
    (outcome (Results.print_single r) = Ok tt \/
     outcome (Results.print_single r) = Raise TypeError \/
     outcome (Results.print_single r) = Raise ValueError) /\
    In (Results.L_file (Results.file r)) (printed (Results.print_single r)).
Proof.
  intros fs f r H _. apply analyze_file_complete in H.
  split; [|split; [|apply print_single_opens_section]].
  - destruct (print_single_cases r H) as [[Hp Ho]|[Hp [Ho|Ho]]];
      (split; [intros Ho'|intros Hp']); auto; try contradiction;
      rewrite Ho in Ho'; discriminate.
  - destruct (print_single_cases r H) as [[_ Ho]|[_ [Ho|Ho]]]; auto.
Qed.

(** A ping whose [elapsed_s] is a string: the analysis gives a result, the
    section stops after its heading with [ValueError]. *)
Lemma ping_without_clock_section :
  exists r,
    Results.analyze_file Sample.clockless_disk "b.jsonl" = Ok r /\
    ~ printable r /\
    outcome (Results.print_single r) = Raise ValueError /\
    In (Results.L_file "b.jsonl") (printed (Results.print_single r)).
Proof.
  eexists.
  match goal with
  | |- ?a = Ok ?r /\ _ =>
      assert (Ha : a = Ok r) by (vm_compute; reflexivity);
      destruct (section_needs_formattable_values
                  _ _ _ Ha
                  ltac:(repeat constructor; vm_compute; discriminate))
        as (Hiff & _ & Hin)
  end.
  split; [exact Ha|].
  assert (Hn : forall P : Prop, (Raise ValueError = Ok tt <-> P) -> ~ P)
    by (intros P [_ HP] p; specialize (HP p); discriminate).
  split; [apply Hn; exact Hiff|].
  split; [reflexivity|exact Hin].
Defined.

Section RaisingLoop.
Variables L A : Type.
Variable body : A -> run L unit.
Variable P : exn -> Prop.

Lemma for_each_raises_with (l : list A) :
  (forall a, In a l ->
             outcome (body a) = Ok tt \/
             exists e, outcome (body a) = Raise e /\ P e) ->
  (exists a, In a l /\ outcome (body a) <> Ok tt) ->
  exists e, outcome (for_each l body) = Raise e /\ P e.
Proof.
  induction l as [|x l IH]; simpl; intros Hall (a & Hin & Ha); [tauto|].
  rewrite outcome_bind.
  destruct (Hall x (or_introl eq_refl)) as [Hx|(e & Hx & He)]; rewrite Hx.
  - apply IH; [auto|]. destruct Hin as [->|Hin]; [contradiction|eauto].
  - eauto.
Qed.
End RaisingLoop.

Lemma diagnostic_no_table (fs : files) (files : list string)
      (l : Results.line) :
  In l (flat_map (diagnostic fs) files) -> is_table_line l = false.
Proof.
  intros H. apply in_flat_map in H as (f & _ & H). unfold diagnostic in H.
  destruct (Results.analyze_file fs f) as [r|e]; [destruct H|].
  destruct e; destruct H as [<-|[]]; reflexivity.
Qed.

(** X18. A failure while a section is printed is not caught: when some
    path gives a result that [print_single] cannot format,
    analyze-results.py ends with [TypeError] or [ValueError] (exit status
    1) and prints no line of the comparison table, whatever the other
    paths are. *)
Theorem unprintable_result_stops_the_run :
  forall fs files f r,
    In f files ->
    Results.analyze_file fs f = Ok r ->
    ~ printable r ->
    (outcome (Results.main fs files) = Raise TypeError \/
     outcome (Results.main fs files) = Raise ValueError) /\
    exit_status (outcome (Results.main fs files)) = 1%Z /\
    (forall l, In l (printed (Results.main fs files)) ->
               is_table_line l = false).
Proof.
  intros fs files f r Hf Hr Hn.
  set (results := flat_map (Results.attempt fs) files).
  assert (Hin : In r results).
  { unfold results. apply in_flat_map. exists f. split; [exact Hf|].
    unfold Results.attempt. rewrite Hr. left. reflexivity. }
  assert (Hcomplete : forall a, In a results -> complete a).
  { intros a Ha. unfold results in Ha.
    apply in_flat_map in Ha as (g & _ & Ha). unfold Results.attempt in Ha.
    destruct (Results.analyze_file fs g) as [b|] eqn:Hg; [|destruct Ha].
    destruct Ha as [<-|[]]. exact (analyze_file_complete _ _ _ Hg). }
  destruct (for_each_raises_with _ _ Results.print_single
              (fun e => e = TypeError \/ e = ValueError) results)
    as (e & He & HP).
  { intros a Ha.
    destruct (print_single_cases a (Hcomplete a Ha)) as [[_ Ho]|[_ [Ho|Ho]]];
      eauto. }
  { exists r. split; [exact Hin|].
    destruct (print_single_cases r (Hcomplete r Hin)) as [[Hp _]|[_ [Ho|Ho]]];
      [contradiction|rewrite Ho; discriminate|rewrite Ho; discriminate]. }
  assert (Hall : outcome (Results.analyze_all fs files []) = Ok results)
    by (rewrite analyze_all_outcome; reflexivity).
  assert (Hout : outcome (Results.main fs files) = Raise e).
  { unfold Results.main. destruct files as [|f0 files]; [destruct Hf|].
    cbn [Results.is_empty]. rewrite outcome_bind, Hall.
    destruct results as [|r0 results]; [destruct Hin|].
    cbn [Results.is_empty]. rewrite outcome_bind, He. reflexivity. }
  split; [rewrite Hout; destruct HP as [->| ->]; auto|].
  split; [rewrite Hout; reflexivity|].
  intros l Hl. unfold Results.main in Hl.
  destruct files as [|f0 files]; [destruct Hf|].
  cbn [Results.is_empty] in Hl.
  rewrite (printed_bind_ok _ _ Hall) in Hl.
  apply in_app_or in Hl as [Hl|Hl].
  - rewrite analyze_all_printed in Hl. exact (diagnostic_no_table _ _ _ Hl).
  - destruct results as [|r0 results]; [destruct Hin|].
    cbn [Results.is_empty] in Hl.
    rewrite (printed_bind_raise _ _ _ _ _ _ He) in Hl.
    apply in_printed_for_each in Hl as (a & _ & Hl).
    exact (print_single_no_table _ _ Hl).
Qed.

(** [a.jsonl] can be printed, [b.jsonl] has a ping whose [elapsed_s] is a
    string: the run ends with [ValueError] and without a table. *)
Lemma run_stopped_by_second_file :
  exists r,
    Results.analyze_file Sample.clockless_disk "b.jsonl" = Ok r /\
    ~ printable r /\
    outcome (Results.main Sample.clockless_disk ["a.jsonl"; "b.jsonl"])
      = Raise ValueError /\
    exit_status
      (outcome (Results.main Sample.clockless_disk ["a.jsonl"; "b.jsonl"]))
      = 1%Z /\
    (forall l,
       In l (printed (Results.main Sample.clockless_disk
                                   ["a.jsonl"; "b.jsonl"])) ->
       is_table_line l = false).
Proof.
  eexists.
  match goal with
  | |- ?a = Ok ?r /\ _ =>
      assert (Ha : a = Ok r) by (vm_compute; reflexivity);
      assert (Hn : ~ printable r)
        by (intros [[d Hd] _]; vm_compute in Hd; discriminate);
      destruct (unprintable_result_stops_the_run
                  Sample.clockless_disk ["a.jsonl"; "b.jsonl"] "b.jsonl" r
                  ltac:(right; left; reflexivity) Ha Hn)
        as (_ & Hexit & Hlines)
  end.
  split; [exact Ha|]. split; [exact Hn|].
  split; [reflexivity|]. split; [exact Hexit|exact Hlines].
Defined.
End PrintingFailures.

(** ** Labels and file names *)

Section Labels.
Import Py.

Lemma components_nonempty (s : string) : Path.components s <> [].
Proof.
  induction s as [|c s IH]; simpl; [discriminate|].
  destruct (Ascii.eqb c "/"); [discriminate|].
  destruct (Path.components s); discriminate.
Qed.

Lemma components_app (a b : string) :
  Path.components (a ++ String "/" b)%string
  = Path.components a ++ Path.components b.
Proof.
  induction a as [|c a IH]; simpl; [reflexivity|].
  destruct (Ascii.eqb c "/"); rewrite IH; [reflexivity|].
  pose proof (components_nonempty a) as Hne.
  destruct (Path.components a); [congruence|reflexivity].
Qed.

Lemma components_of_component (s : string) :
  has_slash s = false -> Path.components s = [s].
Proof.
  induction s as [|c s IH]; simpl; [reflexivity|].
  intros H. apply orb_false_iff in H as [Hc Hs]. rewrite Hc, (IH Hs).
  reflexivity.
Qed.

Lemma parts_of_component (s : string) :
  component s = true -> Path.parts s = [s].
Proof.
  unfold component, Path.parts. intros H.
  apply andb_true_iff in H as [Hd Hs]. apply negb_true_iff in Hs.
  rewrite (components_of_component s Hs). simpl. rewrite Hd. reflexivity.
Qed.

Lemma parts_app (a b : string) :
  Path.parts (a ++ String "/" b)%string = Path.parts a ++ Path.parts b.
Proof. unfold Path.parts. rewrite components_app. apply filter_app. Qed.

(** X19. The label of a file in the report of analyze-stress.py keeps the
    last two components of its path and nothing else: a file [f] in a
    directory [d] is labelled [d/f] wherever [d] lies, and a bare file
    name [f] is labelled [/f]. *)
Theorem label_keeps_two_components :
  forall dir d f,
    component d = true ->
    component f = true ->
    Stress.label_of (dir ++ "/" ++ d ++ "/" ++ f)%string
      = (d ++ "/" ++ f)%string /\
    Stress.label_of (d ++ "/" ++ f)%string = (d ++ "/" ++ f)%string /\
    Stress.label_of f = ("/" ++ f)%string.
Proof.
  intros dir d f Hd Hf.
  assert (Hdf : Path.parts (d ++ "/" ++ f)%string = [d; f]).
  { change (d ++ "/" ++ f)%string with (d ++ String "/" f)%string.
    rewrite parts_app, (parts_of_component d Hd), (parts_of_component f Hf).
    reflexivity. }
  assert (Hdir : Path.parts (dir ++ "/" ++ d ++ "/" ++ f)%string
                 = (Path.parts dir ++ [d]) ++ [f]).
  { change (dir ++ "/" ++ d ++ "/" ++ f)%string
      with (dir ++ String "/" (d ++ "/" ++ f))%string.
    rewrite parts_app, Hdf, <- app_assoc. reflexivity. }
  unfold Stress.label_of, Path.parent_name, Path.name.
  rewrite Hdir, Hdf, (parts_of_component f Hf).
  rewrite removelast_last, !last_last. repeat split; reflexivity.
Qed.

(** Two ping logs of different scenarios share the label [run/ping.jsonl]. *)
Lemma same_label_in_two_scenarios :
  Stress.label_of "results/wifi/run/ping.jsonl" = "run/ping.jsonl" /\
  Stress.label_of "results/lte/run/ping.jsonl" = "run/ping.jsonl".
Proof.
  split.
  - exact (proj1 (label_keeps_two_components "results/wifi" "run"
                    "ping.jsonl" eq_refl eq_refl)).
  - exact (proj1 (label_keeps_two_components "results/lte" "run"
                    "ping.jsonl" eq_refl eq_refl)).
Defined.
End Labels.

(** ** RTTs that are no numbers *)

Section NonNumericRtts.
Import Py.

Lemma number_raises (v : json) (e : exn) :
  number v = Raise e -> e = TypeError.
Proof. destruct v; simpl; congruence. Qed.

Lemma numbers_raise (l : list json) (e : exn) :
  numbers l = Raise e -> e = TypeError.
Proof.
  unfold numbers. induction l as [|v l IH]; simpl; [discriminate|].
  destruct (number v) as [q|e'] eqn:Hv; simpl.
  - destruct (map_res number l) as [qs|e'']; simpl; [discriminate|].
    intros [= <-]. apply IH. reflexivity.
  - intros [= <-]. exact (number_raises _ _ Hv).
Qed.

(** Apart from two numbers and two strings nothing compares. *)
Lemma less_raises (x y : json) :
  (forall a b, number x = Ok a -> number y = Ok b -> False) ->
  (is_string x && is_string y = false) ->
  less x y = Raise TypeError.
Proof.
  intros Hn Hs. unfold less.
  destruct x, y; simpl in *; try reflexivity; try discriminate;
    exfalso; eapply Hn; reflexivity.
Qed.

Lemma least_from_strings (l : list json) (s : string) :
  forallb is_string l = true ->
  exists t, least_from (JStr s) l = Ok (JStr t).
Proof.
  revert s. induction l as [|x l IH]; intros s H;
    cbn [least_from greatest_from]; [eauto|].
  simpl in H. apply andb_true_iff in H as [Hx Hl].
  destruct x; try discriminate. cbn [less res_bind].
  destruct (String.ltb s0 s); apply IH; exact Hl.
Qed.

(** A running minimum that is a number meets a value that is none. *)
Lemma least_from_number (l : list json) (m : json) (q : Q) :
  number m = Ok q ->
  (forall qs, numbers l <> Ok qs) ->
  least_from m l = Raise TypeError.
Proof.
  revert m q. induction l as [|x l IH]; intros m q Hm Hl; simpl.
  - exfalso. apply (Hl []). reflexivity.
  - destruct (number x) as [a|e] eqn:Hx.
    + assert (E : less x m = Ok (if Qlt_le_dec a q then true else false)).
      { unfold less. rewrite Hx, Hm. destruct x; try reflexivity.
        simpl in Hx. discriminate. }
      rewrite E. simpl.
      assert (Hl' : forall qs, numbers l <> Ok qs).
      { intros qs Hqs. apply (Hl (a :: qs)). unfold numbers in *. simpl.
        rewrite Hx. simpl. rewrite Hqs. reflexivity. }
      destruct (Qlt_le_dec a q); eapply IH; eauto.
    + rewrite less_raises; [reflexivity| |].
      * intros a b Ha. congruence.
      * destruct x; try reflexivity. destruct m; try reflexivity.
        simpl in Hm. discriminate.
Qed.

(** A running minimum that is a string meets a value that is none. *)
Lemma least_from_string (l : list json) (s : string) :
  forallb is_string l = false ->
  least_from (JStr s) l = Raise TypeError.
Proof.
  revert s. induction l as [|x l IH]; intros s H;
    cbn [least_from]; [discriminate|].
  simpl in H. destruct (is_string x) eqn:Hx.
  - destruct x; try discriminate. cbn [less res_bind].
    destruct (String.ltb s0 s); apply IH; exact H.
  - rewrite less_raises; [reflexivity| |].
    + intros a b _ Hb. discriminate.
    + rewrite Hx. reflexivity.
Qed.

(** A first value that is neither a number nor a string *)
Lemma least_from_other (l : list json) (m : json) :
  (forall q, number m <> Ok q) -> is_string m = false ->
  res_bind (least_from m l) fmt_float = Raise TypeError.
Proof.
  intros Hn Hs. destruct l as [|x l]; simpl.
  - destruct m; try reflexivity; try discriminate;
      exfalso; eapply Hn; reflexivity.
  - rewrite less_raises; [reflexivity| |].
    + intros a b _ Hb. exact (Hn b Hb).
    + rewrite Hs. apply andb_false_r.
Qed.

(** [min(rtts)] and its format when some RTT is no number. *)
Lemma least_not_numbers (l : list json) :
  (forall qs, numbers l <> Ok qs) ->
  res_bind (least l) fmt_float =
    Raise (if forallb is_string l then ValueError else TypeError).
Proof.
  intros H. destruct l as [|m l]; [exfalso; apply (H []); reflexivity|].
  cbn [least forallb].
  destruct (number m) as [q|e] eqn:Hm.
  - assert (Hl : forall qs, numbers l <> Ok qs).
    { intros qs Hqs. apply (H (q :: qs)). unfold numbers in *. simpl.
      rewrite Hm. simpl. rewrite Hqs. reflexivity. }
    rewrite (least_from_number l m q Hm Hl).
    destruct m; try discriminate; reflexivity.
  - destruct (is_string m) eqn:Hs.
    + destruct m; try discriminate. cbn [andb].
      destruct (forallb is_string l) eqn:Hl.
      * destruct (least_from_strings l s Hl) as [t ->]. reflexivity.
      * rewrite (least_from_string l s Hl). reflexivity.
    + cbn [andb]. apply least_from_other; [|exact Hs].
      intros q Hq. congruence.
Qed.

(** X20. Ping records whose [rtt_ms] are not all numbers: analyze-stress.py
    has printed the heading of the ping section and the number of pings
    when [min(rtts)] or its format raises, [ValueError] when every RTT is
    a string and [TypeError] otherwise; in analyze-results.py
    [statistics.mean] raises [TypeError] and the file gives no result. *)
Theorem rtts_that_are_no_numbers :
  forall events pings rtts,
    select "event" "ping" events = Ok pings ->
    map_res (fun p => subscript p "rtt_ms") pings = Ok rtts ->
    (forall qs, numbers rtts <> Ok qs) ->
    (forall label,
        Stress.analyze_pings events label =
          Run [Stress.L_section_rule; Stress.L_heading "PING" label;
               Stress.L_rule; Stress.L_total_pings (List.length pings)]
              (Raise (if forallb is_string rtts then ValueError
                      else TypeError))) /\
    (forall name, Results.analyze_events name events = Raise TypeError).
Proof.
  intros events pings rtts Hp Hr Hn.
  assert (Hne : pings <> []).
  { intros E. subst pings. injection Hr as <-. apply (Hn []). reflexivity. }
  destruct (@select_other "event" "ping" "event" "summary" events pings Hp)
    as [sums Hsums].
  destruct (@select_other "event" "ping" "event" "path_change" events
                          pings Hp) as [pcs Hpcs].
  split.
  - intros label. unfold Stress.analyze_pings.
    rewrite Hp, bind_lift_ok, (is_empty_false Hne), Hr, bind_lift_ok,
      Hsums, bind_lift_ok, Hpcs, bind_lift_ok.
    do 4 (rewrite bind_print; cbn [printed outcome]).
    rewrite bind_lift_bind, (least_not_numbers rtts Hn). reflexivity.
  - intros name.
    destruct (@select_other "event" "ping" "event" "hole_punch" events
                            pings Hp) as [hps Hhps].
    destruct (@select_other "event" "ping" "event" "disconnected" events
                            pings Hp) as [dis Hdis].
    destruct (@select_other "event" "ping" "event" "reconnected" events
                            pings Hp) as [recs Hrecs].
    pose proof (selection_of_records _ _ _ _ Hp) as Hrecp.
    destruct (@select_records "via" "DIRECT" pings Hrecp) as [directs Hd].
    destruct (@select_records "via" "RELAY" pings Hrecp) as [relays Hrl].
    assert (Hsub : forall k s sub,
               select k s pings = Ok sub ->
               exists js, map_res (fun p => subscript p "rtt_ms") sub = Ok js).
    { intros k s sub Hs. apply map_res_ok_iff. intros p Hin.
      destruct (@select_in k s pings sub p Hs Hin) as [Hin' _].
      exact (proj1 (map_res_ok_iff _ _ _ pings) (ex_intro _ rtts Hr) p Hin'). }
    destruct (Hsub _ _ _ Hd) as [djs Hdjs].
    destruct (Hsub _ _ _ Hrl) as [rjs Hrjs].
    assert (Hre : Results.is_empty rtts = false).
    { destruct rtts; [|reflexivity]. exfalso. apply (Hn []). reflexivity. }
    destruct (numbers rtts) as [qs|e] eqn:Hq; [destruct (Hn qs eq_refl)|].
    apply numbers_raise in Hq as He. subst e.
    unfold Results.analyze_events.
    rewrite Hp, Hpcs, Hhps, Hdis, Hrecs, Hsums. cbn [res_bind].
    rewrite Hd, Hrl. cbn [res_bind].
    rewrite Hdjs, Hrjs, Hr. cbn [res_bind].
    rewrite Hre, Hq. reflexivity.
Qed.

(** A ping whose RTT is the string "slow". *)
Lemma ping_with_a_string_rtt :
  Stress.analyze_pings [Sample.slow_ping] "run/ping.jsonl" =
    Run [Stress.L_section_rule; Stress.L_heading "PING" "run/ping.jsonl";
         Stress.L_rule; Stress.L_total_pings 1] (Raise ValueError) /\
  Results.analyze_events "ping.jsonl" [Sample.slow_ping] = Raise TypeError.
Proof.
  destruct (rtts_that_are_no_numbers
              [Sample.slow_ping] [Sample.slow_ping] [JStr "slow"]
              eq_refl eq_refl ltac:(intros qs; discriminate))
    as [Hs Hr].
  split; [exact (Hs "run/ping.jsonl") | exact (Hr "ping.jsonl")].
Defined.
End NonNumericRtts.

(** ** The runs of the two scripts *)

Section Loops.
Import Py.
Variables L A : Type.
Variable body : A -> run L unit.

Lemma for_each_ok_inv (l : list A) :
  outcome (for_each l body) = Ok tt ->
  forall a, In a l -> outcome (body a) = Ok tt.
Proof.
  induction l as [|x l IH]; simpl; intros H a Ha; [destruct Ha|].
  rewrite outcome_bind in H.
  destruct (outcome (body x)) as [[]|e] eqn:Hx; [|discriminate].
  destruct Ha as [<-|Ha]; [exact Hx | exact (IH H a Ha)].
Qed.

(** A loop stops at the first element on which its body raises: what the
    elements before it printed stays, the elements after it are not
    reached. *)
Lemma for_each_stops (pre post : list A) (m : A) (e : exn) :
  (forall a, In a pre -> outcome (body a) = Ok tt) ->
  outcome (body m) = Raise e ->
  for_each (pre ++ m :: post) body =
    Run (flat_map (fun a => printed (body a)) pre ++ printed (body m))
        (Raise e).
Proof.
  intros Hpre Hm. induction pre as [|x pre IH]; simpl.
  - rewrite (bind_raise _ _ Hm). reflexivity.
  - assert (Hx : outcome (body x) = Ok tt) by (apply Hpre; left; reflexivity).
    unfold bind at 1. rewrite Hx. cbv zeta.
    rewrite IH by (intros a Ha; apply Hpre; right; exact Ha).
    cbn [printed outcome]. rewrite app_assoc. reflexivity.
Qed.
End Loops.

Section Runs.
Import Py.

Lemma bind_ok_run (L A B : Type) (m : run L A) (k : A -> run L B) (a : A) :
  outcome m = Ok a ->
  bind m k = Run (printed m ++ printed (k a)) (outcome (k a)).
Proof. unfold bind. intros ->. reflexivity. Qed.

Lemma sorted_str_nil_inv (files : list string) :
  sorted_str files = [] -> files = [].
Proof.
  intros H. pose proof (sorted_str_perm files) as Hp. rewrite H in Hp.
  apply Permutation_sym, Permutation_nil in Hp. exact Hp.
Qed.

Lemma stress_main_run (fs : files) (files : list string) :
  files <> [] ->
  Stress.main fs files =
    bind (Run (banner (List.length files)) (Ok tt)) (fun _ =>
    bind (for_each (sorted_str files) (Stress.report_file fs)) (fun _ =>
    Run [Stress.L_end_rule; Stress.L_done] (Ok Done))).
Proof.
  intros Hne. unfold Stress.main. rewrite (is_empty_false Hne).
  do 4 (rewrite bind_print; cbn [printed outcome]).
  rewrite bind_printed. unfold banner. cbn [app].
  destruct (for_each (sorted_str files) (Stress.report_file fs))
    as [ls [[]|e]]; reflexivity.
Qed.

(** analyze-stress.py when the report of every file ends well: the
    banner, the reports in the sorted order of the paths, the closing
    lines. *)
Lemma stress_main_complete (fs : files) (files : list string) :
  files <> [] ->
  (forall f, In f files -> outcome (Stress.report_file fs f) = Ok tt) ->
  Stress.main fs files =
    Run (banner (List.length files)
         ++ flat_map (fun p => printed (Stress.report_file fs p))
                     (sorted_str files)
         ++ [Stress.L_end_rule; Stress.L_done]) (Ok Done).
Proof.
  intros Hne Hall. rewrite (stress_main_run fs files Hne).
  destruct (@for_each_ok _ _ (Stress.report_file fs) (sorted_str files))
    as [Ho Hp].
  { intros f Hf. apply Hall.
    eapply Permutation_in; [symmetry; apply sorted_str_perm | exact Hf]. }
  rewrite bind_printed. unfold bind. rewrite Ho. cbv zeta.
  cbn [printed outcome]. rewrite Hp. reflexivity.
Qed.

(** analyze-stress.py when the report of a file raises: the banner, the
    reports of the paths sorted before it, what its own report printed,
    and the exception. *)
Lemma stress_main_stops (fs : files) (files pre post : list string)
      (m : string) (e : exn) :
  sorted_str files = pre ++ m :: post ->
  (forall p, In p pre -> outcome (Stress.report_file fs p) = Ok tt) ->
  outcome (Stress.report_file fs m) = Raise e ->
  Stress.main fs files =
    Run (banner (List.length files)
         ++ flat_map (fun p => printed (Stress.report_file fs p)) pre
         ++ printed (Stress.report_file fs m)) (Raise e).
Proof.
  intros Hs Hpre Hm.
  assert (Hne : files <> []).
  { intros E. subst files. destruct pre; discriminate. }
  rewrite (stress_main_run fs files Hne), Hs.
  rewrite (for_each_stops _ _ (Stress.report_file fs) pre post m e Hpre Hm).
  reflexivity.
Qed.

Lemma report_of_missing_file (fs : files) (path : string) :
  fs path = None ->
  Stress.report_file fs path = Run [] (Raise FileNotFoundError).
Proof.
  intros H. unfold Stress.report_file, Stress.load_events. rewrite H.
  reflexivity.
Qed.

Lemma report_of_empty_file (fs : files) (path : string) :
  Stress.load_events fs path = Ok [] ->
  Stress.report_file fs path =
    Run [Stress.L_empty (Stress.label_of path)] (Ok tt).
Proof.
  intros H. unfold Stress.report_file. rewrite H, bind_lift_ok. reflexivity.
Qed.

(** analyze-stress.py ends with status 0 exactly when it is given a path
    and the report of every file ends well. *)
Lemma stress_exit_zero (fs : files) (files : list string) :
  exit_status (outcome (Stress.main fs files)) = 0%Z <->
  files <> [] /\
  forall f, In f files -> outcome (Stress.report_file fs f) = Ok tt.
Proof.
  split.
  - intros H. destruct files as [|f0 files]; [discriminate H|].
    split; [discriminate|].
    rewrite (stress_main_run fs (f0 :: files)) in H by discriminate.
    rewrite bind_printed in H. cbn [outcome] in H.
    rewrite outcome_bind in H.
    destruct (outcome (for_each (sorted_str (f0 :: files))
                                (Stress.report_file fs)))
      as [[]|e] eqn:Ho; [|discriminate H].
    intros f Hf.
    apply (for_each_ok_inv _ _ _ _ Ho).
    eapply Permutation_in; [apply sorted_str_perm | exact Hf].
  - intros [Hne Hall]. rewrite (stress_main_complete fs files Hne Hall).
    reflexivity.
Qed.

Lemma attempts_in (fs : files) (files : list string) (r : Results.result) :
  In r (flat_map (Results.attempt fs) files) <->
  exists f, In f files /\ Results.analyze_file fs f = Ok r.
Proof.
  rewrite in_flat_map. split.
  - intros (f & Hf & Hr). exists f. split; [exact Hf|].
    unfold Results.attempt in Hr.
    destruct (Results.analyze_file fs f) as [r'|e]; [|destruct Hr].
    destruct Hr as [<-|[]]. reflexivity.
  - intros (f & Hf & Hr). exists f. split; [exact Hf|].
    unfold Results.attempt. rewrite Hr. left. reflexivity.
Qed.

Lemma attempts_complete (fs : files) (files : list string)
      (r : Results.result) :
  In r (flat_map (Results.attempt fs) files) -> complete r.
Proof.
  intros H. apply attempts_in in H as (f & _ & H).
  exact (analyze_file_complete _ _ _ H).
Qed.

Lemma printed_section_columns (r : Results.result) :
  complete r -> outcome (Results.print_single r) = Ok tt -> columns_ok r.
Proof.
  intros Hc Ho.
  destruct (print_single_cases r Hc) as [[[_ H] _]|[_ [H|H]]];
    [exact H | rewrite H in Ho; discriminate | rewrite H in Ho; discriminate].
Qed.

Lemma comparison_row_columns (r : Results.result) :
  outcome (Results.comparison_row r) = Ok tt -> columns_ok r.
Proof.
  unfold Results.comparison_row, columns_ok. rewrite !outcome_bind.
  cbn [outcome lift].
  destruct (Results.column (Results.hole_punch_time_s r)) as [p|e];
    [|discriminate].
  destruct (Results.column (Results.total_disconnected_s r)) as [d|e];
    [|discriminate].
  intros _. split; eexists; reflexivity.
Qed.

(** The table when it is printed to its end: every result has its row. *)
Lemma print_comparison_rows (results : list Results.result) :
  outcome (Results.print_comparison results) = Ok tt ->
  forall r, In r results ->
            printed (Results.comparison_row r) = [Results.L_row (row_of r)] /\
            In (Results.L_row (row_of r))
               (printed (Results.print_comparison results)).
Proof.
  intros Ho r Hr.
  assert (Hrows : forall r', In r' results -> columns_ok r').
  { intros r' Hr'. apply comparison_row_columns.
    unfold Results.print_comparison in Ho.
    do 6 (rewrite bind_print in Ho; cbn [outcome] in Ho).
    rewrite outcome_bind in Ho.
    destruct (outcome (for_each results Results.comparison_row))
      as [[]|e] eqn:Hf; [|discriminate Ho].
    exact (for_each_ok_inv _ _ _ _ Hf r' Hr'). }
  split; [rewrite (comparison_row_ok r (Hrows r Hr)); reflexivity|].
  assert (Hne : results <> []) by (destruct results; [destruct Hr|discriminate]).
  assert (Hpne : map Results.direct_pct results <> [])
    by (destruct results; [congruence | discriminate]).
  destruct (py_min_nonempty Hpne) as [lo Hlo].
  destruct (py_max_nonempty Hpne) as [hi Hhi].
  rewrite (print_comparison_run results lo hi Hne Hrows Hlo Hhi).
  cbn [printed]. apply in_or_app. right. apply in_or_app. left.
  apply in_map_iff. exists r. split; [reflexivity | exact Hr].
Qed.

(** analyze-results.py when the section of every result is printed to its
    end: the diagnostics of the loop, the sections in the order of the
    results, the table when there are several results. *)
Lemma results_main_complete (fs : files) (files : list string) :
  flat_map (Results.attempt fs) files <> [] ->
  (forall r, In r (flat_map (Results.attempt fs) files) ->
             outcome (Results.print_single r) = Ok tt) ->
  outcome (Results.print_comparison (flat_map (Results.attempt fs) files))
    = Ok tt /\
  Results.main fs files =
    Run (flat_map (diagnostic fs) files
         ++ flat_map (fun r => printed (Results.print_single r))
                     (flat_map (Results.attempt fs) files)
         ++ (if (1 <? List.length (flat_map (Results.attempt fs) files))%nat
             then printed (Results.print_comparison
                             (flat_map (Results.attempt fs) files))
             else [])) (Ok Done).
Proof.
  intros Hne Hall.
  set (results := flat_map (Results.attempt fs) files) in *.
  assert (Hcols : forall r, In r results -> columns_ok r).
  { intros r Hr. apply printed_section_columns; [|exact (Hall r Hr)].
    exact (attempts_complete fs files r Hr). }
  assert (Hpne : map Results.direct_pct results <> [])
    by (destruct results; [congruence | discriminate]).
  destruct (py_min_nonempty Hpne) as [lo Hlo].
  destruct (py_max_nonempty Hpne) as [hi Hhi].
  pose proof (print_comparison_run results lo hi Hne Hcols Hlo Hhi) as Ht.
  split; [rewrite Ht; reflexivity|].
  assert (Hfiles : files <> []).
  { intros E. subst files. apply Hne. reflexivity. }
  destruct (@for_each_ok _ _ Results.print_single results Hall) as [Ho Hp].
  assert (Hloop : outcome (Results.analyze_all fs files []) = Ok results)
    by (rewrite analyze_all_outcome; reflexivity).
  unfold Results.main.
  replace (Results.is_empty files) with false
    by (destruct files; [congruence | reflexivity]).
  rewrite (bind_ok_run _ _ _ _ _ _ Hloop), analyze_all_printed.
  replace (Results.is_empty results) with false
    by (destruct results; [congruence | reflexivity]).
  rewrite (bind_ok_run _ _ _ _ _ _ Ho), Hp.
  destruct (1 <? List.length results)%nat.
  - rewrite Ht, bind_printed. cbn [printed outcome ret].
    rewrite app_nil_r. reflexivity.
  - rewrite bind_ret. cbn [printed outcome ret app].
    rewrite !app_nil_r. reflexivity.
Qed.

(** analyze-results.py ends with status 0 exactly when some file gives a
    result and the section of every result is printed to its end. *)
Lemma results_exit_zero (fs : files) (files : list string) :
  exit_status (outcome (Results.main fs files)) = 0%Z <->
  flat_map (Results.attempt fs) files <> [] /\
  forall r, In r (flat_map (Results.attempt fs) files) ->
            outcome (Results.print_single r) = Ok tt.
Proof.
  split.
  - intros H. unfold Results.main in H.
    destruct files as [|f0 files]; [discriminate H|].
    cbn [Results.is_empty] in H.
    rewrite outcome_bind, (analyze_all_outcome fs (f0 :: files) []) in H.
    cbn [app] in H.
    destruct (flat_map (Results.attempt fs) (f0 :: files)) as [|r0 rs] eqn:E;
      [discriminate H|].
    split; [discriminate|].
    cbn [Results.is_empty] in H. rewrite outcome_bind in H.
    destruct (outcome (for_each (r0 :: rs) Results.print_single))
      as [[]|e] eqn:Ho; [|discriminate H].
    exact (for_each_ok_inv _ _ _ _ Ho).
  - intros [Hne Hall].
    destruct (results_main_complete fs files Hne Hall) as [_ ->].
    reflexivity.
Qed.










(** The section of a file that holds no event is printed to its end. *)
Lemma section_of_no_events (name : string) (r : Results.result) :
  Results.analyze_events name [] = Ok r ->
  outcome (Results.print_single r) = Ok tt.
Proof. intros [= <-]. reflexivity. Qed.
End Runs.

(** * The claims of the specification *)

Section Claims.
Import Py.

(** C1 (the code departs from the claim). A ping record without [rtt_ms]
    is not left out of the aggregate: in analyze-stress.py the subscript
    raises [KeyError] before anything is printed and the exception leaves
    [main]; in analyze-results.py the whole file is given up with an
    [ERROR] line, the two valid pings around the bare one included. A
    reconnect record without [reconnect_time_ms] does the same. *)
Lemma C1_record_without_rtt_raises :
  Stress.analyze_pings (flat_map decoded Sample.gap_log) "run/ping.jsonl"
    = Run [] (Raise (KeyError "rtt_ms")) /\
  outcome (Stress.main Sample.gap_disk ["run/ping.jsonl"])
    = Raise (KeyError "rtt_ms") /\
  exit_status (outcome (Stress.main Sample.gap_disk ["run/ping.jsonl"]))
    = 1%Z /\
  Results.analyze_file Sample.gap_disk "run/ping.jsonl"
    = Raise (KeyError "rtt_ms") /\
  Results.main Sample.gap_disk ["run/ping.jsonl"]
    = Run [Results.L_error "run/ping.jsonl" (KeyError "rtt_ms");
           Results.L_no_valid_results] (Ok (SysExit 1)) /\
  Results.analyze_events "nat.jsonl" [Sample.ping 10; Sample.bare_reconnect]
    = Raise (KeyError "reconnect_time_ms").
Proof. vm_compute. repeat split. Qed.

(** C3. For a list of ping RTTs that is not empty, the p95 that is reported
    is the element at index floor(n * 0.95) of the sorted list: [s] is the
    sorted arrangement of the RTTs, the index [i] lies inside it,
    analyze-results.py stores [s[i]] as [rtt_p95], and a p95 line of
    analyze-stress.py carries [s[i]] and nothing else (it prints the line
    from two RTTs on). *)
Theorem C3_p95_is_nearest_rank :
  forall rtts : list Q, rtts <> [] ->
  exists (s : list Q) (i : nat),
    s = sorted_num rtts /\ Permutation rtts s /\ StronglySorted Qle s /\
    i = (List.length rtts * 95 / 100)%nat /\ (i < List.length s)%nat /\
    (forall name events r,
        ping_rtts events = Ok rtts ->
        Results.analyze_events name events = Ok r ->
        Results.rtt_p95 r = Some (nth i s 0)) /\
    (forall events label q,
        ping_rtts events = Ok rtts ->
        In (Stress.L_rtt_p95 q)
           (printed (Stress.analyze_pings events label)) ->
        q = nth i s 0) /\
    (forall events label,
        ping_rtts events = Ok rtts ->
        (2 <= List.length rtts)%nat ->
        In (Stress.L_rtt_p95 (nth i s 0))
           (printed (Stress.analyze_pings events label))).
Proof.
  intros rtts Hne.
  exists (sorted_num rtts), (p95_index (List.length rtts)).
  split; [reflexivity|].
  split; [apply sorted_num_perm|].
  split; [apply sorted_num_sorted|].
  split; [apply p95_index_floor|].
  split.
  { rewrite sorted_num_length. apply p95_index_lt.
    destruct rtts; [congruence | simpl; lia]. }
  split.
  - intros name events r Hr Ha.
    apply analyze_events_inv in Ha.
    destruct Ha as (pings & directs & relays & rtts' & drtts & _ & _ & _ &
                    Hr' & _ & _ & _ & _ & _ & _ & _ & _ & _ & Hp & _).
    rewrite Hr in Hr'. injection Hr' as <-.
    rewrite Hp. apply opt_some. exact Hne.
  - split; [intros events label q Hr H;
            exact (@analyze_pings_p95_line events label rtts q Hr H)|].
    intros events label Hr Hlen.
    destruct (@analyze_pings_with_rtts events label rtts Hr Hne)
      as (lo & hi & ss & pcs & _ & _ & _ & _ & ->).
    destruct (@spread_lines_two rtts Hlen) as (md & var & _ & _ & ->).
    rewrite bind_printed. apply in_or_app. right.
    rewrite bind_printed. apply in_or_app. left.
    simpl. auto.
Qed.

(** For the RTTs 10, 20, 30, 40, 50 both scripts report a p95 of 50. *)
Lemma C3_p95_of_five :
  (exists r, Results.analyze_events "ping.jsonl" Sample.five_pings = Ok r /\
             Results.rtt_p95 r = Some 50) /\
  In (Stress.L_rtt_p95 50)
     (printed (Stress.analyze_pings Sample.five_pings "run/ping.jsonl")).
Proof.
  destruct (C3_p95_is_nearest_rank [10; 20; 30; 40; 50])
    as (s & i & -> & _ & _ & -> & _ & Hres & _ & Hstress);
    [discriminate|].
  split.
  - eexists. split; [vm_compute; reflexivity|].
    apply (Hres "ping.jsonl" Sample.five_pings); reflexivity.
  - apply (Hstress Sample.five_pings "run/ping.jsonl");
      [reflexivity | simpl; lia].
Defined.

(** C4. When the events hold a summary record, a success-rate line of the
    ping report is computed from the [successful] and [total_pings] fields of
    the last summary record and from nothing else; it is printed whenever
    the file has pings with numeric RTTs and the two fields are numbers,
    [total_pings] not zero, whatever the number of ping records is. *)
Theorem C4_success_rate_from_last_summary :
  forall events label summaries s,
    select "event" "summary" events = Ok summaries ->
    summaries <> [] ->
    s = last summaries JNull ->
    (forall ok total pct,
        In (Stress.L_success_rate ok total pct)
           (printed (Stress.analyze_pings events label)) ->
        ok = get_default s "successful" (JNum 0) /\
        total = get_default s "total_pings" (JNum 0) /\
        exists a b,
          number ok = Ok a /\ number total = Ok b /\ pct = 100 * a / b) /\
    (forall rtts a b,
        ping_rtts events = Ok rtts -> rtts <> [] ->
        truthy (get_default s "total_pings" (JNum 0)) = true ->
        number (get_default s "successful" (JNum 0)) = Ok a ->
        number (get_default s "total_pings" (JNum 0)) = Ok b ->
        In (Stress.L_success_rate (get_default s "successful" (JNum 0))
                                  (get_default s "total_pings" (JNum 0))
                                  (100 * a / b))
           (printed (Stress.analyze_pings events label))).
Proof.
  intros events label summaries s Hss Hne ->.
  destruct summaries as [|s0 rest]; [congruence|].
  rewrite last_cons. split.
  - intros ok total pct H. unfold Stress.analyze_pings in H.
    in_printed H; try discriminate.
    + unfold Stress.spread_lines in H. in_printed H; discriminate.
    + match goal with
      | Hx : outcome (lift (select "event" "summary" events)) = Ok ?x |- _ =>
          simpl in Hx; rewrite Hss in Hx; injection Hx as <-
      end.
      apply summary_lines_success_rate in H. cbv zeta in H. tauto.
    + apply path_change_lines_plain in H. destruct H. discriminate.
  - intros rtts a b Hr Hrne Ht Ha Hb.
    destruct (@analyze_pings_with_rtts events label rtts Hr Hrne)
      as (lo & hi & ss & pcs & _ & _ & Hss' & _ & ->).
    rewrite Hss in Hss'. injection Hss' as <-.
    rewrite bind_printed. apply in_or_app. right.
    eapply in_printed_bind_r; [apply spread_lines_ok; exact Hrne|].
    apply in_printed_bind_l.
    unfold Stress.summary_lines. rewrite Ht, Ha, Hb. run_step.
    left. reflexivity.
Qed.

(** A summary of 97 successes in 100 pings gives "97/100 (97%)" in a file
    that holds three ping records. *)
Lemma C4_producer_totals_win :
  exists pct,
    In (Stress.L_success_rate (JNum 97) (JNum 100) pct)
       (printed (Stress.analyze_pings Sample.pings_and_summary "run/ping.jsonl"))
    /\ pct == 97.
Proof.
  exists (100 * 97 / 100). split; [|reflexivity].
  apply (proj2 (C4_success_rate_from_last_summary
                  Sample.pings_and_summary "run/ping.jsonl"
                  [Sample.summary 100 97] (Sample.summary 100 97)
                  eq_refl ltac:(discriminate) eq_refl)
               [12; 15; 11] 97 100);
    solve [reflexivity | discriminate].
Defined.

(** C7, as claimed, fails: with one sample analyze-stress.py prints the
    minimum, the maximum and the mean, and neither median nor p95. *)
Lemma C7_one_sample_without_median_and_p95 :
  printed (Stress.analyze_pings [Sample.ping 7] "run/ping.jsonl") =
    [Stress.L_section_rule; Stress.L_heading "PING" "run/ping.jsonl";
     Stress.L_rule; Stress.L_total_pings 1; Stress.L_rtt_min 7;
     Stress.L_rtt_max 7; Stress.L_rtt_avg 7] /\
  (forall q, ~ In (Stress.L_rtt_median q)
               (printed (Stress.analyze_pings [Sample.ping 7]
                                              "run/ping.jsonl"))) /\
  (forall q, ~ In (Stress.L_rtt_p95 q)
               (printed (Stress.analyze_pings [Sample.ping 7]
                                              "run/ping.jsonl"))).
Proof.
  assert (E : printed (Stress.analyze_pings [Sample.ping 7] "run/ping.jsonl")
              = [Stress.L_section_rule;
                 Stress.L_heading "PING" "run/ping.jsonl";
                 Stress.L_rule; Stress.L_total_pings 1; Stress.L_rtt_min 7;
                 Stress.L_rtt_max 7; Stress.L_rtt_avg 7])
    by (vm_compute; reflexivity).
  rewrite E. split; [reflexivity|].
  split; intros q H; simpl in H; intuition discriminate.
Qed.

(** C7, amended. For the pings of a file, with numeric RTTs and at least
    one of them, the ping report of analyze-stress.py shows the minimum (an
    RTT no RTT is below), the maximum (an RTT no RTT is above) and the mean;
    it shows median, standard deviation and p95 when there are at least two
    RTTs, and none of the three when there is one. *)
Theorem C7_ping_statistics :
  forall events label rtts,
    ping_rtts events = Ok rtts -> rtts <> [] ->
    exists lo hi,
      In lo rtts /\ Forall (fun x => lo <= x) rtts /\
      In hi rtts /\ Forall (fun x => x <= hi) rtts /\
      In (Stress.L_rtt_min lo) (printed (Stress.analyze_pings events label)) /\
      In (Stress.L_rtt_max hi) (printed (Stress.analyze_pings events label)) /\
      In (Stress.L_rtt_avg (sum rtts / len rtts))
         (printed (Stress.analyze_pings events label)) /\
      ((2 <= List.length rtts)%nat ->
       exists md var,
         median rtts = Ok md /\ variance rtts = Ok var /\
         In (Stress.L_rtt_median md)
            (printed (Stress.analyze_pings events label)) /\
         In (Stress.L_rtt_stddev var)
            (printed (Stress.analyze_pings events label)) /\
         In (Stress.L_rtt_p95 (nth (p95_index (List.length rtts))
                                   (sorted_num rtts) 0))
            (printed (Stress.analyze_pings events label))) /\
      (List.length rtts = 1%nat ->
       forall l, In l (printed (Stress.analyze_pings events label)) ->
                 Stress.is_spread l = false).
Proof.
  intros events label rtts Hr Hne.
  destruct (@analyze_pings_with_rtts events label rtts Hr Hne)
    as (lo & hi & ss & pcs & Hlo & Hhi & _ & _ & ->).
  exists lo, hi.
  destruct (py_min_spec _ Hlo) as [Hlo1 Hlo2].
  destruct (py_max_spec _ Hhi) as [Hhi1 Hhi2].
  repeat (split; [assumption|]).
  rewrite bind_printed.
  repeat (split; [apply in_or_app; left; simpl; tauto|]).
  split.
  - intros Hlen.
    destruct (@spread_lines_two rtts Hlen) as (md & var & Hmd & Hvar & ->).
    exists md, var. repeat (split; [assumption|]).
    rewrite bind_printed.
    repeat split; apply in_or_app; right; apply in_or_app; left; simpl; tauto.
  - intros Hlen l H.
    rewrite spread_lines_few, bind_ret in H by lia.
    apply in_app_or in H as [H|H].
    + simpl in H.
      repeat (destruct H as [<-|H]; [reflexivity|]). destruct H.
    + apply in_printed_bind_inv in H as [H|(u & _ & H)].
      * eapply summary_lines_no_spread; eassumption.
      * eapply path_change_lines_plain; eassumption.
Qed.

(** One sample: minimum, maximum and mean are 7, and no line of the report
    is a median, deviation or p95 line. *)
Lemma C7_one_sample :
  In (Stress.L_rtt_min 7)
     (printed (Stress.analyze_pings [Sample.ping 7] "run/ping.jsonl")) /\
  In (Stress.L_rtt_max 7)
     (printed (Stress.analyze_pings [Sample.ping 7] "run/ping.jsonl")) /\
  forall l,
    In l (printed (Stress.analyze_pings [Sample.ping 7] "run/ping.jsonl")) ->
    Stress.is_spread l = false.
Proof.
  destruct (C7_ping_statistics [Sample.ping 7] "run/ping.jsonl" [7]
                               eq_refl ltac:(discriminate))
    as (lo & hi & Hlo & _ & Hhi & _ & Hmin & Hmax & _ & _ & Hone).
  destruct Hlo as [<-|[]]. destruct Hhi as [<-|[]].
  split; [exact Hmin|]. split; [exact Hmax|].
  exact (Hone eq_refl).
Defined.

(** C8, as claimed, fails for analyze-results.py: the section of a file
    without ping events has its zero-filled lines. *)
Lemma C8_results_section_is_zero_filled :
  exists r,
    Results.analyze_events "idle.jsonl" Sample.idle_log = Ok r /\
    In (Results.L_total_pings 0) (printed (Results.print_single r)) /\
    In (Results.L_direct 0 0) (printed (Results.print_single r)) /\
    In (Results.L_relay 0) (printed (Results.print_single r)) /\
    In (Results.L_duration 0 (0 / 60)) (printed (Results.print_single r)).
Proof.
  eexists. split; [vm_compute; reflexivity|].
  vm_compute. intuition.
Qed.

(** C8, amended. For a file without ping events [analyze_pings] of
    analyze-stress.py prints nothing at all, while the section that
    analyze-results.py prints for the file starts with its zero-filled
    lines (duration 0, 0 pings, 0 direct at 0%, 0 relay) and has no RTT
    line. *)
Theorem C8_no_pings :
  (forall events label,
      (forall e, In e events -> field_is "event" "ping" e <> Ok true) ->
      printed (Stress.analyze_pings events label) = []) /\
  (forall name events r,
      select "event" "ping" events = Ok [] ->
      Results.analyze_events name events = Ok r ->
      (exists rest,
          printed (Results.print_single r) =
            [Results.L_sep60_nl; Results.L_file name; Results.L_sep60;
             Results.L_blank; Results.L_duration 0 (0 / 60);
             Results.L_total_pings 0; Results.L_direct 0 0;
             Results.L_relay 0; Results.L_blank; Results.L_blank] ++ rest) /\
      (forall l, In l (printed (Results.print_single r)) ->
                 Results.is_rtt_line l = false)).
Proof.
  split; [exact analyze_pings_silent|].
  intros name events r Hp Ha.
  destruct (@analyze_events_no_pings name events r Hp Ha)
    as (Hf & Htot & Hdir & Hrel & Hpct & Hdur & Hmean & Hdm & Hrm).
  split.
  - rewrite <- Hf. apply print_single_no_pings; assumption.
  - intros l Hl. destruct (Results.is_rtt_line l) eqn:E; [|reflexivity].
    destruct (@print_single_rtt_line r l Hl E) as [H|[H|H]]; congruence.
Qed.

(** The idle log: nothing from analyze-stress.py, no RTT line from
    analyze-results.py. *)
Lemma C8_idle_log :
  printed (Stress.analyze_pings Sample.idle_log "run/idle.jsonl") = [] /\
  forall r,
    Results.analyze_events "idle.jsonl" Sample.idle_log = Ok r ->
    forall l, In l (printed (Results.print_single r)) ->
              Results.is_rtt_line l = false.
Proof.
  split.
  - apply (proj1 C8_no_pings).
    intros e [<-|[<-|[]]]; vm_compute; discriminate.
  - intros r Hr.
    exact (proj2 (proj2 C8_no_pings "idle.jsonl" Sample.idle_log r
                        eq_refl Hr)).
Defined.




(** C10. The "RTT ms" column of a row of the comparison table is the mean
    RTT of the direct pings of the file when it has direct pings, otherwise
    the mean RTT of all its pings when it has pings, otherwise 0; the row
    of a result is printed with that column by [print_comparison], and by
    a run of analyze-results.py over several files that ends well. *)
Theorem C10_rtt_column :
  forall name events r,
    Results.analyze_events name events = Ok r ->
    exists rtts drtts,
      ping_rtts events = Ok rtts /\ Results.direct_rtts events = Ok drtts /\
      Results.rtt_column r =
        match drtts, rtts with
        | _ :: _, _ => sum drtts / len drtts
        | [], _ :: _ => sum rtts / len rtts
        | [], [] => 0
        end /\
      (forall row,
          In (Results.L_row row) (printed (Results.comparison_row r)) ->
          Results.row_rtt row = Results.rtt_column r) /\
      (outcome (Results.comparison_row r) = Ok tt ->
       exists row,
         printed (Results.comparison_row r) = [Results.L_row row] /\
         Results.row_name row = Results.scenario r /\
         Results.row_rtt row = Results.rtt_column r) /\
      (forall results,
          In r results ->
          outcome (Results.print_comparison results) = Ok tt ->
          exists row,
            In (Results.L_row row)
               (printed (Results.print_comparison results)) /\
            Results.row_name row = Results.scenario r /\
            Results.row_rtt row = Results.rtt_column r) /\
      (forall fs files,
          In r (flat_map (Results.attempt fs) files) ->
          (2 <= List.length (flat_map (Results.attempt fs) files))%nat ->
          outcome (Results.main fs files) = Ok Done ->
          exists row,
            In (Results.L_row row) (printed (Results.main fs files)) /\
            Results.row_name row = Results.scenario r /\
            Results.row_rtt row = Results.rtt_column r).
Proof.
  intros name events r Ha.
  apply analyze_events_inv in Ha.
  destruct Ha as (pings & directs & relays & rtts & drtts & _ & _ & _ &
                  Hr & Hd & _ & _ & _ & _ & _ & _ & _ & Hmean & _ & _ &
                  Hdm & _).
  exists rtts, drtts. repeat (split; [assumption|]).
  split; [|split; [|split; [|split]]].
  - unfold Results.rtt_column. rewrite Hmean, Hdm.
    destruct drtts, rtts; reflexivity.
  - intros row H. unfold Results.comparison_row in H.
    in_printed H. injection H as <-. reflexivity.
  - intros Ho. exists (row_of r).
    rewrite (comparison_row_ok r (comparison_row_columns r Ho)).
    repeat split.
  - intros results Hin Ho. exists (row_of r).
    split; [exact (proj2 (print_comparison_rows results Ho r Hin))|].
    split; reflexivity.
  - intros fs files Hin Hlen Ho. exists (row_of r).
    split; [|split; reflexivity].
    assert (H0 : exit_status (outcome (Results.main fs files)) = 0%Z)
      by (rewrite Ho; reflexivity).
    apply results_exit_zero in H0 as [Hne Hall].
    destruct (results_main_complete fs files Hne Hall) as [Hc ->].
    cbn [printed]. apply in_or_app. right. apply in_or_app. right.
    replace (1 <? List.length (flat_map (Results.attempt fs) files))%nat
      with true by (symmetry; apply Nat.ltb_lt; lia).
    exact (proj2 (print_comparison_rows _ Hc r Hin)).
Qed.

(** In one table the column holds the direct mean (10, not the mean 20 of
    all pings) for a run with a direct ping, and the mean of all pings for a
    run that stayed on the relay: both rows are printed by the run over
    the two files. *)
Lemma C10_mixed_column :
  exists ra rb rowa rowb,
    Results.analyze_file Sample.mixed_and_relay "mixed.jsonl" = Ok ra /\
    Results.analyze_file Sample.mixed_and_relay "relay.jsonl" = Ok rb /\
    Results.rtt_column ra = 10 /\ Results.rtt_column rb = 50 /\
    In (Results.L_row rowa)
       (printed (Results.main Sample.mixed_and_relay
                              ["mixed.jsonl"; "relay.jsonl"])) /\
    Results.row_name rowa = "mixed" /\ Results.row_rtt rowa = 10 /\
    In (Results.L_row rowb)
       (printed (Results.main Sample.mixed_and_relay
                              ["mixed.jsonl"; "relay.jsonl"])) /\
    Results.row_name rowb = "relay" /\ Results.row_rtt rowb = 50.
Proof.
  eexists. eexists.
  match goal with
  | |- exists rowa rowb, ?a = Ok ?ra /\ ?b = Ok ?rb /\ _ =>
      assert (Ha : a = Ok ra) by (vm_compute; reflexivity);
      assert (Hb : b = Ok rb) by (vm_compute; reflexivity);
      destruct (C10_rtt_column "mixed.jsonl" Sample.mixed_run ra eq_refl)
        as (rtts & drtts & Hr & Hd & Hc & _ & _ & _ & Hmain);
      destruct (C10_rtt_column "relay.jsonl" Sample.relay_run rb eq_refl)
        as (rtts' & drtts' & Hr' & Hd' & Hc' & _ & _ & _ & Hmain')
  end.
  vm_compute in Hr, Hd, Hr', Hd'.
  injection Hr as <-. injection Hd as <-.
  injection Hr' as <-. injection Hd' as <-.
  destruct (Hmain Sample.mixed_and_relay ["mixed.jsonl"; "relay.jsonl"])
    as (rowa & Hina & Hna & Hrtta);
    [left; reflexivity | simpl; lia | reflexivity |].
  destruct (Hmain' Sample.mixed_and_relay ["mixed.jsonl"; "relay.jsonl"])
    as (rowb & Hinb & Hnb & Hrttb);
    [right; left; reflexivity | simpl; lia | reflexivity |].
  exists rowa, rowb.
  split; [exact Ha|]. split; [exact Hb|].
  split; [exact Hc|]. split; [exact Hc'|].
  split; [exact Hina|]. split; [rewrite Hna; reflexivity|].
  split; [rewrite Hrtta; exact Hc|].
  split; [exact Hinb|]. split; [rewrite Hnb; reflexivity|].
  rewrite Hrttb. exact Hc'.
Defined.

(** C5, as claimed, fails for analyze-stress.py: with [a.jsonl] missing the
    run stops after the banner with the exception, and [b.jsonl], which
    exists, is not reported. *)
Lemma C5_stress_stops_at_missing_file :
  Stress.main Sample.only_b ["a.jsonl"; "b.jsonl"] =
    Run [Stress.L_box_top; Stress.L_box_title; Stress.L_box_bottom;
         Stress.L_files 2] (Raise FileNotFoundError).
Proof. vm_compute. reflexivity. Qed.

(** C5, amended. In analyze-results.py a path that does not exist gets its
    [SKIP] line and the loop goes on: it ends with the results of all the
    files that can be analysed, and the section of each of them is printed
    (when no section raises). In analyze-stress.py the exception of a
    missing file leaves [main]: the run does not reach its end, and when
    the reports of the paths sorted before the missing one ended well, it
    is the banner and these reports that are printed, nothing of a later
    file, and the run ends with [FileNotFoundError]. *)
Theorem C5_missing_file :
  (forall fs files,
      outcome (Results.analyze_all fs files []) =
        Ok (flat_map (Results.attempt fs) files)) /\
  (forall fs files f,
      In f files -> fs f = None ->
      In (Results.L_skip f) (printed (Results.main fs files))) /\
  (forall fs files r,
      In r (flat_map (Results.attempt fs) files) ->
      (forall r', In r' (flat_map (Results.attempt fs) files) ->
                  outcome (Results.print_single r') = Ok tt) ->
      In (Results.L_file (Results.file r))
         (printed (Results.main fs files))) /\
  (forall fs files f,
      In f files -> fs f = None ->
      (exists e, outcome (Stress.main fs files) = Raise e) /\
      ~ In Stress.L_done (printed (Stress.main fs files))) /\
  (forall fs files pre m post,
      sorted_str files = pre ++ m :: post ->
      (forall p, In p pre -> outcome (Stress.report_file fs p) = Ok tt) ->
      fs m = None ->
      Stress.main fs files =
        Run (banner (List.length files)
             ++ flat_map (fun p => printed (Stress.report_file fs p)) pre)
            (Raise FileNotFoundError)).
Proof.
  split; [|split; [|split; [|split]]].
  - intros fs files. apply (analyze_all_outcome fs files []).
  - exact results_main_skip.
  - exact results_main_sections.
  - exact stress_main_missing.
  - intros fs files pre m post Hs Hpre Hm.
    pose proof (report_of_missing_file fs m Hm) as E.
    rewrite (stress_main_stops fs files pre post m FileNotFoundError Hs Hpre)
      by (rewrite E; reflexivity).
    rewrite E. cbn [printed]. rewrite app_nil_r. reflexivity.
Qed.

(** With [a.jsonl] missing and [b.jsonl] present, analyze-results.py skips
    the first and prints the section of the second; analyze-stress.py
    ends with an exception. With [b.jsonl] missing between [a.jsonl] and
    [c.jsonl], analyze-stress.py reports [a.jsonl] and stops: nothing of
    [c.jsonl] is printed. *)
Lemma C5_a_missing_b_present :
  In (Results.L_skip "a.jsonl")
     (printed (Results.main Sample.only_b ["a.jsonl"; "b.jsonl"])) /\
  In (Results.L_file "b.jsonl")
     (printed (Results.main Sample.only_b ["a.jsonl"; "b.jsonl"])) /\
  (exists e,
    outcome (Stress.main Sample.only_b ["a.jsonl"; "b.jsonl"]) = Raise e) /\
  Stress.main Sample.a_and_c ["c.jsonl"; "b.jsonl"; "a.jsonl"] =
    Run [Stress.L_box_top; Stress.L_box_title; Stress.L_box_bottom;
         Stress.L_files 3; Stress.L_empty "/a.jsonl"]
        (Raise FileNotFoundError).
Proof.
  destruct C5_missing_file as (_ & Hskip & Hsec & Hstress & Hstop).
  split; [|split; [|split]].
  - apply Hskip; [left; reflexivity | reflexivity].
  - destruct (Results.analyze_file Sample.only_b "b.jsonl") as [r|e] eqn:E;
      [|vm_compute in E; discriminate].
    assert (Hr : flat_map (Results.attempt Sample.only_b) ["a.jsonl"; "b.jsonl"]
                 = [r]).
    { unfold flat_map, Results.attempt. rewrite E. reflexivity. }
    assert (Hn : Results.file r = "b.jsonl")
      by (vm_compute in E; injection E as <-; reflexivity).
    pose proof (Hsec Sample.only_b ["a.jsonl"; "b.jsonl"] r) as H.
    rewrite Hn in H. apply H.
    + rewrite Hr. left. reflexivity.
    + rewrite Hr. intros r' [<-|[]].
      vm_compute in E. injection E as <-. reflexivity.
  - apply (Hstress Sample.only_b ["a.jsonl"; "b.jsonl"] "a.jsonl");
      [left; reflexivity | reflexivity].
  - exact (Hstop Sample.a_and_c ["c.jsonl"; "b.jsonl"; "a.jsonl"]
                 ["a.jsonl"] "b.jsonl" ["c.jsonl"] eq_refl
                 ltac:(intros p [<-|[]]; reflexivity) eq_refl).
Defined.

(** C6, as claimed, fails: the only file holds no event, and both scripts
    end with status 0; analyze-results.py prints a zero-filled section for
    it. *)
Lemma C6_empty_file_exits_zero :
  Stress.load_events Sample.only_empty "empty.jsonl" = Ok [] /\
  exit_status (outcome (Results.main Sample.only_empty ["empty.jsonl"]))
    = 0%Z /\
  In (Results.L_total_pings 0)
     (printed (Results.main Sample.only_empty ["empty.jsonl"])) /\
  exit_status (outcome (Stress.main Sample.only_empty ["empty.jsonl"]))
    = 0%Z.
Proof. vm_compute. intuition. Qed.

(** C6, amended. analyze-results.py ends with status 0 exactly when some
    file gives a result and the section of every result is printed to its
    end; it calls [sys.exit(1)] exactly when no file gives a result, that
    is when the analysis of every file raises (a missing file, a record
    that cannot be analysed) or no path is given; in every other run an
    exception leaves [main], status 1 as well. A file that holds no event
    gives a result, with zero pings, whose section is printed to its end,
    so that a run over such files ends with status 0. analyze-stress.py
    ends with status 0 exactly when it is given a path and the report of
    every file ends well; a file that holds no event gets its
    "(empty: ...)" line, and a run over such files ends normally. *)
Theorem C6_exit_status :
  (forall fs files,
      exit_status (outcome (Results.main fs files)) = 0%Z <->
      (exists f r, In f files /\ Results.analyze_file fs f = Ok r) /\
      (forall f r, In f files -> Results.analyze_file fs f = Ok r ->
                   outcome (Results.print_single r) = Ok tt)) /\
  (forall fs files,
      outcome (Results.main fs files) = Ok Done \/
      outcome (Results.main fs files) = Ok (SysExit 1) \/
      exists e, outcome (Results.main fs files) = Raise e) /\
  (forall fs files,
      outcome (Results.main fs files) = Ok (SysExit 1) <->
      (forall f, In f files ->
                 exists e, Results.analyze_file fs f = Raise e)) /\
  (forall fs f lines,
      fs f = Some lines -> flat_map decoded lines = [] ->
      exists r, Results.analyze_file fs f = Ok r /\
                Results.total_pings r = 0%nat /\
                Results.rtt_mean r = None /\
                outcome (Results.print_single r) = Ok tt) /\
  (forall fs files,
      files <> [] ->
      (forall f, In f files ->
                 exists lines,
                   fs f = Some lines /\ flat_map decoded lines = []) ->
      outcome (Results.main fs files) = Ok Done) /\
  (forall fs files,
      exit_status (outcome (Stress.main fs files)) = 0%Z <->
      files <> [] /\
      forall f, In f files -> outcome (Stress.report_file fs f) = Ok tt) /\
  (forall fs files,
      files <> [] ->
      (forall f, In f files -> Stress.load_events fs f = Ok []) ->
      outcome (Stress.main fs files) = Ok Done /\
      forall f, In f files ->
                In (Stress.L_empty (Stress.label_of f))
                   (printed (Stress.main fs files))).
Proof.
  assert (Hzero : forall fs files,
             exit_status (outcome (Results.main fs files)) = 0%Z <->
             (exists f r, In f files /\ Results.analyze_file fs f = Ok r) /\
             (forall f r, In f files -> Results.analyze_file fs f = Ok r ->
                          outcome (Results.print_single r) = Ok tt)).
  { intros fs files. rewrite results_exit_zero. split.
    - intros [Hne Hall]. split.
      + destruct (flat_map (Results.attempt fs) files) as [|r rs] eqn:E;
          [congruence|].
        assert (Hr : In r (flat_map (Results.attempt fs) files))
          by (rewrite E; left; reflexivity).
        apply attempts_in in Hr as (f & Hf & Hr). eauto.
      + intros f r Hf Hr. apply Hall. apply attempts_in. eauto.
    - intros [(f & r & Hf & Hr) Hall]. split.
      + intros E.
        assert (Hin : In r (flat_map (Results.attempt fs) files))
          by (apply attempts_in; eauto).
        rewrite E in Hin. destruct Hin.
      + intros r' Hr'. apply attempts_in in Hr' as (f' & Hf' & Hr').
        eauto. }
  assert (Hempty : forall fs f lines,
             fs f = Some lines -> flat_map decoded lines = [] ->
             exists r, Results.analyze_file fs f = Ok r /\
                       Results.total_pings r = 0%nat /\
                       Results.rtt_mean r = None /\
                       outcome (Results.print_single r) = Ok tt).
  { intros fs f lines Hf He. unfold Results.analyze_file. rewrite Hf, He.
    eexists. split; [reflexivity|]. repeat split. }
  split; [exact Hzero|]. split; [|split; [|split; [exact Hempty|split]]].
  - intros fs files.
    destruct (outcome (Results.main fs files)) as [[|c]|e] eqn:E;
      [left; reflexivity| |right; right; eauto].
    right. left. unfold Results.main in E.
    destruct files as [|f0 files]; [injection E as <-; reflexivity|].
    cbn [Results.is_empty] in E.
    rewrite outcome_bind, (analyze_all_outcome fs (f0 :: files) []) in E.
    cbn [app] in E.
    destruct (flat_map (Results.attempt fs) (f0 :: files)) as [|r0 rs];
      [injection E as <-; reflexivity|].
    cbn [Results.is_empty] in E. rewrite outcome_bind in E.
    destruct (outcome (for_each (r0 :: rs) Results.print_single));
      [|discriminate E].
    rewrite outcome_bind in E.
    destruct (outcome (if (1 <? List.length (r0 :: rs))%nat
                       then Results.print_comparison (r0 :: rs)
                       else ret tt)); discriminate E.
  - intros fs files. rewrite results_main_exit. apply attempts_nil.
  - intros fs files Hne Hall.
    assert (Hres : forall r, In r (flat_map (Results.attempt fs) files) ->
                             outcome (Results.print_single r) = Ok tt).
    { intros r Hr. apply attempts_in in Hr as (f & Hf & Hr).
      destruct (Hall f Hf) as (lines & Hl & He).
      destruct (Hempty fs f lines Hl He) as (r' & Hr' & _ & _ & Ho).
      congruence. }
    assert (Hsome : flat_map (Results.attempt fs) files <> []).
    { destruct files as [|f0 files]; [congruence|].
      destruct (Hall f0 (or_introl eq_refl)) as (lines & Hf & He).
      destruct (Hempty fs f0 lines Hf He) as (r & Hr & _).
      intros E.
      assert (Hin : In r (flat_map (Results.attempt fs) (f0 :: files)))
        by (apply attempts_in; exists f0; split; [left; reflexivity|exact Hr]).
      rewrite E in Hin. destruct Hin. }
    destruct (results_main_complete fs files Hsome Hres) as [_ ->].
    reflexivity.
  - split; [exact stress_exit_zero | exact stress_main_all_empty].
Qed.

(** The file without events: both scripts end with status 0,
    analyze-stress.py with the "(empty)" line. *)
Lemma C6_file_without_events :
  exit_status (outcome (Results.main Sample.only_empty ["empty.jsonl"]))
    = 0%Z /\
  exit_status (outcome (Stress.main Sample.only_empty ["empty.jsonl"]))
    = 0%Z /\
  In (Stress.L_empty "/empty.jsonl")
     (printed (Stress.main Sample.only_empty ["empty.jsonl"])).
Proof.
  destruct C6_exit_status as (_ & _ & _ & _ & Hres & _ & Hstress).
  split.
  - rewrite (Hres Sample.only_empty ["empty.jsonl"]); [reflexivity| |].
    + discriminate.
    + intros f [<-|[]]. exists Sample.no_events. split; reflexivity.
  - destruct (Hstress Sample.only_empty ["empty.jsonl"]) as [Ho Hp].
    + discriminate.
    + intros f [<-|[]]. reflexivity.
    + split; [rewrite Ho; reflexivity|].
      apply (Hp "empty.jsonl"). left. reflexivity.
Defined.

(** C9, as claimed, fails for analyze-results.py: given [b.jsonl] before
    [a.jsonl] it prints the section of [b.jsonl] first. *)
Lemma C9_results_keeps_argument_order :
  filter Results.is_file_line
         (printed (Results.main Sample.a_and_b ["b.jsonl"; "a.jsonl"]))
    = [Results.L_file "b.jsonl"; Results.L_file "a.jsonl"] /\
  sorted_str ["b.jsonl"; "a.jsonl"] = ["a.jsonl"; "b.jsonl"].
Proof. vm_compute. split; reflexivity. Qed.

(** C9, amended. analyze-stress.py goes through the sorted arrangement of
    its paths: after the banner it prints the reports of the files in
    that order, up to the closing lines or up to the report that raises,
    so that its whole run is the same for every order of the paths on the
    command line. analyze-results.py collects its results, and prints
    their sections, in the order of the command line. *)
Theorem C9_processing_order :
  (forall fs files files',
      Permutation files files' ->
      Stress.main fs files = Stress.main fs files') /\
  (forall files,
      Permutation files (sorted_str files) /\
      StronglySorted (fun x y => String.leb x y = true) (sorted_str files)) /\
  (forall fs files,
      files <> [] ->
      (forall f, In f files -> outcome (Stress.report_file fs f) = Ok tt) ->
      printed (Stress.main fs files) =
        banner (List.length files)
        ++ flat_map (fun p => printed (Stress.report_file fs p))
                    (sorted_str files)
        ++ [Stress.L_end_rule; Stress.L_done]) /\
  (forall fs files pre m post e,
      sorted_str files = pre ++ m :: post ->
      (forall p, In p pre -> outcome (Stress.report_file fs p) = Ok tt) ->
      outcome (Stress.report_file fs m) = Raise e ->
      printed (Stress.main fs files) =
        banner (List.length files)
        ++ flat_map (fun p => printed (Stress.report_file fs p)) pre
        ++ printed (Stress.report_file fs m)) /\
  (forall fs files,
      outcome (Results.analyze_all fs files []) =
        Ok (flat_map (Results.attempt fs) files)) /\
  (forall fs files,
      flat_map (Results.attempt fs) files <> [] ->
      (forall r, In r (flat_map (Results.attempt fs) files) ->
                 outcome (Results.print_single r) = Ok tt) ->
      printed (Results.main fs files) =
        flat_map (diagnostic fs) files
        ++ flat_map (fun r => printed (Results.print_single r))
                    (flat_map (Results.attempt fs) files)
        ++ (if (1 <? List.length (flat_map (Results.attempt fs) files))%nat
            then printed (Results.print_comparison
                            (flat_map (Results.attempt fs) files))
            else [])).
Proof.
  split; [|split; [|split; [|split; [|split]]]].
  - exact stress_main_permutation.
  - intros files. split; [apply sorted_str_perm | apply sorted_str_sorted].
  - intros fs files Hne Hall.
    rewrite (stress_main_complete fs files Hne Hall). reflexivity.
  - intros fs files pre m post e Hs Hpre Hm.
    rewrite (stress_main_stops fs files pre post m e Hs Hpre Hm).
    reflexivity.
  - intros fs files. apply (analyze_all_outcome fs files []).
  - intros fs files Hne Hall.
    destruct (results_main_complete fs files Hne Hall) as [_ ->].
    reflexivity.
Qed.

(** Two paths given as [b.jsonl], [a.jsonl]: analyze-stress.py reports
    [a.jsonl] first, and the run is that of the other order. *)
Lemma C9_two_orders :
  Stress.main Sample.a_and_b ["b.jsonl"; "a.jsonl"] =
  Stress.main Sample.a_and_b ["a.jsonl"; "b.jsonl"] /\
  printed (Stress.main Sample.a_and_b ["b.jsonl"; "a.jsonl"]) =
    banner 2
    ++ printed (Stress.report_file Sample.a_and_b "a.jsonl")
    ++ printed (Stress.report_file Sample.a_and_b "b.jsonl")
    ++ [Stress.L_end_rule; Stress.L_done] /\
  In (Stress.L_heading "PING" "/a.jsonl")
     (printed (Stress.report_file Sample.a_and_b "a.jsonl")) /\
  In (Stress.L_heading "PING" "/b.jsonl")
     (printed (Stress.report_file Sample.a_and_b "b.jsonl")).
Proof.
  destruct C9_processing_order as (Hperm & _ & Hsorted & _).
  split; [apply Hperm; apply perm_swap|].
  split.
  - rewrite (Hsorted Sample.a_and_b ["b.jsonl"; "a.jsonl"]).
    + replace (sorted_str ["b.jsonl"; "a.jsonl"])
        with ["a.jsonl"; "b.jsonl"] by reflexivity.
      cbn [flat_map]. rewrite app_nil_r, <- app_assoc. reflexivity.
    + discriminate.
    + intros f [<-|[<-|[]]]; reflexivity.
  - split; vm_compute; tauto.
Defined.
End Claims.
